(** * Telebox mass uploader: the mirror driver and its remote client

    A shallow embedding of [src/telebox/__init__.py] (classes [Search],
    [Folder], [Upload]) and of [src/app/teleboximp.py] (class
    [TeleboxImpl]), followed by the properties of the mirroring algorithm.

    What is outside the program is a parameter of the development:
    - the local file system ([os.listdir], [os.path.isfile], ...) is a
      record of read-only oracles over path strings;
    - the Telebox service is a deterministic state machine answering the
      GET requests of [Connect.get_data] and the PUT of [Upload.upload];
    - [app/config.py] is a record of the two values the driver reads;
    - the thread scheduler of [ThreadPoolExecutor] is a list of choices.

    Transport failures ([raise_for_status]) and responses lacking a JSON
    key are not modelled: every request is answered by a response record,
    and the elements of a listing are objects with the four fields the
    program reads.  Strings hold ASCII characters. *)

From Stdlib Require Import ZArith List String Ascii Bool Lia Arith.
From Stdlib Require Import Permutation.
Import ListNotations.

Open Scope string_scope.
Open Scope list_scope.

(* ================================================================== *)
(** ** Python values *)

(** The values [arguments.basefolder] and the configuration can hold:
    [None], a string from the command line, or an integer. *)
Inductive pyval : Type :=
| PyNone
| PyStr (s : string)
| PyInt (z : Z).

(** Python truthiness. *)
Definition truthy (v : pyval) : bool :=
  match v with
  | PyNone => false
  | PyStr s => negb (String.eqb s "")
  | PyInt z => negb (Z.eqb z 0)
  end.

(** [a or b]. *)
Definition py_or (a b : pyval) : pyval := if truthy a then a else b.

(** What [int] takes for white space in an ASCII string: the characters
    9 to 13 and the blank. *)
Definition is_space (c : ascii) : bool :=
  let n := nat_of_ascii c in
  ((9 <=? n) && (n <=? 13) || (n =? 32))%nat.

Definition digit_of (c : ascii) : option Z :=
  let n := nat_of_ascii c in
  if ((48 <=? n) && (n <=? 57))%nat then Some (Z.of_nat (n - 48)) else None.

Fixpoint only_spaces (s : string) : bool :=
  match s with
  | EmptyString => true
  | String c rest => is_space c && only_spaces rest
  end.

Fixpoint skip_spaces (s : string) : string :=
  match s with
  | EmptyString => s
  | String c rest => if is_space c then skip_spaces rest else s
  end.

(** The digits of a literal and the white space behind them: single
    underscores are allowed between two digits, and the interpreter
    refuses more than 4300 digits.  [after_digit] tells whether the
    character just read was a digit, [count] how many digits were read. *)
Fixpoint int_digits (acc count : Z) (after_digit : bool) (s : string)
  : option Z :=
  match s with
  | EmptyString =>
      if after_digit && (count <=? 4300)%Z then Some acc else None
  | String c rest =>
      match digit_of c with
      | Some d => int_digits (10 * acc + d) (count + 1) true rest
      | None =>
          if after_digit then
            if Ascii.eqb c "_" then int_digits acc count false rest
            else if only_spaces s && (count <=? 4300)%Z then Some acc
                 else None
          else None
      end
  end.

(** [int(s)] on a string, as CPython 3.11 reads it: white space on both
    sides, an optional sign, then the digits. *)
Definition int_of_str (s : string) : option Z :=
  match skip_spaces s with
  | EmptyString => None
  | String c rest =>
      if Ascii.eqb c "-" then option_map Z.opp (int_digits 0 0 false rest)
      else if Ascii.eqb c "+" then int_digits 0 0 false rest
      else int_digits 0 0 false (String c rest)
  end.

(** [int(v)]: the identity on integers, the reading of the literal on
    strings ([None] for the [ValueError]), [None] for the [TypeError] on
    Python's [None]. *)
Definition py_int (v : pyval) : option Z :=
  match v with
  | PyNone => None
  | PyStr s => int_of_str s
  | PyInt z => Some z
  end.

(* ================================================================== *)
(** ** Paths *)

(** [os.path.basename]: what follows the last slash. *)
Fixpoint basename_from (acc p : string) : string :=
  match p with
  | EmptyString => acc
  | String c rest =>
      if Ascii.eqb c "/" then basename_from rest rest else basename_from acc rest
  end.

Definition basename (p : string) : string := basename_from p p.

Fixpoint ends_with_slash (p : string) : bool :=
  match p with
  | EmptyString => false
  | String c EmptyString => Ascii.eqb c "/"
  | String _ rest => ends_with_slash rest
  end.

(** [os.path.join a b] (posixpath, two arguments). *)
Definition path_join (a b : string) : string :=
  match b with
  | String c _ =>
      if Ascii.eqb c "/" then b
      else if String.eqb a "" || ends_with_slash a then a ++ b
      else a ++ "/" ++ b
  | EmptyString =>
      if String.eqb a "" || ends_with_slash a then a else a ++ "/"
  end.

(* ================================================================== *)
(** ** The environment: file system, configuration, remote service *)

(** The local file system, read-only during a run.  [None] stands for the
    [OSError] the call raises. *)
Record FileSystem : Type := {
  listdir : string -> option (list string);
  isfile : string -> bool;
  isdir : string -> bool;
  getsize : string -> option Z;
  (** [hashlib.md5] of the first 10 MiB of the file, as a hex digest *)
  md5_of_first_10mb : string -> option string
}.

(** The two values of [Config] the driver reads ([app/config.py] is not
    part of the sources). *)
Record Config : Type := {
  TELEBOX_BASEFOLDER : pyval;
  USR_LIMIT_CONCURRENT : pyval
}.

(** One element of [data.list] in a search response. *)
Record entry : Type := {
  e_id : Z;
  e_name : string;
  e_type : string;
  e_pid : Z
}.

(** The GET requests of the client, one constructor per endpoint, with the
    query parameters of the dictionaries built in the source. *)
Inductive request : Type :=
| SearchFile (pid : Z) (name : string) (pageNo pageSize : Z)
| FolderCreate (pid : Z) (name : string)
               (isShare canInvite canShare withBodyImg : Z) (desc : string)
| UploadPrepare (fileMd5ofPre10m : string) (fileSize : Z)
| UploadFinish (fileMd5ofPre10m : string) (fileSize : Z) (pid : Z)
               (diyName : string).

(** The value of [data.list] in an answer: a list of entries, or another
    JSON value, of which the program tests the truth only ([null], [0],
    the empty string and the empty object are false). *)
Inductive listing : Type :=
| Entries (l : list entry)
| NotAList (truthy : bool).

(** The JSON answer: [status] and the fields of [data] the client reads. *)
Record response : Type := {
  status : Z;
  data_list : listing;
  data_dirId : Z;
  data_signUrl : string;
  data_itemId : Z
}.

(** The remote service. *)
Record Remote : Type := {
  rstate : Type;
  http_get : rstate -> request -> rstate * response;
  (** [requests.put url data=file]; the answer is not looked at *)
  http_put : rstate -> string -> string -> rstate
}.

(* ================================================================== *)
(** ** Objects, events, outcomes *)

(** The [argparse] namespace handed to [TeleboxImpl]. *)
Record Namespace : Type := {
  dir : string;
  foldername : string;
  basefolder : pyval
}.

(** Objects live in a store and are passed by reference. *)
Definition loc : Type := nat.
Definition heap : Type := loc -> Namespace.

Definition store (h : heap) (l : loc) (v : Namespace) : heap :=
  fun l' => if Nat.eqb l' l then v else h l'.

(** The arguments of one call of [upload_file_and_print_status]. *)
Record task : Type := {
  t_i : nat;
  t_total : nat;
  t_directory : string;
  t_file : string;
  t_pid : Z
}.

(** The lines the program prints ([str(len(...))] kept as a number, the
    time stamp of the upload line left out). *)
Inductive message : Type :=
| MsgUploading (n total : nat) (file : string)
| MsgMainFolder (name : string) (folder_pid : Z)
| MsgSeparator
| MsgFolderPid (currentName directory : string) (subfolder_pid : Z)
| MsgStartUploading
| MsgEndUploading.

Inductive failure : Type :=
| SystemExit (msg : string)      (* sys.exit(msg) *)
| Exception (name : string)      (* an uncaught exception *)
| OutOfFuel.                     (* the recursion bound of the model *)

Inductive outcome (A : Type) : Type :=
| Ret (a : A)
| Fail (f : failure).
Arguments Ret {A} a.
Arguments Fail {A} f.

(** What a run does, in order. *)
Inductive event : Type :=
| EvGet (req : request) (resp : response)
| EvPut (url file : string)
| EvPrint (m : message)
| EvSubmit (t : task)                       (* executor.submit *)
| EvDone (t : task) (result : outcome unit). (* the future of [t] is set *)

(* ================================================================== *)
(** ** The monad of the program: state, trace, failure *)

Record state (R : Remote) : Type := {
  st_heap : heap;
  st_remote : rstate R;
  st_sched : list nat
}.
Arguments st_heap {R} s.
Arguments st_remote {R} s.
Arguments st_sched {R} s.
Arguments Build_state {R} _ _ _.

Definition M (R : Remote) (A : Type) : Type :=
  state R -> outcome A * state R * list event.

Section Monad.
Context {R : Remote}.

Definition ret {A} (a : A) : M R A := fun s => (Ret a, s, []).

Definition bind {A B} (m : M R A) (f : A -> M R B) : M R B :=
    fun s =>
      match m s with
      | (Ret a, s1, t1) =>
          match f a s1 with
          | (o, s2, t2) => (o, s2, t1 ++ t2)
          end
      | (Fail e, s1, t1) => (Fail e, s1, t1)
      end.

Definition fail {A} (e : failure) : M R A := fun s => (Fail e, s, []).

Definition sys_exit {A} (msg : string) : M R A := fail (SystemExit msg).

Definition raise {A} (name : string) : M R A := fail (Exception name).

Definition emit (e : event) : M R unit := fun s => (Ret tt, s, [e]).

Definition print (m : message) : M R unit := emit (EvPrint m).

  (** An [option] of the environment, raising on [None]. *)
Definition or_raise {A} (o : option A) (name : string) : M R A :=
    match o with
    | Some a => ret a
    | None => raise name
    end.

  (** Attribute access on an object of the store. *)
Definition load (l : loc) : M R Namespace :=
    fun s => (Ret (st_heap s l), s, []).

Definition setattr (l : loc) (f : Namespace -> Namespace) : M R unit :=
    fun s =>
      (Ret tt,
       Build_state (store (st_heap s) l (f (st_heap s l)))
                   (st_remote s) (st_sched s),
       []).

  (** [Connect.get_data]: one GET, answered by the service. *)
Definition get_data (req : request) : M R response :=
    fun s =>
      match http_get R (st_remote s) req with
      | (r', resp) =>
          (Ret resp, Build_state (st_heap s) r' (st_sched s), [EvGet req resp])
      end.

Definition requests_put (url file : string) : M R unit :=
    fun s =>
      (Ret tt,
       Build_state (st_heap s) (http_put R (st_remote s) url file) (st_sched s),
       [EvPut url file]).

  (** The next choice of the thread scheduler (0 once the list is used up). *)
Definition next_choice : M R nat :=
    fun s =>
      match st_sched s with
      | [] => (Ret 0%nat, s, [])
      | c :: rest => (Ret c, Build_state (st_heap s) (st_remote s) rest, [])
      end.

  (** [for x in l: body x]. *)
Fixpoint for_each {A} (l : list A) (body : A -> M R unit) : M R unit :=
    match l with
    | [] => ret tt
    | x :: rest => bind (body x) (fun _ => for_each rest body)
    end.
End Monad.

Notation "x <- m ;; k" := (bind m (fun x => k))
  (at level 61, m at next level, right associativity).
Notation "m ;;; k" := (bind m (fun _ => k))
  (at level 61, right associativity).

(* ================================================================== *)
(** ** [telebox/__init__.py] *)

Module Search.
Section Search.
Context {R : Remote}.

Definition search (filename : string) (folder_id : Z) : M R response :=
    get_data (SearchFile folder_id filename 1 50).

  (** Returns the id, or [None] for Python's [False]. *)
Definition folder_exists (filename : string) (folder_id : Z)
    : M R (option Z) :=
    lot <- search filename folder_id ;;
    match data_list lot with
    | Entries (first :: _) =>
        ret (if String.eqb (e_type first) "dir" && Z.eqb (e_pid first) folder_id
             then Some (e_id first) else None)
    | _ => ret None
    end.
End Search.
End Search.

Module Upload.
Section Upload.
Context {R : Remote}.
Variable fs : FileSystem.

Definition prepare (file_md5_of_pre_10m : string) (file_size : Z)
    : M R response :=
    get_data (UploadPrepare file_md5_of_pre_10m file_size).

Definition upload (url file : string) : M R unit :=
    _ <- or_raise (getsize fs file) "OSError" ;;
    requests_put url file.

Definition finish_upload (file_md5_of_pre_10m : string) (file_size pid : Z)
             (name : string) : M R response :=
    get_data (UploadFinish file_md5_of_pre_10m file_size pid name).

Definition get_md5_of_first_10mb (file_path : string) : M R string :=
    or_raise (md5_of_first_10mb fs file_path) "OSError".

Definition upload_file (file : string) (folder_id : Z) : M R Z :=
    file_size <- or_raise (getsize fs file) "OSError" ;;
    file_md5_of_pre_10m <- get_md5_of_first_10mb file ;;
    lot <- prepare file_md5_of_pre_10m file_size ;;
    if Z.eqb (status lot) 600 then ret 1%Z
    else if negb (Z.eqb (status lot) 1) then
      sys_exit "Prepare: Execution stopped. Cannot upload files"
    else
      let url := data_signUrl lot in
      upload url file ;;;
      lotf <- finish_upload file_md5_of_pre_10m file_size folder_id
                            (basename file) ;;
      if negb (Z.eqb (status lotf) 1) then
        sys_exit "Finish Upload: Execution stopped. Cannot upload files"
      else ret (data_itemId lotf).
End Upload.
End Upload.

Module Folder.
Section Folder.
Context {R : Remote}.

Definition create (filename : string) (destination_folder_id : Z) : M R Z :=
    lot <- get_data (FolderCreate destination_folder_id filename 0 1 1 0
                                  "TheWNetwork Telebox Mass Creator") ;;
    if negb (Z.eqb (status lot) 1) then
      sys_exit "Execution stopped. Cannot create folders"
    else ret (data_dirId lot).
End Folder.
End Folder.

(* ================================================================== *)
(** ** [concurrent.futures.ThreadPoolExecutor], running upload tasks *)

(** The pool is modelled for the one callable the driver submits,
    [TeleboxImpl.upload_file_and_print_status].  A worker thread advances
    through that call one observable action at a time; the scheduler
    decides which thread moves next, and how far the threads get between
    two statements of the driver.  Whatever the call raises, [sys.exit]
    included, ends in the future of the task and goes no further, since
    the driver never asks a future for its result. *)
Module Executor.
Section Executor.
Context {R : Remote}.
Variable fs : FileSystem.

(** [try: ... except BaseException], as the worker wraps a work item. *)
Definition attempt {A} (m : M R A) : M R (outcome A) :=
  fun s => match m s with (o, s', t) => (Ret o, s', t) end.

(** Where a thread stands in [upload_file_and_print_status]. *)
Inductive phase : Type :=
| AtPrint
| AtPrepare
| AtTransfer (file_md5_of_pre_10m : string) (file_size : Z) (url : string)
| AtFinish (file_md5_of_pre_10m : string) (file_size : Z).

Definition task_path (t : task) : string := t_directory t ++ "/" ++ t_file t.

(** One action of the thread running [t]: the next phase, or the outcome
    of the call once it has returned or raised. *)
Definition worker_step (t : task) (ph : phase) : M R (phase + outcome unit) :=
  match ph with
  | AtPrint =>
      print (MsgUploading (S (t_i t)) (t_total t) (t_file t)) ;;;
      ret (inl AtPrepare)
  | AtPrepare =>
      r <- attempt (file_size <- or_raise (getsize fs (task_path t)) "OSError" ;;
                    file_md5_of_pre_10m <-
                      Upload.get_md5_of_first_10mb fs (task_path t) ;;
                    lot <- Upload.prepare file_md5_of_pre_10m file_size ;;
                    ret (file_md5_of_pre_10m, file_size, lot)) ;;
      match r with
      | Fail e => ret (inr (Fail e))
      | Ret (file_md5_of_pre_10m, file_size, lot) =>
          if Z.eqb (status lot) 600 then ret (inr (Ret tt))
          else if negb (Z.eqb (status lot) 1) then
            ret (inr (Fail (SystemExit
                   "Prepare: Execution stopped. Cannot upload files")))
          else ret (inl (AtTransfer file_md5_of_pre_10m file_size
                                    (data_signUrl lot)))
      end
  | AtTransfer file_md5_of_pre_10m file_size url =>
      r <- attempt (Upload.upload fs url (task_path t)) ;;
      match r with
      | Fail e => ret (inr (Fail e))
      | Ret _ => ret (inl (AtFinish file_md5_of_pre_10m file_size))
      end
  | AtFinish file_md5_of_pre_10m file_size =>
      lotf <- Upload.finish_upload file_md5_of_pre_10m file_size (t_pid t)
                                   (basename (task_path t)) ;;
      if negb (Z.eqb (status lotf) 1) then
        ret (inr (Fail (SystemExit
               "Finish Upload: Execution stopped. Cannot upload files")))
      else ret (inr (Ret tt))
  end.

(** The work queue and the threads at work, oldest first. *)
Record pool : Type := {
  queue : list task;
  running : list (task * phase)
}.

(** A free worker takes the head of the queue while fewer than
    [max_workers] threads are at work. *)
Definition can_start (max_workers : nat) (p : pool) : bool :=
  match queue p with
  | [] => false
  | _ :: _ => Nat.ltb (List.length (running p)) max_workers
  end.

(** One scheduling decision: choice [c] designates a thread at work, which
    then performs its next action, or the free worker, which then takes
    the next task. *)
Definition pool_step (max_workers : nat) (p : pool) : M R pool :=
  c <- next_choice ;;
  let n := (List.length (running p) + (if can_start max_workers p then 1 else 0))%nat in
  let k := Nat.modulo c n in
  match skipn k (running p) with
  | (t, ph) :: later =>
      r <- worker_step t ph ;;
      match r with
      | inl ph' =>
          ret {| queue := queue p;
                 running := firstn k (running p) ++ (t, ph') :: later |}
      | inr result =>
          emit (EvDone t result) ;;;
          ret {| queue := queue p; running := firstn k (running p) ++ later |}
      end
  | [] =>
      match queue p with
      | t :: waiting =>
          if can_start max_workers p then
            ret {| queue := waiting; running := running p ++ [(t, AtPrint)] |}
          else ret p
      | [] => ret p
      end
  end.

(** [ThreadPoolExecutor(max_workers=...)]: no task, no thread. *)
Definition empty_pool : pool := {| queue := []; running := [] |}.

(** [executor.submit]: the task joins the work queue. *)
Definition submit (p : pool) (t : task) : M R pool :=
  emit (EvSubmit t) ;;;
  ret {| queue := queue p ++ [t]; running := running p |}.

Fixpoint pool_steps (max_workers k : nat) (p : pool) : M R pool :=
  match k with
  | O => ret p
  | S k' =>
      p' <- pool_step max_workers p ;;
      pool_steps max_workers k' p'
  end.

(** The threads go on while the driver does: before the driver's next
    statement the scheduler lets them take as many actions as it
    chooses. *)
Definition meanwhile (max_workers : nat) (p : pool) : M R pool :=
  k <- next_choice ;;
  pool_steps max_workers k p.

Fixpoint pool_loop (max_workers fuel : nat) (p : pool) : M R unit :=
  match queue p, running p with
  | [], [] => ret tt
  | _, _ =>
      match fuel with
      | O => fail OutOfFuel
      | S fuel' =>
          p' <- pool_step max_workers p ;;
          pool_loop max_workers fuel' p'
      end
  end.

(** [executor.shutdown(wait=True)], what leaving the [with] block does:
    the tasks of the pool are all run to their end.  A task takes at most
    five scheduling decisions. *)
Definition shutdown (max_workers : nat) (p : pool) : M R unit :=
  pool_loop max_workers
            (5 * (List.length (queue p) + List.length (running p))) p.
End Executor.
End Executor.

(* ================================================================== *)
(** ** [app/teleboximp.py] *)

Module TeleboxImpl.
Section TeleboxImpl.
Context {R : Remote}.
Variable fs : FileSystem.
Variable cfg : Config.

(** [int(v)] in the monad. *)
Definition int_ (v : pyval) : M R Z :=
  match v with
  | PyNone => raise "TypeError"
  | _ => or_raise (py_int v) "ValueError"
  end.

(** The walrus binds what [folder_exists] returns; [not pid] holds for
    [False] and for the id 0. *)
Definition create_folder_if_not_exists (foldername : string) (folder_id : Z)
  : M R Z :=
  found <- Search.folder_exists foldername folder_id ;;
  match found with
  | Some pid =>
      if Z.eqb pid 0 then Folder.create foldername folder_id else ret pid
  | None => Folder.create foldername folder_id
  end.

Definition upload_file_and_print_status (i total : nat)
           (directory file : string) (subfolder_pid : Z) : M R unit :=
  print (MsgUploading (S i) total file) ;;;
  Upload.upload_file fs (directory ++ "/" ++ file) subfolder_pid ;;;
  ret tt.

(** The [for] loop of [doit].  A file is submitted as soon as it is
    met, and the threads of the pool work while the loop goes on. *)
Fixpoint doit_loop (max_workers i : nat) (file_list : list string)
         (len_list : nat) (directory : string) (folder_pid : Z)
         (executor : Executor.pool) (has_directory : bool)
  : M R (Executor.pool * bool) :=
  match file_list with
  | [] => ret (executor, has_directory)
  | file :: rest =>
      executor <-
        (if isfile fs (directory ++ "/" ++ file)
         then Executor.submit executor
                {| t_i := i; t_total := len_list; t_directory := directory;
                   t_file := file; t_pid := folder_pid |}
         else ret executor) ;;
      executor <- Executor.meanwhile fs max_workers executor ;;
      doit_loop max_workers (S i) rest len_list directory folder_pid executor
                (if isdir fs (directory ++ "/" ++ file) then true
                 else has_directory)
  end.

Definition doit (file_list : list string) (len_list : nat)
           (directory : string) (folder_pid : Z) : M R bool :=
  max_workers <- int_ (USR_LIMIT_CONCURRENT cfg) ;;
  if Z.leb max_workers 0 then raise "ValueError"
  else
    r <- doit_loop (Z.to_nat max_workers) 0 file_list len_list directory
                   folder_pid
                   Executor.empty_pool false ;;
    Executor.shutdown fs (Z.to_nat max_workers) (fst r) ;;;
    ret (snd r).

(** Lines 69-80: the id of the remote folder for [directory].  A value
    of [data.list] that is true without being a list cannot be filtered:
    [filter] or the subscript [d['name']] raises [TypeError]. *)
Definition subfolder_id (folder_data : listing)
           (directory : string) (folder_pid : Z) : M R Z :=
  subfolder <-
    match folder_data with
    | Entries ((_ :: _) as l) =>
        ret (Some (filter (fun d => String.eqb (e_name d) directory) l))
    | NotAList true => raise "TypeError"
    | _ => ret None
    end ;;
  match subfolder with
  | Some (first :: _) => ret (e_id first)
  | _ =>
      subfolder_pid <- create_folder_if_not_exists directory folder_pid ;;
      if Z.eqb subfolder_pid (-1) then
        sys_exit "Execution stopped. Folder not created"
      else ret subfolder_pid
  end.

(** Lines 65-96: the body of the loop over [directories]; [self_main] is
    the recursive call. *)
Definition main_directory (self_main : loc -> M R unit) (arguments : loc)
           (currentDir currentName : string) (folder_pid : Z)
           (folder_data : listing) (directory : string)
  : M R unit :=
  print MsgSeparator ;;;
  subfolder_pid <- subfolder_id folder_data directory folder_pid ;;
  print (MsgFolderPid currentName directory subfolder_pid) ;;;
  print MsgStartUploading ;;;
  file_list <- or_raise
    (listdir fs (currentDir ++ "/" ++ currentName ++ "/" ++ directory))
    "OSError" ;;
  let len_list := List.length file_list in
  ret_ <- doit file_list len_list
            (currentDir ++ "/" ++ currentName ++ "/" ++ directory)
            subfolder_pid ;;
  (if ret_ : bool then
     let args2 := arguments in
     setattr args2 (fun a => {| dir := currentDir ++ "/" ++ currentName;
                                foldername := foldername a;
                                basefolder := basefolder a |}) ;;;
     setattr args2 (fun a => {| dir := dir a;
                                foldername := directory;
                                basefolder := basefolder a |}) ;;;
     setattr args2 (fun a => {| dir := dir a;
                                foldername := foldername a;
                                basefolder := PyInt subfolder_pid |}) ;;;
     self_main args2
   else ret tt) ;;;
  print MsgEndUploading.

(** Lines 60-61. *)
Definition root_flush (arguments : loc) (folder_pid : Z) : M R unit :=
  a <- load arguments ;;
  if negb (String.eqb (foldername a) "upload") then
    file_list <- or_raise (listdir fs (dir a)) "OSError" ;;
    doit file_list (List.length file_list) (dir a) folder_pid ;;;
    ret tt
  else ret tt.

Fixpoint main (fuel : nat) (arguments : loc) : M R unit :=
  match fuel with
  | O => fail OutOfFuel
  | S fuel' =>
      a <- load arguments ;;
      let currentDir := dir a in
      let currentName := foldername a in
      folder_pid <- int_ (py_or (basefolder a) (TELEBOX_BASEFOLDER cfg)) ;;
      lot <- Search.search "" folder_pid ;;
      let folder_data := data_list lot in
      a <- load arguments ;;
      print (MsgMainFolder (foldername a) folder_pid) ;;;
      root_flush arguments folder_pid ;;;
      a <- load arguments ;;
      entries <- or_raise (listdir fs (dir a ++ "/" ++ foldername a))
                          "OSError" ;;
      let directories :=
        filter (fun d => isdir fs (path_join (dir a ++ "/" ++ foldername a) d))
               entries in
      for_each directories
               (main_directory (main fuel') arguments currentDir currentName
                               folder_pid folder_data)
  end.
End TeleboxImpl.
End TeleboxImpl.

(* ================================================================== *)
(** ** Vocabulary of the properties *)


(** The parts of what running [m] from [s] gives. *)
Definition outcome_of {R A} (m : M R A) (s : state R) : outcome A :=
  fst (fst (m s)).
Definition state_after {R A} (m : M R A) (s : state R) : state R :=
  snd (fst (m s)).
Definition trace_of {R A} (m : M R A) (s : state R) : list event :=
  snd (m s).

(** Events of a worker thread of the pool. *)
Definition worker_event (e : event) : bool :=
  match e with
  | EvGet (UploadPrepare _ _) _ => true
  | EvGet (UploadFinish _ _ _ _) _ => true
  | EvPut _ _ => true
  | EvPrint (MsgUploading _ _ _) => true
  | EvDone _ _ => true
  | _ => false
  end.

(** Events of the driver outside a batch: the folder requests and the
    lines [main] prints. *)
Definition driver_event (e : event) : bool :=
  match e with
  | EvGet (SearchFile _ _ _ _) _ => true
  | EvGet (FolderCreate _ _ _ _ _ _ _) _ => true
  | EvPrint (MsgUploading _ _ _) => false
  | EvPrint _ => true
  | _ => false
  end.

(** The tasks handed to the pool, and those whose future is set, in
    order of occurrence. *)
Definition submitted (tr : list event) : list task :=
  flat_map (fun e => match e with EvSubmit t => [t] | _ => [] end) tr.

Definition completed (tr : list event) : list task :=
  flat_map (fun e => match e with EvDone t _ => [t] | _ => [] end) tr.

(** One batch of [doit]: submissions and the work of the pool, which
    ends every task submitted. *)
Definition batch (b : list event) : Prop :=
  Forall (fun e => driver_event e = false) b /\
  Permutation (submitted b) (completed b).

(** A trace made of driver events and whole batches. *)
Inductive phased : list event -> Prop :=
| phased_nil : phased []
| phased_driver e tr :
    driver_event e = true -> phased tr -> phased (e :: tr)
| phased_batch b tr :
    batch b -> phased tr -> phased (b ++ tr).

(** A folder-create answer that stops the run: a status other than 1, or
    the id -1. *)
Definition fatal_create (e : event) : bool :=
  match e with
  | EvGet (FolderCreate _ _ _ _ _ _ _) resp =>
      negb (Z.eqb (status resp) 1) || Z.eqb (data_dirId resp) (-1)
  | _ => false
  end.

(** A search request for the first page of 50. *)
Definition first_page_only (e : event) : Prop :=
  match e with
  | EvGet (SearchFile _ _ pageNo pageSize) _ => pageNo = 1%Z /\ pageSize = 50%Z
  | _ => True
  end.

Definition is_create (e : event) : bool :=
  match e with
  | EvGet (FolderCreate _ _ _ _ _ _ _) _ => true
  | _ => false
  end.

Definition transfer_or_finish (e : event) : bool :=
  match e with
  | EvPut _ _ => true
  | EvGet (UploadFinish _ _ _ _) _ => true
  | _ => false
  end.

(** The remaining actions of a thread, and of a pool. *)
Definition phase_weight (ph : Executor.phase) : nat :=
  match ph with
  | Executor.AtPrint => 4
  | Executor.AtPrepare => 3
  | Executor.AtTransfer _ _ _ => 2
  | Executor.AtFinish _ _ => 1
  end.

Definition running_weight (l : list (task * Executor.phase)) : nat :=
  fold_right (fun th n => (phase_weight (snd th) + n)%nat) 0%nat l.

Definition pool_weight (p : Executor.pool) : nat :=
  (5 * List.length (Executor.queue p) + running_weight (Executor.running p))%nat.

(** [rest] continues the string [a]. *)
Definition extends (a c : string) : Prop := exists rest, c = (a ++ rest)%string.

(* ================================================================== *)
(** ** Reference environments *)

(** A service that keeps its entries in the order they were made.  A
    search answers the requested page of the entries of the parent whose
    name is the one asked for (every entry when no name is given); a
    folder creation and the end of an upload append an entry with the
    next free id. *)
Definition answer (st : Z) (l : option (list entry)) (dirId : Z)
           (signUrl : string) (itemId : Z) : response :=
  {| status := st;
     data_list := match l with
                  | Some l => Entries l
                  | None => NotAList false
                  end;
     data_dirId := dirId;
     data_signUrl := signUrl; data_itemId := itemId |}.

Definition page (pageNo pageSize : Z) (l : list entry) : list entry :=
  firstn (Z.to_nat pageSize) (skipn (Z.to_nat ((pageNo - 1) * pageSize)) l).

Definition listing_get (r : list entry * Z) (req : request)
  : (list entry * Z) * response :=
  match req with
  | SearchFile pid name pageNo pageSize =>
      (r, answer 1
            (Some (page pageNo pageSize
                     (filter (fun e => Z.eqb (e_pid e) pid
                                       && (String.eqb name ""
                                           || String.eqb (e_name e) name))
                             (fst r))))
            0 "" 0)
  | FolderCreate pid name _ _ _ _ _ =>
      ((fst r ++ [ {| e_id := snd r; e_name := name; e_type := "dir";
                      e_pid := pid |} ], (snd r + 1)%Z),
       answer 1 None (snd r) "" 0)
  | UploadPrepare _ _ => (r, answer 1 None 0 "https://upload" 0)
  | UploadFinish _ _ pid name =>
      ((fst r ++ [ {| e_id := snd r; e_name := name; e_type := "file";
                      e_pid := pid |} ], (snd r + 1)%Z),
       answer 1 None 0 "" (snd r))
  end.

Definition listing_service : Remote :=
  {| rstate := list entry * Z;
     http_get := listing_get;
     http_put := fun r _ _ => r |}.

(** A service that answers every request the same way. *)
Definition constant_service (resp : response) : Remote :=
  {| rstate := unit;
     http_get := fun _ _ => (tt, resp);
     http_put := fun _ _ _ => tt |}.

(** A file system given by its directories (with their listings) and its
    files. *)
Fixpoint lookup_dir (dirs : list (string * list string)) (p : string)
  : option (list string) :=
  match dirs with
  | [] => None
  | (d, l) :: rest => if String.eqb d p then Some l else lookup_dir rest p
  end.

Definition fs_of (dirs : list (string * list string)) (files : list string)
  : FileSystem :=
  {| listdir := lookup_dir dirs;
     isfile := fun p => existsb (String.eqb p) files;
     isdir := fun p => match lookup_dir dirs p with Some _ => true | None => false end;
     getsize := fun p => if existsb (String.eqb p) files
                         then Some (Z.of_nat (String.length p)) else None;
     md5_of_first_10mb := fun p => if existsb (String.eqb p) files
                                   then Some ("md5-" ++ p)%string else None |}.

(** The tree [root/target/{a,b}] with files [f1], [f2] in [a]. *)
Definition tree_fs : FileSystem :=
  fs_of [ ("root", ["target"]);
          ("root/target", ["a"; "b"]);
          ("root/target/a", ["f1"; "f2"]) ]
        [ "root/target/b"; "root/target/a/f1"; "root/target/a/f2" ].

(** The chain of directories [root/target/a/b/c]. *)
Definition deep_fs : FileSystem :=
  fs_of [ ("root", ["target"]);
          ("root/target", ["a"]);
          ("root/target/a", ["b"]);
          ("root/target/a/b", ["c"]);
          ("root/target/a/b/c", []) ]
        [].

Definition two_workers : Config :=
  {| TELEBOX_BASEFOLDER := PyStr "100"; USR_LIMIT_CONCURRENT := PyStr "2" |}.

(** A state whose store holds [a] everywhere. *)
Definition initial (R : Remote) (a : Namespace) (r : rstate R)
           (sched : list nat) : state R :=
  Build_state (fun _ => a) r sched.

(* ================================================================== *)
(** ** Properties of runs *)

Definition failure_of {A} (o : outcome A) : option failure :=
  match o with
  | Ret _ => None
  | Fail e => Some e
  end.

(** A property [Q] of how a run ends (with which failure, if any) and of
    its trace; it passes through [bind] when it [chains]: when it holds of
    silent runs and when a run that returns can be continued. *)
Definition sat {R : Remote} {A} (Q : option failure -> list event -> Prop)
           (m : M R A) : Prop :=
  forall s, Q (failure_of (outcome_of m s)) (trace_of m s).

Definition chains (Q : option failure -> list event -> Prop) : Prop :=
  (forall f, Q f []) /\
  (forall t1 t2 f, Q None t1 -> Q f t2 -> Q f (t1 ++ t2)).

(** Runs that leave the store as it is. *)
Definition keeps_heap {R : Remote} {A} (m : M R A) : Prop :=
  forall s, st_heap (state_after m s) = st_heap s.

(** The result of a run, with [t1] put in front of its trace. *)
Definition after_trace {R : Remote} {A} (t1 : list event)
           (r : outcome A * state R * list event)
  : outcome A * state R * list event :=
  match r with
  | (o, s, t) => (o, s, t1 ++ t)
  end.

Definition only_first_pages (_ : option failure) (tr : list event) : Prop :=
  Forall first_page_only tr.

Definition in_phases (_ : option failure) (tr : list event) : Prop := phased tr.

(** No fatal folder-create answer, or exactly one, at the very end of a
    run that [sys.exit] stopped. *)
Definition stops_at_fatal_create (f : option failure) (tr : list event) : Prop :=
  Forall (fun e => fatal_create e = false) tr \/
  exists pre e msg,
    tr = pre ++ [e] /\ fatal_create e = true /\
    Forall (fun e => fatal_create e = false) pre /\
    f = Some (SystemExit msg).

(** What [create_folder_if_not_exists] takes for the existing folder: the
    first entry of the answer, when it is a directory under the parent
    with a non-zero id. *)
Definition first_entry_folder (resp : response) (folder_id : Z) : option Z :=
  match data_list resp with
  | Entries (first :: _) =>
      if String.eqb (e_type first) "dir" && Z.eqb (e_pid first) folder_id
         && negb (Z.eqb (e_id first) 0)
      then Some (e_id first) else None
  | _ => None
  end.

(** The request of [Folder.create]. *)
Definition create_request (foldername : string) (folder_id : Z) : request :=
  FolderCreate folder_id foldername 0 1 1 0 "TheWNetwork Telebox Mass Creator".

(** The values [main_directory] writes into the object before it recurses. *)
Definition child_arguments (currentDir currentName directory : string)
           (subfolder_pid : Z) : Namespace :=
  {| dir := currentDir ++ "/" ++ currentName;
     foldername := directory;
     basefolder := PyInt subfolder_pid |}.


(* ================================================================== *)
(** ** Reference runs *)

(** The upload of a file of [root/target/a] into [folder]. *)
Definition file_task (i : nat) (file : string) (folder : Z) : task :=
  {| t_i := i; t_total := 2; t_directory := "root/target/a"; t_file := file;
     t_pid := folder |}.

(** Mirroring [target] of the small tree under folder 7 of an empty
    service, with a schedule that lets the thread of [f1] start before
    [f2] is submitted. *)
Definition demo_state : state listing_service :=
  initial listing_service
          {| dir := "root"; foldername := "target"; basefolder := PyInt 7 |}
          ([], 1000%Z) [0; 3; 0; 0; 0; 1; 0; 1; 1; 0]%nat.

Definition demo_run : outcome unit * state listing_service * list event :=
  TeleboxImpl.main tree_fs two_workers 3 0%nat demo_state.

(** The same against a service that answers status 0 to everything. *)
Definition refused_run
  : outcome unit * state (constant_service (answer 0 None 0 "" 0)) * list event :=
  TeleboxImpl.main tree_fs two_workers 3 0%nat
    (initial (constant_service (answer 0 None 0 "" 0))
             {| dir := "root"; foldername := "target"; basefolder := PyInt 7 |}
             tt []).

(** A parent that holds a file and then a directory of the same name. *)
Definition file_then_folder : list entry :=
  [ {| e_id := 5; e_name := "a"; e_type := "file"; e_pid := 7 |};
    {| e_id := 6; e_name := "a"; e_type := "dir"; e_pid := 7 |} ].

(** A parent that holds a file of the wanted name and no folder. *)
Definition file_only : list entry :=
  [ {| e_id := 5; e_name := "a"; e_type := "file"; e_pid := 7 |} ].


(* ================================================================== *)
(** ** Further vocabulary *)

(** A name without a slash, as [os.listdir] gives them. *)
Fixpoint no_slash (name : string) : bool :=
  match name with
  | EmptyString => true
  | String c rest => negb (Ascii.eqb c "/") && no_slash rest
  end.

(** The task [doit] submits for the entry at position [i] of a listing. *)
Definition task_of (len_list : nat) (directory : string) (folder_pid : Z)
           (i : nat) (file : string) : task :=
  {| t_i := i; t_total := len_list; t_directory := directory; t_file := file;
     t_pid := folder_pid |}.

(** The uploads that have printed their status line, in order. *)
Definition begun (tr : list event) : list string :=
  flat_map (fun e => match e with
                     | EvPrint (MsgUploading _ _ file) => [file]
                     | _ => []
                     end) tr.

(** Every folder creation in the trace comes right after a search for the
    same name under the same parent whose answer did not start with a
    usable directory. *)
Definition creates_after_failed_lookup (tr : list event) : Prop :=
  forall pre pid name a b c d desc cresp post,
    tr = pre ++ EvGet (FolderCreate pid name a b c d desc) cresp :: post ->
    exists pre' resp,
      pre = pre' ++ [EvGet (SearchFile pid name 1 50) resp] /\
      first_entry_folder resp pid = None.

(** Every path the file system takes for a directory has at most [L]
    characters. *)
Definition directories_within (fs : FileSystem) (L : nat) : Prop :=
  forall p, isdir fs p = true -> (String.length p <= L)%nat.

(** What the thread running [t] may do: print the line of [t], ask to
    prepare, transfer and finish the file of [t] for the folder of [t],
    and set the future of [t]. *)
Definition task_event (fs : FileSystem) (t : task) (e : event) : Prop :=
  match e with
  | EvPrint (MsgUploading n total file) =>
      n = S (t_i t) /\ total = t_total t /\ file = t_file t
  | EvGet (UploadPrepare md5 size) _ =>
      getsize fs (Executor.task_path t) = Some size /\
      md5_of_first_10mb fs (Executor.task_path t) = Some md5
  | EvPut _ file => file = Executor.task_path t
  | EvGet (UploadFinish _ _ pid name) _ =>
      pid = t_pid t /\ name = basename (Executor.task_path t)
  | EvDone t' _ => t' = t
  | _ => False
  end.

(** What a batch for the files of [file_list] in [directory], aimed at
    [folder_pid], may do. *)
Definition batch_event (fs : FileSystem) (file_list : list string)
           (directory : string) (folder_pid : Z) (e : event) : Prop :=
  match e with
  | EvGet (UploadFinish _ _ pid name) _ =>
      pid = folder_pid /\ In name file_list /\
      isfile fs (directory ++ "/" ++ name) = true
  | EvPut _ path =>
      exists name, In name file_list /\ path = (directory ++ "/" ++ name)%string /\
                   isfile fs path = true
  | EvGet (SearchFile _ _ _ _) _ => False
  | EvGet (FolderCreate _ _ _ _ _ _ _) _ => False
  | _ => True
  end.

(** A run that does not exhaust the recursion bound of the model. *)
Definition completes {R : Remote} {A} (m : M R A) : Prop :=
  forall s, outcome_of m s <> Fail OutOfFuel.

(** What a run that mirrors [root] may transfer: regular files whose path
    continues [root/]. *)
Definition transfers_under (fs : FileSystem) (root : string) (e : event) : Prop :=
  match e with
  | EvPut _ path => extends (root ++ "/") path /\ isfile fs path = true
  | _ => True
  end.

(** At no point of [tr] are more than [n] uploads begun and not ended,
    [a] of them being under way when [tr] starts. *)
Definition within_limit (n a : nat) (tr : list event) : Prop :=
  forall pre post,
    tr = pre ++ post ->
    (a + List.length (begun pre) <= List.length (completed pre) + n)%nat.

(** The threads of a pool that have printed their line. *)
Definition printed (ph : Executor.phase) : nat :=
  match ph with
  | Executor.AtPrint => 0
  | _ => 1
  end.

Definition active (l : list (task * Executor.phase)) : nat :=
  fold_right (fun th k => (printed (snd th) + k)%nat) 0%nat l.

(** The failures of [m] all satisfy [P]. *)
Definition ends_within {R : Remote} {A} (P : failure -> Prop) (m : M R A) : Prop :=
  forall s e, outcome_of m s = Fail e -> P e.

(** What can end the driver: an exception of [int], of the executor's
    constructor or of the file system, the two exits of the folder
    resolution, and the recursion bound of the model. *)
Definition driver_failure (e : failure) : Prop :=
  match e with
  | Exception name =>
      name = "TypeError" \/ name = "ValueError" \/ name = "OSError"
  | SystemExit msg =>
      msg = "Execution stopped. Cannot create folders" \/
      msg = "Execution stopped. Folder not created"
  | OutOfFuel => True
  end.

(** The limit is kept all along [tr], and every upload begun has ended
    when the run returns. *)
Definition limit_kept (n : nat) (f : option failure) (tr : list event) : Prop :=
  within_limit n 0 tr /\
  (f = None -> List.length (begun tr) = List.length (completed tr)).

Definition only_transfers_under (fs : FileSystem) (root : string)
           (_ : option failure) (tr : list event) : Prop :=
  Forall (transfers_under fs root) tr.

(** A directory [a] of [root/target] with a subdirectory, beside a file
    [b] of [root/target]. *)
Definition nested_fs : FileSystem :=
  fs_of [ ("root", ["target"]);
          ("root/target", ["a"; "b"]);
          ("root/target/a", ["sub"]);
          ("root/target/a/sub", []) ]
        [ "root/target/b" ].

(* ================================================================== *)

(* ================================================================== *)
(** ** Vocabulary of the batches *)

(** The tasks [doit] submits for a listing, in order; [i] is the position
    of its first entry. *)
Fixpoint listed_tasks (fs : FileSystem) (i : nat) (file_list : list string)
         (len_list : nat) (directory : string) (folder_pid : Z) : list task :=
  match file_list with
  | [] => []
  | file :: rest =>
      (if isfile fs (directory ++ "/" ++ file)
       then [task_of len_list directory folder_pid i file] else [])
      ++ listed_tasks fs (S i) rest len_list directory folder_pid
  end.

(** The tasks a pool holds. *)
Definition pool_tasks (p : Executor.pool) : list task :=
  Executor.queue p ++ map fst (Executor.running p).

(** What a batch keeps: the tasks submitted so far are those that have
    ended and those the pool holds. *)
Definition balanced {R : Remote} (sub : list task) (tr : list event)
           (p : Executor.pool) (_ : state R) : Prop :=
  Forall (fun e => driver_event e = false) tr /\
  submitted tr = sub /\
  Permutation sub (completed tr ++ pool_tasks p).

(** [l] occurs in [tr] in this order, other events possibly in between. *)
Inductive in_order : list event -> list event -> Prop :=
| in_order_nil tr : in_order [] tr
| in_order_here e l tr : in_order l tr -> in_order (e :: l) (e :: tr)
| in_order_later e l tr : in_order l tr -> in_order l (e :: tr).

(** The line a call of [upload_file_and_print_status] prints first. *)
Definition status_line (t : task) : event :=
  EvPrint (MsgUploading (S (t_i t)) (t_total t) (t_file t)).

(** What one call of [upload_file_and_print_status] for [t] does, and how
    it ends, when the service answers [lot] to its prepare request and
    [lotf] to its finish request. *)
Definition call_run (fs : FileSystem) (t : task) (lot lotf : response)
  : list event * outcome unit :=
  let path := Executor.task_path t in
  match getsize fs path, md5_of_first_10mb fs path with
  | Some file_size, Some file_md5_of_pre_10m =>
      let prepare := EvGet (UploadPrepare file_md5_of_pre_10m file_size) lot in
      if Z.eqb (status lot) 600 then ([status_line t; prepare], Ret tt)
      else if negb (Z.eqb (status lot) 1) then
        ([status_line t; prepare],
         Fail (SystemExit "Prepare: Execution stopped. Cannot upload files"))
      else
        ([status_line t; prepare; EvPut (data_signUrl lot) path;
          EvGet (UploadFinish file_md5_of_pre_10m file_size (t_pid t)
                              (basename path)) lotf],
         if negb (Z.eqb (status lotf) 1) then
           Fail (SystemExit
                   "Finish Upload: Execution stopped. Cannot upload files")
         else Ret tt)
  | _, _ => ([status_line t], Fail (Exception "OSError"))
  end.

(** The upload of [t] has run to its end within [tr]: its submission,
    then what its call does, in order, then its future. *)
Definition upload_ended (fs : FileSystem) (t : task) (tr : list event) : Prop :=
  exists lot lotf,
    in_order (EvSubmit t :: fst (call_run fs t lot lotf)
              ++ [EvDone t (snd (call_run fs t lot lotf))]) tr.

(** How far the thread running [t] has got within [tr]. *)
Definition thread_progress (fs : FileSystem) (t : task) (ph : Executor.phase)
           (tr : list event) : Prop :=
  let path := Executor.task_path t in
  match ph with
  | Executor.AtPrint => in_order [EvSubmit t] tr
  | Executor.AtPrepare => in_order [EvSubmit t; status_line t] tr
  | Executor.AtTransfer md5 size url =>
      exists lot,
        getsize fs path = Some size /\
        md5_of_first_10mb fs path = Some md5 /\
        Z.eqb (status lot) 600 = false /\ Z.eqb (status lot) 1 = true /\
        url = data_signUrl lot /\
        in_order [EvSubmit t; status_line t; EvGet (UploadPrepare md5 size) lot]
                 tr
  | Executor.AtFinish md5 size =>
      exists lot,
        getsize fs path = Some size /\
        md5_of_first_10mb fs path = Some md5 /\
        Z.eqb (status lot) 600 = false /\ Z.eqb (status lot) 1 = true /\
        in_order [EvSubmit t; status_line t; EvGet (UploadPrepare md5 size) lot;
                  EvPut (data_signUrl lot) path] tr
  end.

(** What a batch keeps of its uploads: a task waiting has been submitted,
    a thread has got as far as its phase says, and a task submitted is in
    the pool or has run to its end. *)
Definition protocol_kept {R : Remote} (fs : FileSystem) (sub : list task)
           (tr : list event) (p : Executor.pool) (_ : state R) : Prop :=
  Forall (fun t => in_order [EvSubmit t] tr) (Executor.queue p) /\
  Forall (fun th => thread_progress fs (fst th) (snd th) tr)
         (Executor.running p) /\
  Forall (fun t => In t (pool_tasks p) \/ upload_ended fs t tr) sub.

(** What a batch keeps of its events: what a thread does belongs to a
    task submitted, and the pool holds tasks submitted only. *)
Definition events_kept {R : Remote} (fs : FileSystem) (sub : list task)
           (tr : list event) (p : Executor.pool) (_ : state R) : Prop :=
  Forall (fun e => worker_event e = true ->
                   exists t, In t sub /\ task_event fs t e) tr /\
  incl (pool_tasks p) sub.



(* ================================================================== *)
(** ** Further reference environments *)

(** The reference service, but for the prepare requests, which it all
    refuses with status 0. *)
Definition refusing_service : Remote :=
  {| rstate := list entry * Z;
     http_get := fun r req =>
                   match req with
                   | UploadPrepare _ _ => (r, answer 0 None 0 "" 0)
                   | _ => listing_get r req
                   end;
     http_put := fun r _ _ => r |}.






(** A worker limit with which no pool can be made: [None], a number that
    is not positive, or a string that [int] refuses or reads as such a
    number.  Of the strings that [int] refuses, those of at most 4300
    ASCII characters are meant: no limit on the number of digits and no
    Unicode digit or space is involved in their refusal. *)
Definition ascii_only (s : string) : bool :=
  forallb (fun c => (nat_of_ascii c <? 128)%nat) (list_ascii_of_string s).

Definition invalid_limit (v : pyval) : Prop :=
  match py_int v with
  | Some n => (n <= 0)%Z
  | None =>
      match v with
      | PyStr s => ascii_only s && (String.length s <=? 4300)%nat = true
      | _ => True
      end
  end.


(** What is left of the call of [upload_file_and_print_status] for [t]
    to a thread in phase [ph]. *)
Definition call_from {R : Remote} (fs : FileSystem) (t : task)
           (ph : Executor.phase) : M R unit :=
  let path := Executor.task_path t in
  match ph with
  | Executor.AtPrint =>
      TeleboxImpl.upload_file_and_print_status fs (t_i t) (t_total t)
        (t_directory t) (t_file t) (t_pid t)
  | Executor.AtPrepare =>
      Upload.upload_file fs path (t_pid t) ;;; ret tt
  | Executor.AtTransfer file_md5_of_pre_10m file_size url =>
      Upload.upload fs url path ;;;
      lotf <- Upload.finish_upload file_md5_of_pre_10m file_size (t_pid t)
                                   (basename path) ;;
      (if negb (Z.eqb (status lotf) 1) then
         sys_exit "Finish Upload: Execution stopped. Cannot upload files"
       else ret (data_itemId lotf)) ;;;
      ret tt
  | Executor.AtFinish file_md5_of_pre_10m file_size =>
      lotf <- Upload.finish_upload file_md5_of_pre_10m file_size (t_pid t)
                                   (basename path) ;;
      (if negb (Z.eqb (status lotf) 1) then
         sys_exit "Finish Upload: Execution stopped. Cannot upload files"
       else ret (data_itemId lotf)) ;;;
      ret tt
  end.

(** What a batch of one task keeps, for a batch started in state [s0]:
    the task waits and nothing has happened; or its thread has done the
    first part of what the call does from [s0] and the rest of the call
    is left to it; or the call is over, and its outcome in the future. *)
Definition alone {R : Remote} (fs : FileSystem) (s0 : state R)
           (sub : list task) (tr : list event) (p : Executor.pool)
           (s : state R) : Prop :=
  match sub with
  | [] => tr = [] /\ pool_tasks p = [] /\ st_remote s = st_remote s0
  | [t] =>
      let call := call_from fs t Executor.AtPrint in
      (Executor.queue p = [t] /\ Executor.running p = [] /\
       tr = [EvSubmit t] /\ st_remote s = st_remote s0) \/
      (exists ph pre,
          Executor.queue p = [] /\ Executor.running p = [(t, ph)] /\
          tr = EvSubmit t :: pre /\
          trace_of call s0 = pre ++ trace_of (call_from fs t ph) s /\
          outcome_of call s0 = outcome_of (call_from fs t ph) s /\
          st_remote (state_after call s0)
          = st_remote (state_after (call_from fs t ph) s)) \/
      (Executor.queue p = [] /\ Executor.running p = [] /\
       tr = EvSubmit t :: trace_of call s0 ++ [EvDone t (outcome_of call s0)] /\
       st_remote s = st_remote (state_after call s0))
  | _ => True
  end.

(** What a batch keeps of the worker limit [n]: the limit has been kept
    so far, the uploads begun and not ended are those of the threads that
    have printed their line, and there are at most [n] threads. *)
Definition in_flight {R : Remote} (n : nat) (sub : list task)
           (tr : list event) (p : Executor.pool) (_ : state R) : Prop :=
  within_limit n 0 tr /\
  List.length (begun tr)
  = (List.length (completed tr) + active (Executor.running p))%nat /\
  (List.length (Executor.running p) <= n)%nat.

(* ================================================================== *)
(** ** Running the monad *)

Section Runs.
Context {R : Remote}.

Lemma run_bind {A B} (m : M R A) (f : A -> M R B) s :
  bind m f s =
  match m s with
  | (Ret a, s1, t1) =>
      (outcome_of (f a) s1, state_after (f a) s1, t1 ++ trace_of (f a) s1)
  | (Fail e, s1, t1) => (Fail e, s1, t1)
  end.
Proof.
  unfold bind, outcome_of, state_after, trace_of.
  destruct (m s) as [[[a | e] s1] t1]; [ | reflexivity ].
  destruct (f a s1) as [[o s2] t2]; reflexivity.
Qed.

Lemma run_eta {A} (m : M R A) s :
  m s = (outcome_of m s, state_after m s, trace_of m s).
Proof.
  unfold outcome_of, state_after, trace_of.
  destruct (m s) as [[o s'] t]; reflexivity.
Qed.

Lemma sat_bind {A B} Q (m : M R A) (f : A -> M R B) :
  chains Q -> sat Q m -> (forall a, sat Q (f a)) -> sat Q (bind m f).
Proof.
  intros [_ Happ] Hm Hf s. unfold outcome_of, trace_of. rewrite run_bind.
  specialize (Hm s). unfold outcome_of, trace_of in Hm.
  destruct (m s) as [[[a | e] s1] t1]; simpl in *; [ | exact Hm ].
  apply Happ; [ exact Hm | apply Hf ].
Qed.

Lemma sat_silent {A} Q (m : M R A) :
  chains Q -> (forall s, trace_of m s = []) -> sat Q m.
Proof. intros [Hnil _] H s. rewrite H. apply Hnil. Qed.

Lemma sat_for_each {A} Q (l : list A) (body : A -> M R unit) :
  chains Q -> (forall x, sat Q (body x)) -> sat Q (for_each l body).
Proof.
  intros HQ Hbody. induction l as [ | x rest IH ]; simpl.
  - apply sat_silent; [ exact HQ | reflexivity ].
  - apply sat_bind; [ exact HQ | apply Hbody | intros _; exact IH ].
Qed.

Lemma sat_or_raise {A} Q (o : option A) name :
  chains Q -> sat Q (or_raise (R := R) o name).
Proof.
  intros HQ. apply sat_silent; [ exact HQ | ].
  intros s. destruct o; reflexivity.
Qed.

Lemma sat_emit Q (e : event) : Q None [e] -> sat Q (emit (R := R) e).
Proof. intros H s. exact H. Qed.

Lemma sat_get_data Q req :
  (forall resp, Q None [EvGet req resp]) -> sat Q (get_data (R := R) req).
Proof.
  intros H s. unfold outcome_of, trace_of, get_data.
  destruct (http_get R (st_remote s) req) as [r' resp]. apply H.
Qed.

Lemma keeps_heap_bind {A B} (m : M R A) (f : A -> M R B) :
  keeps_heap m -> (forall a, keeps_heap (f a)) -> keeps_heap (bind m f).
Proof.
  intros Hm Hf s. unfold state_after. rewrite run_bind.
  specialize (Hm s). unfold state_after in Hm.
  destruct (m s) as [[[a | e] s1] t1]; simpl in *; [ | exact Hm ].
  rewrite <- Hm. apply Hf.
Qed.

Lemma keeps_heap_or_raise {A} (o : option A) name :
  keeps_heap (or_raise (R := R) o name).
Proof. intros s. destruct o; reflexivity. Qed.



End Runs.

(* ================================================================== *)
(** ** Running a program one statement at a time *)

Section Statements.
Context {R : Remote}.

Lemma int_run v (s : state R) :
  TeleboxImpl.int_ v s =
  match py_int v with
  | Some z => (Ret z, s, [])
  | None =>
      (Fail (Exception match v with PyNone => "TypeError" | _ => "ValueError" end),
       s, [])
  end.
Proof. destruct v as [ | str | z ]; simpl; [ | destruct (int_of_str _) | ]; reflexivity. Qed.

Lemma run_load {B} l (f : Namespace -> M R B) (s : state R) :
  bind (load l) f s = f (st_heap s l) s.
Proof. unfold bind, load. destruct (f _ s) as [[o s'] t]. reflexivity. Qed.

Lemma run_value {A B} (a : A) name (f : A -> M R B) (s : state R) :
  bind (or_raise (Some a) name) f s = f a s.
Proof. unfold bind, or_raise, ret. destruct (f a s) as [[o s'] t]. reflexivity. Qed.

Lemma run_int {B} v z (f : Z -> M R B) (s : state R) :
  py_int v = Some z -> bind (TeleboxImpl.int_ v) f s = f z s.
Proof.
  intros Hv. unfold bind. rewrite int_run, Hv.
  destruct (f z s) as [[o s'] t]. reflexivity.
Qed.

Lemma run_print {B} m (f : unit -> M R B) (s : state R) :
  bind (print m) f s =
  (outcome_of (f tt) s, state_after (f tt) s, EvPrint m :: trace_of (f tt) s).
Proof.
  unfold bind, print, emit, outcome_of, state_after, trace_of.
  destruct (f tt s) as [[o s'] t]. reflexivity.
Qed.

Lemma run_get {B} req (f : response -> M R B) (s : state R) :
  let resp := snd (http_get R (st_remote s) req) in
  let s1 := Build_state (st_heap s) (fst (http_get R (st_remote s) req))
                        (st_sched s) in
  bind (get_data req) f s =
  (outcome_of (f resp) s1, state_after (f resp) s1,
   EvGet req resp :: trace_of (f resp) s1).
Proof.
  unfold bind, get_data, outcome_of, state_after, trace_of.
  destruct (http_get R (st_remote s) req) as [r' resp]. simpl.
  destruct (f resp _) as [[o s'] t]. reflexivity.
Qed.

Lemma run_setattr {B} l g (f : unit -> M R B) (s : state R) :
  bind (setattr l g) f s =
  f tt (Build_state (store (st_heap s) l (g (st_heap s l)))
                    (st_remote s) (st_sched s)).
Proof. unfold bind, setattr. destruct (f tt _) as [[o s'] t]. reflexivity. Qed.

Lemma run_ret {A B} (a : A) (f : A -> M R B) (s : state R) :
  bind (ret a) f s = f a s.
Proof. unfold bind, ret. destruct (f a s) as [[o s'] t]. reflexivity. Qed.

Lemma bind_returns {A B} (m : M R A) (f : A -> M R B) s a s1 t1 :
  m s = (Ret a, s1, t1) -> bind m f s = after_trace t1 (f a s1).
Proof. intros Hm. unfold bind. rewrite Hm. reflexivity. Qed.


Lemma print_then {B} m (f : unit -> M R B) (s : state R) :
  bind (print m) f s = after_trace [EvPrint m] (f tt s).
Proof. reflexivity. Qed.

Lemma get_then {B} req (f : response -> M R B) (s : state R) :
  bind (get_data req) f s =
  after_trace [EvGet req (snd (http_get R (st_remote s) req))]
              (f (snd (http_get R (st_remote s) req))
                 (Build_state (st_heap s) (fst (http_get R (st_remote s) req))
                              (st_sched s))).
Proof.
  unfold bind, get_data. destruct (http_get R (st_remote s) req) as [r' resp].
  reflexivity.
Qed.

End Statements.

(* ================================================================== *)
(** ** The pool runs every task to its end *)

Ltac unfold_monad :=
  unfold outcome_of, state_after, trace_of,
    Upload.upload_file, Upload.upload, Upload.prepare, Upload.finish_upload,
    Upload.get_md5_of_first_10mb, Search.folder_exists, Search.search,
    Folder.create, Executor.attempt,
    bind, ret, fail, sys_exit, raise, emit, print, or_raise, load, setattr,
    get_data, requests_put, next_choice in *.

(** Case analysis on what the environment answers. *)
Ltac ask_env :=
  match goal with
  | |- context [getsize ?fs ?p] => destruct (getsize fs p) eqn:?
  | |- context [md5_of_first_10mb ?fs ?p] =>
      destruct (md5_of_first_10mb fs p) eqn:?
  | |- context [http_get ?R ?r ?q] =>
      let r' := fresh "r" in let resp := fresh "resp" in
      destruct (http_get R r q) as [r' resp] eqn:?
  | |- context [Z.eqb ?a ?b] => destruct (Z.eqb a b) eqn:?
  end; simpl.

Section Pool.
Context {R : Remote}.
Variable fs : FileSystem.

Lemma worker_step_spec t ph (s : state R) :
  exists r s' tr,
    Executor.worker_step fs t ph s = (Ret r, s', tr) /\
    st_heap s' = st_heap s /\
    Forall (fun e => worker_event e = true) tr /\
    completed tr = [] /\
    match r with
    | inl ph' => (phase_weight ph' < phase_weight ph)%nat
    | inr _ => True
    end.
Proof.
  destruct ph; unfold Executor.worker_step; unfold_monad; simpl;
    repeat ask_env;
    eexists _, _, _; (split; [ reflexivity | ]); simpl;
    repeat split; repeat (constructor; try reflexivity); auto with arith.
Qed.

Lemma running_weight_app l1 l2 :
  running_weight (l1 ++ l2) = (running_weight l1 + running_weight l2)%nat.
Proof.
  induction l1 as [ | th l1 IH ]; simpl; [ reflexivity | ].
  rewrite IH. lia.
Qed.

Lemma running_weight_cons t ph l :
  running_weight ((t, ph) :: l) = (phase_weight ph + running_weight l)%nat.
Proof. reflexivity. Qed.

Lemma completed_app t1 t2 : completed (t1 ++ t2) = completed t1 ++ completed t2.
Proof. apply flat_map_app. Qed.

Lemma submitted_app t1 t2 : submitted (t1 ++ t2) = submitted t1 ++ submitted t2.
Proof. apply flat_map_app. Qed.

Lemma submitted_worker work :
  Forall (fun e => worker_event e = true) work -> submitted work = [].
Proof.
  induction 1 as [ | e work He _ IH ]; [ reflexivity | ].
  simpl. rewrite IH. destruct e; try reflexivity; discriminate.
Qed.

Lemma next_choice_run (s : state R) :
  exists c s1,
    next_choice s = (Ret c, s1, []) /\
    st_heap s1 = st_heap s /\ st_remote s1 = st_remote s.
Proof.
  unfold next_choice. destruct (st_sched s) as [ | c rest ].
  - exists 0%nat, s. auto.
  - eexists _, _. split; [ reflexivity | split; reflexivity ].
Qed.

(** A scheduling decision: only worker events, the tasks ended leave the
    pool, and a pool with a worker and work left gets nearer to its end. *)
Lemma pool_step_spec n p (s : state R) :
  exists p' s' tr,
    Executor.pool_step fs n p s = (Ret p', s', tr) /\
    st_heap s' = st_heap s /\
    Forall (fun e => worker_event e = true) tr /\
    Permutation (completed tr ++ pool_tasks p') (pool_tasks p) /\
    (pool_weight p' <= pool_weight p)%nat /\
    ((1 <= n)%nat -> pool_tasks p <> [] ->
     (pool_weight p' < pool_weight p)%nat).
Proof.
  unfold Executor.pool_step, pool_tasks.
  rewrite run_bind.
  destruct (next_choice_run s) as (c & s1 & -> & Hheap1 & _).
  unfold outcome_of, state_after, trace_of.
  set (n' := (List.length (Executor.running p)
              + (if Executor.can_start n p then 1 else 0))%nat).
  set (k := Nat.modulo c n').
  destruct (skipn k (Executor.running p)) as [ | [t ph] later ] eqn:Hskip.
  - (* no thread is designated *)
    assert (Hlen : (List.length (Executor.running p) <= k)%nat).
    { pose proof (length_skipn k (Executor.running p)) as H.
      rewrite Hskip in H. simpl in H. lia. }
    assert (Hidle : Executor.can_start n p = false ->
                    (1 <= n)%nat ->
                    Executor.queue p ++ map fst (Executor.running p) <> [] ->
                    False).
    { intros Hc Hn Hwork.
      assert (Hn' : n' = List.length (Executor.running p)) by (subst n'; rewrite Hc; lia).
      assert (Hpos : n' <> 0%nat).
      { rewrite Hn'. unfold Executor.can_start in Hc.
        destruct (Executor.queue p) as [ | q0 qs ].
        - destruct (Executor.running p); [ simpl in Hwork; congruence | simpl; lia ].
        - apply Nat.ltb_ge in Hc. lia. }
      pose proof (Nat.mod_upper_bound c n' Hpos). fold k in H. lia. }
    destruct p as [q run]. cbn [Executor.queue Executor.running] in *.
    destruct q as [ | t waiting ].
    + eexists _, _, _. split; [ reflexivity | ]. simpl.
      split; [ exact Hheap1 | ]. split; [ constructor | ].
      split; [ apply Permutation_refl | ]. split; [ lia | ].
      intros Hn Hwork. exfalso. apply Hidle; auto.
    + destruct (Executor.can_start n {| Executor.queue := t :: waiting;
                                        Executor.running := run |}) eqn:Hstart.
      * eexists _, _, _. split; [ reflexivity | ]. simpl.
        split; [ exact Hheap1 | ]. split; [ constructor | ].
        split.
        { rewrite map_app. simpl.
          rewrite app_assoc. apply Permutation_sym, Permutation_cons_app.
          rewrite app_nil_r. apply Permutation_refl. }
        unfold pool_weight. simpl. rewrite running_weight_app. simpl.
        split; [ lia | intros; lia ].
      * eexists _, _, _. split; [ reflexivity | ]. simpl.
        split; [ exact Hheap1 | ]. split; [ constructor | ].
        split; [ apply Permutation_refl | ]. split; [ lia | ].
        intros Hn Hwork. exfalso. apply Hidle; auto.
  - (* a thread at work is designated *)
    assert (Hrun : Executor.running p
                   = firstn k (Executor.running p) ++ (t, ph) :: later).
    { rewrite <- Hskip. symmetry. apply firstn_skipn. }
    set (before := firstn k (Executor.running p)) in *.
    clearbody before. clear Hskip. clearbody k. clear n'.
    rewrite run_bind.
    destruct (worker_step_spec t ph s1)
      as (r & s2 & tw & -> & Hheap2 & Hev & Hdone & Hw).
    unfold outcome_of, state_after, trace_of.
    destruct r as [ph' | result].
    + eexists _, _, _. split; [ reflexivity | ].
      unfold ret. cbn [fst snd app Executor.queue Executor.running].
      split; [ congruence | ].
      rewrite app_nil_r.
      split; [ exact Hev | ].
      unfold pool_weight. cbn [Executor.queue Executor.running].
      rewrite Hrun, Hdone, !map_app, !running_weight_app, !running_weight_cons.
      cbn [app map fst].
      split; [ apply Permutation_refl | ]. split; [ lia | intros; lia ].
    + rewrite run_bind. unfold emit, ret, outcome_of, state_after, trace_of.
      eexists _, _, _. split; [ reflexivity | ].
      cbn [fst snd app Executor.queue Executor.running].
      split; [ congruence | ].
      split.
      { apply Forall_app. split; [ exact Hev | ].
        constructor; [ reflexivity | constructor ]. }
      unfold pool_weight. cbn [Executor.queue Executor.running].
      rewrite Hrun, completed_app, Hdone, !map_app, !running_weight_app,
        !running_weight_cons.
      cbn [app map fst completed flat_map].
      split.
      * rewrite !app_assoc. apply Permutation_cons_app. apply Permutation_refl.
      * destruct ph; cbn [phase_weight]; split; try lia; intros; lia.
Qed.

Lemma running_weight_zero l : running_weight l = 0%nat -> l = [].
Proof.
  destruct l as [ | [t ph] l ]; [ reflexivity | ].
  simpl. destruct ph; simpl; lia.
Qed.

Lemma running_weight_bound l : (running_weight l <= 5 * List.length l)%nat.
Proof.
  induction l as [ | [t ph] l IH ]; simpl; [ lia | ].
  destruct ph; simpl; lia.
Qed.

Lemma pool_weight_bound p :
  (pool_weight p
   <= 5 * (List.length (Executor.queue p) + List.length (Executor.running p)))%nat.
Proof.
  unfold pool_weight. pose proof (running_weight_bound (Executor.running p)). lia.
Qed.

Lemma pool_weight_zero p :
  pool_weight p = 0%nat -> Executor.queue p = [] /\ Executor.running p = [].
Proof.
  unfold pool_weight. intros H. split.
  - destruct (Executor.queue p); [ reflexivity | simpl in H; lia ].
  - apply running_weight_zero. lia.
Qed.
End Pool.

(* ================================================================== *)
(** ** How a batch runs *)

(** A batch is a sequence of submissions and scheduling decisions.  What
    holds of the tasks submitted so far, of the trace so far, of the pool
    and of the state at the start, and is kept by a submission and by a
    scheduling decision, holds when [doit] returns, for the tasks of the
    listing and a pool that has ended all of them. *)
Section Engine.
Context {R : Remote}.
Variable fs : FileSystem.
Variable n : nat.
Variable Acc : list task -> list event -> Executor.pool -> state R -> Prop.
Hypothesis Acc_sched :
  forall sub tr p s s',
    st_heap s' = st_heap s -> st_remote s' = st_remote s ->
    Acc sub tr p s -> Acc sub tr p s'.
Hypothesis Acc_submit :
  forall sub tr p s t,
    Acc sub tr p s ->
    Acc (sub ++ [t]) (tr ++ [EvSubmit t])
        {| Executor.queue := Executor.queue p ++ [t];
           Executor.running := Executor.running p |} s.
Hypothesis Acc_step :
  forall sub tr p s p' s' t1,
    Acc sub tr p s ->
    Executor.pool_step fs n p s = (Ret p', s', t1) ->
    Acc sub (tr ++ t1) p' s'.

Lemma pool_steps_acc k : forall sub tr p s,
  Acc sub tr p s ->
  exists p' s' t1,
    Executor.pool_steps fs n k p s = (Ret p', s', t1) /\
    st_heap s' = st_heap s /\
    Acc sub (tr ++ t1) p' s'.
Proof.
  induction k as [ | k IH ]; intros sub tr p s Hacc; cbn [Executor.pool_steps].
  - exists p, s, []. rewrite app_nil_r. auto.
  - destruct (pool_step_spec fs n p s) as (p1 & s1 & t1 & Hstep & Hheap1 & _).
    destruct (IH sub (tr ++ t1) p1 s1 (Acc_step _ _ _ _ _ _ _ Hacc Hstep))
      as (p2 & s2 & t2 & Hrest & Hheap2 & Hacc2).
    rewrite (bind_returns _ _ _ _ _ _ Hstep), Hrest.
    eexists _, _, _. split; [ reflexivity | ].
    split; [ congruence | ]. rewrite app_assoc. exact Hacc2.
Qed.

Lemma meanwhile_acc sub tr p s :
  Acc sub tr p s ->
  exists p' s' t1,
    Executor.meanwhile fs n p s = (Ret p', s', t1) /\
    st_heap s' = st_heap s /\
    Acc sub (tr ++ t1) p' s'.
Proof.
  intros Hacc. unfold Executor.meanwhile.
  destruct (next_choice_run s) as (k & s1 & Hk & Hheap1 & Hremote1).
  destruct (pool_steps_acc k sub tr p s1 (Acc_sched _ _ _ _ _ Hheap1 Hremote1 Hacc))
    as (p' & s' & t1 & Hrun & Hheap & Hacc').
  rewrite (bind_returns _ _ _ _ _ _ Hk), Hrun.
  eexists _, _, _. split; [ reflexivity | ].
  split; [ congruence | exact Hacc' ].
Qed.

Lemma doit_loop_acc len_list directory folder_pid file_list :
  forall i sub tr p has s,
    Acc sub tr p s ->
    exists p' s' t1,
      TeleboxImpl.doit_loop fs n i file_list len_list directory folder_pid p has s
      = (Ret (p', existsb (fun file => isdir fs (directory ++ "/" ++ file))
                          file_list || has),
         s', t1) /\
      st_heap s' = st_heap s /\
      Acc (sub ++ listed_tasks fs i file_list len_list directory folder_pid)
          (tr ++ t1) p' s'.
Proof.
  induction file_list as [ | file rest IH ]; intros i sub tr p has s Hacc;
    cbn [TeleboxImpl.doit_loop listed_tasks existsb].
  - exists p, s, []. rewrite !app_nil_r. auto.
  - assert (Hfile : exists p1 t0,
               (if isfile fs (directory ++ "/" ++ file)
                then Executor.submit p
                       {| t_i := i; t_total := len_list; t_directory := directory;
                          t_file := file; t_pid := folder_pid |}
                else ret p) s = (Ret p1, s, t0) /\
               Acc (sub ++ (if isfile fs (directory ++ "/" ++ file)
                            then [task_of len_list directory folder_pid i file]
                            else []))
                   (tr ++ t0) p1 s).
    { destruct (isfile fs (directory ++ "/" ++ file)).
      - eexists _, _. split; [ reflexivity | ]. apply Acc_submit, Hacc.
      - exists p, []. rewrite !app_nil_r. auto. }
    destruct Hfile as (p1 & t0 & Hsub & Hacc1).
    destruct (meanwhile_acc _ _ _ _ Hacc1) as (p2 & s2 & t2 & Hmean & Hheap2 & Hacc2).
    destruct (IH (S i) _ _ p2
                 (if isdir fs (directory ++ "/" ++ file) then true else has)
                 s2 Hacc2)
      as (p3 & s3 & t3 & Hrest & Hheap3 & Hacc3).
    assert (Hflag : existsb (fun file => isdir fs (directory ++ "/" ++ file)) rest
                    || (if isdir fs (directory ++ "/" ++ file) then true else has)
                    = isdir fs (directory ++ "/" ++ file)
                      || existsb (fun file => isdir fs (directory ++ "/" ++ file)) rest
                      || has).
    { destruct (isdir fs (directory ++ "/" ++ file));
        destruct (existsb _ rest); destruct has; reflexivity. }
    rewrite Hflag in Hrest.
    rewrite (bind_returns _ _ _ _ _ _ Hsub), (bind_returns _ _ _ _ _ _ Hmean), Hrest.
    cbn [after_trace].
    eexists _, _, _. split; [ reflexivity | ]. split; [ congruence | ].
    rewrite <- !app_assoc in Hacc3. exact Hacc3.
Qed.

Lemma pool_loop_acc fuel : forall sub tr p s,
  (1 <= n)%nat ->
  (pool_weight p <= fuel)%nat ->
  Acc sub tr p s ->
  exists p' s' t1,
    Executor.pool_loop fs n fuel p s = (Ret tt, s', t1) /\
    st_heap s' = st_heap s /\
    Executor.queue p' = [] /\ Executor.running p' = [] /\
    Acc sub (tr ++ t1) p' s'.
Proof.
  induction fuel as [ | fuel IH ]; intros sub tr p s Hn Hfuel Hacc.
  - destruct (pool_weight_zero p) as [Hq Hr]; [ lia | ].
    cbn [Executor.pool_loop]. rewrite Hq, Hr.
    exists p, s, []. rewrite app_nil_r. auto.
  - assert (Hgo : pool_tasks p <> [] ->
                  exists p' s' t1,
                    (p1 <- Executor.pool_step fs n p ;;
                     Executor.pool_loop fs n fuel p1) s = (Ret tt, s', t1) /\
                    st_heap s' = st_heap s /\
                    Executor.queue p' = [] /\ Executor.running p' = [] /\
                    Acc sub (tr ++ t1) p' s').
    { intros Hwork.
      destruct (pool_step_spec fs n p s)
        as (p1 & s1 & t1 & Hstep & Hheap1 & _ & _ & _ & Hlt).
      specialize (Hlt Hn Hwork).
      destruct (IH sub (tr ++ t1) p1 s1 Hn ltac:(lia)
                   (Acc_step _ _ _ _ _ _ _ Hacc Hstep))
        as (p2 & s2 & t2 & Hrest & Hheap2 & Hq & Hr & Hacc2).
      rewrite (bind_returns _ _ _ _ _ _ Hstep), Hrest.
      exists p2. eexists _, _. split; [ reflexivity | ].
      split; [ congruence | ]. split; [ exact Hq | ]. split; [ exact Hr | ].
      rewrite app_assoc. exact Hacc2. }
    cbn [Executor.pool_loop]. unfold pool_tasks in Hgo.
    destruct (Executor.queue p) as [ | q0 qs ] eqn:Hq;
      [ destruct (Executor.running p) as [ | r0 rs ] eqn:Hr | ].
    + exists p, s, []. rewrite app_nil_r. auto.
    + apply Hgo. discriminate.
    + apply Hgo. discriminate.
Qed.

Variable cfg : Config.
Variable z : Z.
Hypothesis Hcfg : py_int (USR_LIMIT_CONCURRENT cfg) = Some z.
Hypothesis Hz : (0 < z)%Z.
Hypothesis Hn : n = Z.to_nat z.

Lemma doit_acc file_list len_list directory folder_pid (s : state R) :
  Acc [] [] Executor.empty_pool s ->
  exists p' s' tr,
    TeleboxImpl.doit fs cfg file_list len_list directory folder_pid s
    = (Ret (existsb (fun file => isdir fs (directory ++ "/" ++ file)) file_list),
       s', tr) /\
    st_heap s' = st_heap s /\
    Executor.queue p' = [] /\ Executor.running p' = [] /\
    Acc (listed_tasks fs 0 file_list len_list directory folder_pid) tr p' s'.
Proof.
  intros Hacc. unfold TeleboxImpl.doit.
  rewrite (run_int _ _ _ _ Hcfg).
  destruct (Z.leb_spec z 0) as [ Hle | _ ]; [ lia | ].
  rewrite <- Hn.
  destruct (doit_loop_acc len_list directory folder_pid file_list 0 [] []
              Executor.empty_pool false s Hacc)
    as (p1 & s1 & t1 & Hloop & Hheap1 & Hacc1).
  cbn [app] in Hacc1. rewrite orb_false_r in Hloop.
  rewrite (bind_returns _ _ _ _ _ _ Hloop). cbn [fst snd].
  unfold Executor.shutdown.
  destruct (pool_loop_acc _ _ _ _ _ ltac:(lia) (pool_weight_bound p1) Hacc1)
    as (p2 & s2 & t2 & Hend & Hheap2 & Hq & Hr & Hacc2).
  rewrite (bind_returns _ _ _ _ _ _ Hend).
  exists p2. eexists _, _. split; [ reflexivity | ].
  cbn [app]. rewrite app_nil_r.
  split; [ congruence | ]. auto.
Qed.
End Engine.

(* ================================================================== *)
(** ** [doit]: one batch *)

Lemma worker_not_driver e : worker_event e = true -> driver_event e = false.
Proof. destruct e as [ [ | | | ] ? | | [ ] | | ]; simpl; congruence. Qed.

Lemma submit_not_driver t : driver_event (EvSubmit t) = false.
Proof. reflexivity. Qed.

(** The tasks of a listing: one for each regular file, in order, with its
    position in the listing. *)
Lemma listed_files fs len_list directory folder_pid file_list : forall base,
  let tasks := listed_tasks fs base file_list len_list directory folder_pid in
  map t_file tasks
  = filter (fun file => isfile fs (directory ++ "/" ++ file)) file_list /\
  Forall (fun t => t = task_of len_list directory folder_pid (t_i t) (t_file t) /\
                   (base <= t_i t)%nat /\
                   nth_error file_list (t_i t - base) = Some (t_file t))
         tasks.
Proof.
  induction file_list as [ | file rest IH ]; intros base.
  - split; constructor.
  - cbn [listed_tasks filter].
    destruct (IH (S base)) as (Hfiles & Htasks).
    assert (Hrest : Forall
              (fun t => t = task_of len_list directory folder_pid (t_i t) (t_file t) /\
                        (base <= t_i t)%nat /\
                        nth_error (file :: rest) (t_i t - base) = Some (t_file t))
              (listed_tasks fs (S base) rest len_list directory folder_pid)).
    { eapply Forall_impl; [ | exact Htasks ].
      intros t (Ht & Hle & Hnth). split; [ exact Ht | ]. split; [ lia | ].
      replace (t_i t - base)%nat with (S (t_i t - S base)) by lia. exact Hnth. }
    destruct (isfile fs (directory ++ "/" ++ file)); cbn [app map].
    + split; [ rewrite Hfiles; reflexivity | ].
      constructor; [ | exact Hrest ].
      cbn [t_i t_file task_of]. split; [ reflexivity | ]. split; [ lia | ].
      rewrite Nat.sub_diag. reflexivity.
    + split; [ exact Hfiles | exact Hrest ].
Qed.

Lemma listed_in fs len_list directory folder_pid file_list :
  forall base i file,
    nth_error file_list i = Some file ->
    isfile fs (directory ++ "/" ++ file) = true ->
    In (task_of len_list directory folder_pid (base + i) file)
       (listed_tasks fs base file_list len_list directory folder_pid).
Proof.
  induction file_list as [ | f rest IH ]; intros base i file Hnth Hfile.
  - destruct i; discriminate.
  - cbn [listed_tasks]. apply in_or_app.
    destruct i as [ | i ]; cbn [nth_error] in Hnth.
    + inversion Hnth; subst. rewrite Hfile. left. left.
      rewrite Nat.add_0_r. reflexivity.
    + right. replace (base + S i)%nat with (S base + i)%nat by lia.
      apply IH; assumption.
Qed.

Section Driver.
Context {R : Remote}.
Variable fs : FileSystem.
Variable cfg : Config.

Lemma balanced_sched sub tr p (s s' : state R) :
  st_heap s' = st_heap s -> st_remote s' = st_remote s ->
  balanced sub tr p s -> balanced sub tr p s'.
Proof. intros _ _ H. exact H. Qed.

Lemma balanced_submit sub tr p (s : state R) t :
  balanced sub tr p s ->
  balanced (sub ++ [t]) (tr ++ [EvSubmit t])
           {| Executor.queue := Executor.queue p ++ [t];
              Executor.running := Executor.running p |} s.
Proof.
  intros (Hev & Hsub & Hperm). unfold balanced, pool_tasks in *.
  cbn [Executor.queue Executor.running].
  split; [ | split ].
  - apply Forall_app. split; [ exact Hev | repeat constructor ].
  - rewrite submitted_app, Hsub. reflexivity.
  - rewrite completed_app. cbn [completed flat_map app]. rewrite app_nil_r.
    eapply Permutation_trans;
      [ apply Permutation_sym, Permutation_cons_append | ].
    rewrite <- !app_assoc. cbn [app].
    rewrite !app_assoc. apply Permutation_cons_app.
    rewrite <- !app_assoc. exact Hperm.
Qed.

Lemma balanced_step n sub tr p (s : state R) p' s' t1 :
  balanced sub tr p s ->
  Executor.pool_step fs n p s = (Ret p', s', t1) ->
  balanced sub (tr ++ t1) p' s'.
Proof.
  intros (Hev & Hsub & Hperm) Hstep.
  destruct (pool_step_spec fs n p s) as (p1 & s1 & t & Hrun & _ & Hwork & Hp & _).
  rewrite Hstep in Hrun. inversion Hrun; subst p1 s1 t. clear Hrun.
  split; [ | split ].
  - apply Forall_app. split; [ exact Hev | ].
    eapply Forall_impl; [ | exact Hwork ]. intros e. apply worker_not_driver.
  - rewrite submitted_app, (submitted_worker t1 Hwork), app_nil_r. exact Hsub.
  - rewrite completed_app, <- app_assoc.
    eapply Permutation_trans; [ exact Hperm | ].
    apply Permutation_app_head, Permutation_sym, Hp.
Qed.

(** With a valid worker limit, [doit] submits the files of the listing,
    waits for all of them, and tells whether a directory was seen. *)
Lemma doit_spec file_list len_list directory folder_pid z (s : state R) :
  py_int (USR_LIMIT_CONCURRENT cfg) = Some z ->
  (0 < z)%Z ->
  exists s' b,
    TeleboxImpl.doit fs cfg file_list len_list directory folder_pid s =
    (Ret (existsb (fun file => isdir fs (directory ++ "/" ++ file)) file_list),
     s', b) /\
    st_heap s' = st_heap s /\
    Forall (fun e => driver_event e = false) b /\
    submitted b = listed_tasks fs 0 file_list len_list directory folder_pid /\
    Permutation (submitted b) (completed b).
Proof.
  intros Hcfg Hz.
  destruct (doit_acc fs (Z.to_nat z) balanced balanced_sched balanced_submit
              (balanced_step (Z.to_nat z)) cfg z Hcfg Hz eq_refl
              file_list len_list directory folder_pid s)
    as (p' & s' & b & Hrun & Hheap & Hq & Hr & Hev & Hsub & Hperm).
  { split; [ constructor | split; [ reflexivity | apply Permutation_refl ] ]. }
  exists s', b. split; [ exact Hrun | ]. split; [ exact Hheap | ].
  split; [ exact Hev | ]. split; [ exact Hsub | ].
  unfold pool_tasks in Hperm. rewrite Hq, Hr in Hperm. cbn in Hperm.
  rewrite app_nil_r in Hperm. rewrite Hsub. exact Hperm.
Qed.

(** Without one, [doit] raises before anything happens. *)
Lemma doit_cases file_list len_list directory folder_pid (s : state R) :
  (exists z, py_int (USR_LIMIT_CONCURRENT cfg) = Some z /\ (0 < z)%Z) \/
  exists name,
    (name = "TypeError" \/ name = "ValueError") /\
    TeleboxImpl.doit fs cfg file_list len_list directory folder_pid s
    = (Fail (Exception name), s, []).
Proof.
  destruct (py_int (USR_LIMIT_CONCURRENT cfg)) as [ z | ] eqn:Hcfg.
  - destruct (Z.leb_spec z 0) as [ Hle | Hlt ].
    + right. exists "ValueError". split; [ auto | ].
      unfold TeleboxImpl.doit. rewrite (run_int _ _ _ _ Hcfg).
      destruct (Z.leb_spec z 0) as [ _ | ? ]; [ reflexivity | lia ].
    + left. exists z. auto.
  - right. unfold TeleboxImpl.doit. rewrite run_bind, int_run, Hcfg.
    destruct (USR_LIMIT_CONCURRENT cfg); eexists; (split; [ | reflexivity ]); auto.
Qed.

Lemma batch_nil : batch [].
Proof. split; [ constructor | apply Permutation_refl ]. Qed.

(** Whatever the configuration, [doit] leaves the store alone and its
    trace is a batch; it fails only before submitting anything. *)
Lemma doit_any file_list len_list directory folder_pid (s : state R) :
  exists o s' tr,
    TeleboxImpl.doit fs cfg file_list len_list directory folder_pid s = (o, s', tr) /\
    st_heap s' = st_heap s /\
    batch tr /\
    (o = Ret (existsb (fun file => isdir fs (directory ++ "/" ++ file)) file_list)
     \/ (exists name, o = Fail (Exception name)) /\ tr = []).
Proof.
  destruct (doit_cases file_list len_list directory folder_pid s)
    as [ (z & Hcfg & Hz) | (name & _ & Hrun) ].
  - destruct (doit_spec file_list len_list directory folder_pid z s Hcfg Hz)
      as (s' & b & Hrun & Hheap & Hev & _ & Hperm).
    eexists _, _, _. split; [ exact Hrun | ]. split; [ exact Hheap | ].
    split; [ split; assumption | left; reflexivity ].
  - eexists _, _, _. split; [ exact Hrun | ]. split; [ reflexivity | ].
    split; [ apply batch_nil | right ]. split; [ eexists; reflexivity | reflexivity ].
Qed.

Lemma keeps_heap_doit file_list len_list directory folder_pid :
  keeps_heap (TeleboxImpl.doit (R := R) fs cfg file_list len_list directory folder_pid).
Proof.
  intros s.
  destruct (doit_any file_list len_list directory folder_pid s)
    as (o & s' & tr & Hrun & Hheap & _).
  unfold state_after. rewrite Hrun. exact Hheap.
Qed.

Lemma sat_doit Q file_list len_list directory folder_pid :
  chains Q ->
  (forall b, batch b -> Q None b) ->
  sat Q (TeleboxImpl.doit (R := R) fs cfg file_list len_list directory folder_pid).
Proof.
  intros [Hnil _] Hbatch s.
  destruct (doit_any file_list len_list directory folder_pid s)
    as (o & s' & tr & Hrun & _ & Hb & [ -> | [[name ->] ->] ]);
    unfold outcome_of, trace_of; rewrite Hrun; simpl.
  - apply Hbatch, Hb.
  - apply Hnil.
Qed.
End Driver.

(* ================================================================== *)
(** ** Properties kept by every run of [main] *)

Section MainSat.
Context {R : Remote}.
Variable fs : FileSystem.
Variable cfg : Config.
Variable Q : option failure -> list event -> Prop.
Hypothesis HQ : chains Q.
Hypothesis Hsearch :
  forall pid name resp, Q None [EvGet (SearchFile pid name 1 50) resp].
Hypothesis Hprint :
  forall m, (forall n total file, m <> MsgUploading n total file) ->
            Q None [EvPrint m].
Hypothesis Hbatch : forall b, batch b -> Q None b.
Hypothesis Hresolve :
  forall folder_data directory folder_pid,
    sat Q (TeleboxImpl.subfolder_id (R := R) folder_data directory folder_pid).

Lemma sat_int_ v : sat Q (TeleboxImpl.int_ (R := R) v).
Proof.
  apply sat_silent; [ exact HQ | ]. intros s. unfold trace_of.
  rewrite int_run. destruct (py_int v); reflexivity.
Qed.

Lemma sat_print m :
  (forall n total file, m <> MsgUploading n total file) ->
  sat Q (print (R := R) m).
Proof. intros Hm. apply sat_emit, Hprint, Hm. Qed.

Lemma sat_root_flush arguments folder_pid :
  sat Q (TeleboxImpl.root_flush (R := R) fs cfg arguments folder_pid).
Proof.
  unfold TeleboxImpl.root_flush.
  apply sat_bind; [ exact HQ | apply sat_silent; [ exact HQ | reflexivity ] | ].
  intros a. destruct (negb (foldername a =? "upload")%string).
  - apply sat_bind; [ exact HQ | apply sat_or_raise, HQ | ]. intros file_list.
    apply sat_bind; [ exact HQ | apply sat_doit; assumption | ]. intros _.
    apply sat_silent; [ exact HQ | reflexivity ].
  - apply sat_silent; [ exact HQ | reflexivity ].
Qed.

Lemma sat_main_directory self_main arguments currentDir currentName folder_pid
      folder_data directory :
  (forall l, sat Q (self_main l)) ->
  sat Q (TeleboxImpl.main_directory (R := R) fs cfg self_main arguments currentDir
           currentName folder_pid folder_data directory).
Proof.
  intros Hself. unfold TeleboxImpl.main_directory.
  apply sat_bind; [ exact HQ | apply sat_print; discriminate | ]. intros _.
  apply sat_bind; [ exact HQ | apply Hresolve | ]. intros subfolder_pid.
  apply sat_bind; [ exact HQ | apply sat_print; discriminate | ]. intros _.
  apply sat_bind; [ exact HQ | apply sat_print; discriminate | ]. intros _.
  apply sat_bind; [ exact HQ | apply sat_or_raise, HQ | ]. intros file_list.
  apply sat_bind; [ exact HQ | apply sat_doit; assumption | ]. intros ret_.
  apply sat_bind; [ exact HQ | | intros _; apply sat_print; discriminate ].
  destruct ret_.
  - repeat (apply sat_bind;
            [ exact HQ | apply sat_silent; [ exact HQ | reflexivity ] | intros _ ]).
    apply Hself.
  - apply sat_silent; [ exact HQ | reflexivity ].
Qed.

Lemma main_sat fuel : forall arguments,
  sat Q (TeleboxImpl.main (R := R) fs cfg fuel arguments).
Proof.
  induction fuel as [ | fuel IH ]; intros arguments; simpl.
  - apply sat_silent; [ exact HQ | reflexivity ].
  - apply sat_bind; [ exact HQ | apply sat_silent; [ exact HQ | reflexivity ] | ].
    intros a.
    apply sat_bind; [ exact HQ | apply sat_int_ | ]. intros folder_pid.
    apply sat_bind; [ exact HQ | apply sat_get_data, Hsearch | ]. intros lot.
    apply sat_bind; [ exact HQ | apply sat_silent; [ exact HQ | reflexivity ] | ].
    intros a'.
    apply sat_bind; [ exact HQ | apply sat_print; discriminate | ]. intros _.
    apply sat_bind; [ exact HQ | apply sat_root_flush | ]. intros _.
    apply sat_bind; [ exact HQ | apply sat_silent; [ exact HQ | reflexivity ] | ].
    intros a''.
    apply sat_bind; [ exact HQ | apply sat_or_raise, HQ | ]. intros entries.
    apply sat_for_each; [ exact HQ | ]. intros directory.
    apply sat_main_directory. exact IH.
Qed.
End MainSat.

(** Case analysis on an innermost scrutinee of the goal. *)
Ltac innermost x :=
  lazymatch x with
  | context [match _ with _ => _ end] => fail
  | _ => idtac
  end.

Ltac crack :=
  repeat (match goal with
          | |- context [match ?x with _ => _ end] =>
              innermost x; destruct x eqn:?
          end; simpl).

Section Resolution.
Context {R : Remote}.

Lemma folder_exists_run filename folder_id (s : state R) :
  Search.folder_exists filename folder_id s =
  (Ret match data_list (snd (http_get R (st_remote s)
                                   (SearchFile folder_id filename 1 50))) with
       | Entries (first :: _) =>
           if String.eqb (e_type first) "dir" && Z.eqb (e_pid first) folder_id
           then Some (e_id first) else None
       | _ => None
       end,
   Build_state (st_heap s)
               (fst (http_get R (st_remote s) (SearchFile folder_id filename 1 50)))
               (st_sched s),
   [EvGet (SearchFile folder_id filename 1 50)
          (snd (http_get R (st_remote s) (SearchFile folder_id filename 1 50)))]).
Proof.
  unfold Search.folder_exists, Search.search. unfold_monad.
  destruct (http_get R (st_remote s) (SearchFile folder_id filename 1 50))
    as [r' resp]. simpl.
  destruct (data_list resp) as [ [ | first rest ] | ]; reflexivity.
Qed.

Lemma create_run filename destination_folder_id (s : state R) :
  let req := FolderCreate destination_folder_id filename 0 1 1 0
                          "TheWNetwork Telebox Mass Creator" in
  Folder.create filename destination_folder_id s =
  (if negb (Z.eqb (status (snd (http_get R (st_remote s) req))) 1)
   then Fail (SystemExit "Execution stopped. Cannot create folders")
   else Ret (data_dirId (snd (http_get R (st_remote s) req))),
   Build_state (st_heap s) (fst (http_get R (st_remote s) req)) (st_sched s),
   [EvGet req (snd (http_get R (st_remote s) req))]).
Proof.
  unfold Folder.create. unfold_monad. simpl.
  destruct (http_get R (st_remote s) _) as [r' resp]. simpl.
  destruct (negb (status resp =? 1)%Z); reflexivity.
Qed.
End Resolution.

(* ================================================================== *)
(** ** Traces made of driver events and whole batches *)

Lemma phased_app t1 t2 : phased t1 -> phased t2 -> phased (t1 ++ t2).
Proof.
  intros H1 H2. induction H1 as [ | e tr He _ IH | b tr Hb _ IH ]; simpl.
  - exact H2.
  - apply phased_driver; assumption.
  - rewrite <- app_assoc. apply phased_batch; assumption.
Qed.

Lemma batch_no_driver b :
  batch b -> Forall (fun e => driver_event e = false) b.
Proof. intros [H _]. exact H. Qed.

Lemma batch_balanced b : batch b -> Permutation (submitted b) (completed b).
Proof. intros [_ H]. exact H. Qed.

(** An event that does not occur in [b] lies beyond [b]. *)
Lemma split_beyond (P : event -> bool) b : forall pre e post tr,
  Forall (fun x => P x = false) b ->
  P e = true ->
  pre ++ e :: post = b ++ tr ->
  exists pre', pre = b ++ pre' /\ tr = pre' ++ e :: post.
Proof.
  induction b as [ | x b IH ]; intros pre e post tr Hb He Heq.
  - exists pre. split; [ reflexivity | symmetry; exact Heq ].
  - inversion Hb as [ | ? ? Hx Hb' ]; subst.
    destruct pre as [ | y pre ]; simpl in Heq; inversion Heq; subst.
    + congruence.
    + destruct (IH pre e post tr Hb' He) as (pre' & -> & ->); [ assumption | ].
      exists pre'. split; reflexivity.
Qed.

(** In a phased trace no upload is pending when a driver event occurs. *)
Lemma phased_barrier tr :
  phased tr ->
  forall pre e post,
    tr = pre ++ e :: post -> driver_event e = true ->
    Permutation (submitted pre) (completed pre).
Proof.
  induction 1 as [ | e0 tr He0 _ IH | b tr Hb _ IH ]; intros pre e post Heq He.
  - destruct pre; discriminate.
  - destruct pre as [ | y pre ]; simpl in Heq; inversion Heq; subst.
    + apply perm_nil.
    + assert (Hs : submitted (y :: pre) = submitted pre)
        by (destruct y; try discriminate; reflexivity).
      assert (Hc : completed (y :: pre) = completed pre)
        by (destruct y; try discriminate; reflexivity).
      rewrite Hs, Hc. eapply IH; [ reflexivity | exact He ].
  - destruct (split_beyond driver_event b pre e post tr) as (pre' & -> & ->);
      [ apply batch_no_driver, Hb | exact He | symmetry; exact Heq | ].
    rewrite submitted_app, completed_app.
    apply Permutation_app; [ apply batch_balanced, Hb | ].
    eapply IH; [ reflexivity | exact He ].
Qed.

Lemma phased_balanced tr : phased tr -> Permutation (submitted tr) (completed tr).
Proof.
  induction 1 as [ | e0 tr He0 _ IH | b tr Hb _ IH ].
  - apply perm_nil.
  - assert (Hs : submitted (e0 :: tr) = submitted tr)
      by (destruct e0; try discriminate; reflexivity).
    assert (Hc : completed (e0 :: tr) = completed tr)
      by (destruct e0; try discriminate; reflexivity).
    rewrite Hs, Hc. exact IH.
  - rewrite submitted_app, completed_app.
    apply Permutation_app; [ apply batch_balanced, Hb | exact IH ].
Qed.

Lemma chains_in_phases : chains in_phases.
Proof.
  split; [ intros f; apply phased_nil | ].
  intros t1 t2 f. apply phased_app.
Qed.

Lemma chains_only_first_pages : chains only_first_pages.
Proof.
  split; [ intros f; constructor | ].
  intros t1 t2 f H1 H2. apply Forall_app. split; assumption.
Qed.

Lemma chains_stops_at_fatal_create : chains stops_at_fatal_create.
Proof.
  split; [ intros f; left; constructor | ].
  intros t1 t2 f [ H1 | (pre & e & msg & _ & _ & _ & Hf) ] H2; [ | discriminate ].
  destruct H2 as [ H2 | (pre & e & msg & -> & He & Hpre & ->) ].
  - left. apply Forall_app. split; assumption.
  - right. exists (t1 ++ pre), e, msg. rewrite app_assoc.
    repeat split; try assumption. apply Forall_app. split; assumption.
Qed.

Lemma batch_not_fatal b :
  batch b -> Forall (fun e => fatal_create e = false) b.
Proof.
  intros [Hb _]. eapply Forall_impl; [ | exact Hb ].
  intros [ [ | | | ] resp | | [ ] | | ]; simpl; congruence.
Qed.

Lemma batch_first_pages b : batch b -> Forall first_page_only b.
Proof.
  intros [Hb _]. eapply Forall_impl; [ | exact Hb ].
  intros [ [ | | | ] resp | | [ ] | | ]; simpl; try congruence; auto.
Qed.

Section ResolutionSat.
Context {R : Remote}.

Ltac run_subfolder_id :=
  intros s; unfold outcome_of, trace_of, TeleboxImpl.subfolder_id,
    TeleboxImpl.create_folder_if_not_exists, Search.folder_exists,
    Search.search, Folder.create;
  unfold_monad; simpl; crack.

Lemma subfolder_id_in_phases folder_data directory folder_pid :
  sat in_phases
      (TeleboxImpl.subfolder_id (R := R) folder_data directory folder_pid).
Proof.
  run_subfolder_id; unfold in_phases;
    repeat (apply phased_driver; [ reflexivity | ]); apply phased_nil.
Qed.

Lemma subfolder_id_first_pages folder_data directory folder_pid :
  sat only_first_pages
      (TeleboxImpl.subfolder_id (R := R) folder_data directory folder_pid).
Proof.
  run_subfolder_id; unfold only_first_pages;
    repeat (constructor; simpl; auto).
Qed.

Lemma subfolder_id_stops folder_data directory folder_pid :
  sat stops_at_fatal_create
      (TeleboxImpl.subfolder_id (R := R) folder_data directory folder_pid).
Proof.
  run_subfolder_id; unfold stops_at_fatal_create.
  all: try (left; repeat (constructor; simpl; auto); fail).
  all: first
    [ left; repeat (constructor; simpl; auto);
      repeat match goal with H : ?x = _ |- context [?x] => rewrite H end;
      reflexivity
    | right; eexists [_], _, _; split; [ reflexivity | ];
      split;
      [ simpl;
        repeat match goal with H : ?x = _ |- context [?x] => rewrite H end;
        auto using orb_true_r
      | split; [ repeat constructor | reflexivity ] ] ].
Qed.
End ResolutionSat.

(* ================================================================== *)
(** ** Traces of the mirror driver *)

Lemma main_in_phases {R : Remote} fs cfg fuel arguments (s : state R) :
  phased (trace_of (TeleboxImpl.main fs cfg fuel arguments) s).
Proof.
  apply (main_sat fs cfg in_phases chains_in_phases).
  - intros pid name resp. apply phased_driver; [ reflexivity | apply phased_nil ].
  - intros m Hm. apply phased_driver; [ | apply phased_nil ].
    destruct m; try reflexivity. exfalso. eapply Hm. reflexivity.
  - intros b Hb. unfold in_phases. rewrite <- (app_nil_r b).
    apply phased_batch; [ exact Hb | apply phased_nil ].
  - apply subfolder_id_in_phases.
Qed.

(** C5.  At every folder request and at every line the driver prints -
    the lookup or creation of the folder of the next subdirectory and the
    listing that opens a recursive call among them - the uploads
    submitted so far are exactly the uploads that have ended, whatever
    the scheduler does. *)
Theorem uploads_end_before_next_folder {R : Remote} fs cfg fuel arguments
        (s : state R) pre e post :
  trace_of (TeleboxImpl.main fs cfg fuel arguments) s = pre ++ e :: post ->
  driver_event e = true ->
  Permutation (submitted pre) (completed pre).
Proof.
  intros Htr He.
  exact (phased_barrier _ (main_in_phases fs cfg fuel arguments s)
                        pre e post Htr He).
Qed.

Lemma uploads_end_before_next_folder_witness :
  Permutation (submitted (removelast (snd demo_run)))
              (completed (removelast (snd demo_run))).
Proof.
  apply (uploads_end_before_next_folder (R := listing_service)
           tree_fs two_workers 3 0%nat
           demo_state
           (removelast (snd demo_run)) (EvPrint MsgEndUploading) []).
  - vm_compute. reflexivity.
  - reflexivity.
Defined.

(** C7.  A folder-create answer whose status is not 1, or whose id is -1,
    is the last thing that happens in a run, and the run ends in
    [sys.exit]. *)
Theorem failed_folder_creation_ends_the_run {R : Remote} fs cfg fuel arguments
        (s : state R) pre e post :
  trace_of (TeleboxImpl.main fs cfg fuel arguments) s = pre ++ e :: post ->
  fatal_create e = true ->
  post = [] /\
  exists msg,
    outcome_of (TeleboxImpl.main fs cfg fuel arguments) s = Fail (SystemExit msg).
Proof.
  intros Htr He.
  assert (Hsat : stops_at_fatal_create
                   (failure_of (outcome_of (TeleboxImpl.main fs cfg fuel arguments) s))
                   (trace_of (TeleboxImpl.main fs cfg fuel arguments) s)).
  { apply (main_sat fs cfg stops_at_fatal_create chains_stops_at_fatal_create).
    - intros pid name resp. left. repeat constructor.
    - intros m _. left. repeat constructor.
    - intros b Hb. left. apply batch_not_fatal, Hb.
    - apply subfolder_id_stops. }
  rewrite Htr in Hsat.
  destruct Hsat as [ Hnone | (pre0 & e0 & msg & Heq & He0 & Hpre0 & Hfail) ].
  - apply Forall_app in Hnone. destruct Hnone as [_ Hnone].
    inversion Hnone; subst. congruence.
  - destruct (split_beyond fatal_create pre0 pre e post [e0] Hpre0 He Heq)
      as (pre' & -> & Hlast).
    destruct pre' as [ | x pre' ]; simpl in Hlast.
    + inversion Hlast; subst. split; [ reflexivity | ].
      exists msg.
      destruct (outcome_of (TeleboxImpl.main fs cfg fuel arguments) s);
        simpl in Hfail; congruence.
    + inversion Hlast as [[Hx Hnil]]. destruct pre'; discriminate.
Qed.

Lemma failed_folder_creation_ends_the_run_witness :
  exists msg, fst (fst refused_run) = Fail (SystemExit msg).
Proof.
  refine (proj2 (failed_folder_creation_ends_the_run
                   (R := constant_service (answer 0 None 0 "" 0))
                   tree_fs two_workers 3 0%nat
                   (initial (constant_service (answer 0 None 0 "" 0))
                            {| dir := "root"; foldername := "target";
                               basefolder := PyInt 7 |} tt [])
                   (removelast (snd refused_run))
                   (EvGet (FolderCreate 7 "a" 0 1 1 0
                                        "TheWNetwork Telebox Mass Creator")
                          (answer 0 None 0 "" 0))
                   [] _ _)).
  - vm_compute. reflexivity.
  - reflexivity.
Defined.

(* ================================================================== *)
(** ** Folder resolution *)

Section Resolve.
Context {R : Remote}.

Lemma resolve_run foldername folder_id (s : state R) :
  let search := SearchFile folder_id foldername 1 50 in
  let resp := snd (http_get R (st_remote s) search) in
  let s1 := Build_state (st_heap s) (fst (http_get R (st_remote s) search))
                        (st_sched s) in
  TeleboxImpl.create_folder_if_not_exists foldername folder_id s =
  match first_entry_folder resp folder_id with
  | Some pid => (Ret pid, s1, [EvGet search resp])
  | None =>
      let cresp := snd (http_get R (st_remote s1)
                                 (create_request foldername folder_id)) in
      (if Z.eqb (status cresp) 1 then Ret (data_dirId cresp)
       else Fail (SystemExit "Execution stopped. Cannot create folders"),
       Build_state (st_heap s)
                   (fst (http_get R (st_remote s1)
                                  (create_request foldername folder_id)))
                   (st_sched s),
       [EvGet search resp;
        EvGet (create_request foldername folder_id) cresp])
  end.
Proof.
  intros search resp s1.
  unfold TeleboxImpl.create_folder_if_not_exists.
  rewrite run_bind, folder_exists_run. fold search resp s1.
  unfold first_entry_folder, outcome_of, state_after, trace_of.
  destruct (data_list resp) as [ [ | first rest ] | ];
    try (rewrite create_run; simpl; fold (create_request foldername folder_id);
         destruct (Z.eqb (status _) 1); reflexivity).
  destruct (String.eqb (e_type first) "dir" && Z.eqb (e_pid first) folder_id);
    simpl;
    try (rewrite create_run; simpl; fold (create_request foldername folder_id);
         destruct (Z.eqb (status _) 1); reflexivity).
  destruct (Z.eqb (e_id first) 0); simpl;
    try (rewrite create_run; simpl; fold (create_request foldername folder_id);
         destruct (Z.eqb (status _) 1); reflexivity).
  reflexivity.
Qed.
End Resolve.

(** C2, as the code has it.  The folder is taken from the first entry of
    the name-filtered listing only: when that entry is a directory under
    the parent with a non-zero id, its id is returned after the one search
    request; in every other case one create request with the same name and
    parent follows, and the new id is returned (or the run exits when the
    create status is not 1). *)
Theorem resolve_or_create_reads_first_entry {R : Remote} foldername folder_id
        (s : state R) :
  let search := SearchFile folder_id foldername 1 50 in
  let resp := snd (http_get R (st_remote s) search) in
  let o := outcome_of (TeleboxImpl.create_folder_if_not_exists foldername folder_id) s in
  let tr := trace_of (TeleboxImpl.create_folder_if_not_exists foldername folder_id) s in
  match data_list resp with
  | Entries (first :: _) =>
      if String.eqb (e_type first) "dir" && Z.eqb (e_pid first) folder_id
         && negb (Z.eqb (e_id first) 0)
      then o = Ret (e_id first) /\ tr = [EvGet search resp]
      else exists cresp,
          tr = [EvGet search resp;
                EvGet (create_request foldername folder_id) cresp] /\
          o = if Z.eqb (status cresp) 1 then Ret (data_dirId cresp)
              else Fail (SystemExit "Execution stopped. Cannot create folders")
  | _ =>
      exists cresp,
        tr = [EvGet search resp;
              EvGet (create_request foldername folder_id) cresp] /\
        o = if Z.eqb (status cresp) 1 then Ret (data_dirId cresp)
            else Fail (SystemExit "Execution stopped. Cannot create folders")
  end.
Proof.
  intros search resp o tr. subst o tr. unfold outcome_of, trace_of.
  rewrite resolve_run. fold search resp. unfold first_entry_folder.
  destruct (data_list resp) as [ [ | first rest ] | ]; simpl;
    try (eexists; split; reflexivity).
  destruct (String.eqb (e_type first) "dir" && Z.eqb (e_pid first) folder_id
            && negb (Z.eqb (e_id first) 0)); simpl;
    [ split; reflexivity | eexists; split; reflexivity ].
Qed.

(** The directory [a] (id 6) is in the listing of parent 7, behind a file
    of the same name: resolution does not return 6, it creates a new
    folder. *)
Lemma resolution_misses_later_directory :
  let s := initial listing_service
                   {| dir := "root"; foldername := "target"; basefolder := PyInt 7 |}
                   (file_then_folder, 1000%Z) [] in
  data_list (snd (listing_get (file_then_folder, 1000%Z) (SearchFile 7 "a" 1 50)))
  = Entries file_then_folder /\
  outcome_of (TeleboxImpl.create_folder_if_not_exists "a" 7) s = Ret 1000%Z /\
  existsb is_create (trace_of (TeleboxImpl.create_folder_if_not_exists "a" 7) s)
  = true.
Proof. vm_compute. repeat split; reflexivity. Qed.

(** C3, as the code has it.  After a first resolution that returned [id],
    a second one returns [id] again without a create request as soon as
    the listing it receives starts with the directory [id] under the
    parent; this is the case when the first call found the folder and the
    service answers the same search the same way. *)
Theorem second_resolution_returns_first_entry {R : Remote} foldername folder_id
        (s : state R) id :
  let resolve := TeleboxImpl.create_folder_if_not_exists foldername folder_id in
  let search := SearchFile folder_id foldername 1 50 in
  let s1 := state_after resolve s in
  outcome_of resolve s = Ret id ->
  (first_entry_folder (snd (http_get R (st_remote s1) search)) folder_id = Some id ->
   outcome_of resolve s1 = Ret id /\
   existsb is_create (trace_of resolve s1) = false) /\
  (existsb is_create (trace_of resolve s) = false ->
   snd (http_get R (st_remote s1) search) = snd (http_get R (st_remote s) search) ->
   outcome_of resolve s1 = Ret id /\
   existsb is_create (trace_of resolve s1) = false).
Proof.
  intros resolve search s1 Hfirst.
  assert (Hsecond :
            first_entry_folder (snd (http_get R (st_remote s1) search)) folder_id
            = Some id ->
            outcome_of resolve s1 = Ret id /\
            existsb is_create (trace_of resolve s1) = false).
  { intros Hentry. subst resolve. unfold outcome_of, trace_of.
    rewrite resolve_run. fold search. rewrite Hentry. simpl. auto. }
  split; [ exact Hsecond | ].
  intros Hnocreate Hsame. apply Hsecond. rewrite Hsame.
  subst resolve. unfold outcome_of, trace_of in Hfirst, Hnocreate.
  rewrite resolve_run in Hfirst, Hnocreate. fold search in Hfirst, Hnocreate.
  destruct (first_entry_folder (snd (http_get R (st_remote s) search)) folder_id)
    as [ pid | ]; simpl in *; [ congruence | discriminate ].
Qed.

Lemma second_resolution_returns_first_entry_witness :
  let s := initial listing_service
                   {| dir := "root"; foldername := "target"; basefolder := PyInt 7 |}
                   ([], 1000%Z) [] in
  let resolve := TeleboxImpl.create_folder_if_not_exists "a" 7 in
  outcome_of resolve (state_after resolve s) = Ret 1000%Z /\
  existsb is_create (trace_of resolve (state_after resolve s)) = false.
Proof.
  intros s resolve.
  exact (proj1 (second_resolution_returns_first_entry
                  (R := listing_service) "a" 7 s 1000 eq_refl) eq_refl).
Defined.

(** Two resolutions in a row, nothing else touching the service: the
    second creates a second folder and returns another id. *)
Lemma second_resolution_creates_again :
  let s := initial listing_service
                   {| dir := "root"; foldername := "target"; basefolder := PyInt 7 |}
                   (file_only, 1000%Z) [] in
  let resolve := TeleboxImpl.create_folder_if_not_exists "a" 7 in
  outcome_of resolve s = Ret 1000%Z /\
  outcome_of resolve (state_after resolve s) = Ret 1001%Z /\
  existsb is_create (trace_of resolve (state_after resolve s)) = true.
Proof. vm_compute. repeat split; reflexivity. Qed.

(** The cached listing is searched by name only: the id of its first
    entry of that name is taken whatever the type of the entry, and no
    request is sent. *)
Lemma cached_entry_reused_whatever_its_type {R : Remote} (s : state R)
        first rest folder_pid :
  TeleboxImpl.subfolder_id (Entries (first :: rest)) (e_name first) folder_pid s
  = (Ret (e_id first), s, []).
Proof.
  unfold TeleboxImpl.subfolder_id. simpl. rewrite String.eqb_refl. reflexivity.
Qed.

(** C6 does not hold of the code.  The remote folder 7 holds a file
    called [a]; the driver takes its id 9 for the folder of the local
    directory [a] without any lookup or creation, and uploads [f1] and
    [f2] into it. *)
Theorem cached_file_taken_for_folder :
  let tr := trace_of
              (TeleboxImpl.main (R := listing_service) tree_fs two_workers 3 0%nat)
              (initial listing_service
                 {| dir := "root"; foldername := "target"; basefolder := PyInt 7 |}
                 ([ {| e_id := 9; e_name := "a"; e_type := "file"; e_pid := 7 |} ],
                  1000%Z) []) in
  In (EvPrint (MsgFolderPid "target" "a" 9)) tr /\
  existsb is_create tr = false /\
  map t_pid (submitted tr) = [9%Z; 9%Z].
Proof. vm_compute. repeat split; auto 10. Qed.

(* ================================================================== *)

(* ================================================================== *)
(** ** The shared arguments object *)


Lemma append_assoc a b c : ((a ++ b) ++ c = a ++ (b ++ c))%string.
Proof. induction a as [ | x a IH ]; simpl; congruence. Qed.

Lemma extends_trans a b c : extends a b -> extends b c -> extends a c.
Proof.
  intros [r1 ->] [r2 ->]. exists (r1 ++ r2)%string. apply append_assoc.
Qed.


Lemma length_append a b :
  String.length (a ++ b) = (String.length a + String.length b)%nat.
Proof. induction a as [ | x a IH ]; simpl; congruence. Qed.


Section Sharing.
Context {R : Remote}.
Variable fs : FileSystem.
Variable cfg : Config.


Lemma keeps_heap_load l : keeps_heap (load (R := R) l).
Proof. intros s. reflexivity. Qed.

Lemma keeps_heap_ret {A} (a : A) : keeps_heap (ret (R := R) a).
Proof. intros s. reflexivity. Qed.



Lemma keeps_heap_root_flush arguments folder_pid :
  keeps_heap (TeleboxImpl.root_flush (R := R) fs cfg arguments folder_pid).
Proof.
  unfold TeleboxImpl.root_flush.
  apply keeps_heap_bind; [ apply keeps_heap_load | ]. intros a.
  destruct (negb _); [ | apply keeps_heap_ret ].
  apply keeps_heap_bind; [ apply keeps_heap_or_raise | ]. intros file_list.
  apply keeps_heap_bind; [ apply keeps_heap_doit | ]. intros _.
  apply keeps_heap_ret.
Qed.







End Sharing.



(* ================================================================== *)

(* ================================================================== *)
(** ** Every upload submitted runs to its end *)

Lemma in_order_front l tr pre : in_order l tr -> in_order l (pre ++ tr).
Proof.
  intros H. induction pre as [ | e pre IH ]; [ exact H | ].
  apply in_order_later, IH.
Qed.

Lemma in_order_app l1 l2 t1 t2 :
  in_order l1 t1 -> in_order l2 t2 -> in_order (l1 ++ l2) (t1 ++ t2).
Proof.
  intros H1 H2. induction H1 as [ tr | e l tr _ IH | e l tr _ IH ]; cbn [app].
  - apply in_order_front, H2.
  - apply in_order_here, IH.
  - apply in_order_later, IH.
Qed.

Lemma in_order_more l tr post : in_order l tr -> in_order l (tr ++ post).
Proof.
  intros H. rewrite <- (app_nil_r l). apply in_order_app; [ exact H | constructor ].
Qed.

Lemma in_order_refl l : in_order l l.
Proof. induction l; constructor; assumption. Qed.

Lemma in_order_then l tr post :
  in_order l tr -> in_order (l ++ post) (tr ++ post).
Proof. intros H. apply in_order_app; [ exact H | apply in_order_refl ]. Qed.

Lemma in_order_in l tr e : in_order l tr -> In e l -> In e tr.
Proof.
  induction 1 as [ tr | x l tr _ IH | x l tr _ IH ]; intros Hin.
  - destruct Hin.
  - destruct Hin as [ -> | Hin ]; [ left; reflexivity | right; apply IH, Hin ].
  - right. apply IH, Hin.
Qed.

Lemma upload_ended_more fs t tr post :
  upload_ended fs t tr -> upload_ended fs t (tr ++ post).
Proof. intros (lot & lotf & H). exists lot, lotf. apply in_order_more, H. Qed.

Lemma thread_progress_more fs t ph tr post :
  thread_progress fs t ph tr -> thread_progress fs t ph (tr ++ post).
Proof.
  destruct ph; cbn [thread_progress].
  - apply in_order_more.
  - apply in_order_more.
  - intros (lot & H1 & H2 & H3 & H4 & H5 & H). exists lot.
    repeat (split; [ assumption | ]). apply in_order_more, H.
  - intros (lot & H1 & H2 & H3 & H4 & H). exists lot.
    repeat (split; [ assumption | ]). apply in_order_more, H.
Qed.

Section Protocol.
Context {R : Remote}.
Variable fs : FileSystem.

(** One action of a thread takes it to its next phase or to the end of
    its call. *)
Lemma worker_step_progress t ph tr (s : state R) :
  thread_progress fs t ph tr ->
  match Executor.worker_step fs t ph s with
  | (Ret (inl ph'), _, tw) => thread_progress fs t ph' (tr ++ tw)
  | (Ret (inr result), _, tw) =>
      upload_ended fs t (tr ++ tw ++ [EvDone t result])
  | (Fail _, _, _) => False
  end.
Proof.
  destruct ph as [ | | md5 size url | md5 size ];
    cbn [thread_progress Executor.worker_step].
  - (* the line *)
    intros H. unfold_monad. cbn.
    exact (in_order_then [EvSubmit t] tr [status_line t] H).
  - (* reading the file, the prepare request *)
    intros H. unfold_monad. cbn.
    destruct (getsize fs (Executor.task_path t)) as [ size | ] eqn:Hsize; cbn.
    2:{ exists (answer 0 None 0 "" 0), (answer 0 None 0 "" 0).
        unfold call_run. rewrite Hsize. cbn [fst snd app].
        exact (in_order_then _ tr [EvDone t (Fail (Exception "OSError"))] H). }
    destruct (md5_of_first_10mb fs (Executor.task_path t)) as [ md5 | ] eqn:Hmd5;
      cbn.
    2:{ exists (answer 0 None 0 "" 0), (answer 0 None 0 "" 0).
        unfold call_run. rewrite Hsize, Hmd5. cbn [fst snd app].
        exact (in_order_then _ tr [EvDone t (Fail (Exception "OSError"))] H). }
    destruct (http_get R (st_remote s) (UploadPrepare md5 size)) as [r' lot]. cbn.
    destruct (Z.eqb (status lot) 600) eqn:H600; cbn.
    { exists lot, lot. unfold call_run. rewrite Hsize, Hmd5, H600.
      cbn [fst snd app].
      exact (in_order_then _ tr [EvGet (UploadPrepare md5 size) lot;
                                 EvDone t (Ret tt)] H). }
    destruct (Z.eqb (status lot) 1) eqn:H1; cbn.
    { exists lot. repeat (split; [ assumption || reflexivity | ]).
      exact (in_order_then _ tr [EvGet (UploadPrepare md5 size) lot] H). }
    exists lot, lot. unfold call_run. rewrite Hsize, Hmd5, H600, H1.
    cbn [fst snd app negb].
    exact (in_order_then _ tr
             [EvGet (UploadPrepare md5 size) lot;
              EvDone t (Fail (SystemExit
                 "Prepare: Execution stopped. Cannot upload files"))] H).
  - (* the transfer *)
    intros (lot & Hsize & Hmd5 & H600 & H1 & -> & H). unfold_monad. cbn.
    rewrite Hsize. cbn.
    exists lot. repeat (split; [ assumption | ]).
    exact (in_order_then _ tr [EvPut (data_signUrl lot) (Executor.task_path t)] H).
  - (* the finish request *)
    intros (lot & Hsize & Hmd5 & H600 & H1 & H). unfold_monad. cbn.
    destruct (http_get R (st_remote s) _) as [r' lotf]. cbn.
    assert (Hend : forall result,
               result = (if negb (Z.eqb (status lotf) 1)
                         then Fail (SystemExit
                                "Finish Upload: Execution stopped. Cannot upload files")
                         else Ret tt) ->
               upload_ended fs t
                 (tr ++ [EvGet (UploadFinish md5 size (t_pid t)
                                   (basename (Executor.task_path t))) lotf]
                     ++ [EvDone t result])).
    { intros result ->. exists lot, lotf. unfold call_run.
      rewrite Hsize, Hmd5, H600, H1. cbn [fst snd app negb].
      exact (in_order_then _ tr
               [EvGet (UploadFinish md5 size (t_pid t)
                         (basename (Executor.task_path t))) lotf;
                EvDone t _] H). }
    destruct (negb (Z.eqb (status lotf) 1)) eqn:Hf; cbn; apply Hend;
      reflexivity.
Qed.

Lemma protocol_sched sub tr p (s s' : state R) :
  st_heap s' = st_heap s -> st_remote s' = st_remote s ->
  protocol_kept fs sub tr p s -> protocol_kept fs sub tr p s'.
Proof. intros _ _ H. exact H. Qed.

Lemma protocol_submit sub tr p (s : state R) t :
  protocol_kept fs sub tr p s ->
  protocol_kept fs (sub ++ [t]) (tr ++ [EvSubmit t])
                {| Executor.queue := Executor.queue p ++ [t];
                   Executor.running := Executor.running p |} s.
Proof.
  intros (Hq & Hr & Hsub). unfold protocol_kept, pool_tasks in *.
  cbn [Executor.queue Executor.running].
  split; [ | split ].
  - apply Forall_app. split.
    + eapply Forall_impl; [ | exact Hq ]. intros t0. apply in_order_more.
    + constructor; [ | constructor ].
      apply (in_order_front [EvSubmit t] [EvSubmit t] tr), in_order_refl.
  - eapply Forall_impl; [ | exact Hr ]. intros th. apply thread_progress_more.
  - apply Forall_app. split.
    + eapply Forall_impl; [ | exact Hsub ].
      intros t0 [ Hin | Hend ]; [ left | right; apply upload_ended_more, Hend ].
      apply in_app_or in Hin. apply in_or_app.
      destruct Hin as [ Hin | Hin ]; [ left; apply in_or_app; left | right ];
        exact Hin.
    + constructor; [ | constructor ]. left.
      apply in_or_app. left. apply in_or_app. right. left. reflexivity.
Qed.

Lemma protocol_step n sub tr p (s : state R) p' s' t1 :
  protocol_kept fs sub tr p s ->
  Executor.pool_step fs n p s = (Ret p', s', t1) ->
  protocol_kept fs sub (tr ++ t1) p' s'.
Proof.
  intros (Hq & Hr & Hsub). unfold Executor.pool_step. rewrite run_bind.
  destruct (next_choice_run s) as (c & s1 & -> & _ & _).
  unfold outcome_of, state_after, trace_of.
  set (k := Nat.modulo c _).
  assert (Hsplit : Executor.running p
                   = firstn k (Executor.running p) ++ skipn k (Executor.running p))
    by (symmetry; apply firstn_skipn).
  set (before := firstn k (Executor.running p)) in *. clearbody before k.
  destruct (skipn k (Executor.running p)) as [ | [t ph] later ].
  - (* no thread is designated *)
    assert (Hsame : protocol_kept fs sub (tr ++ []) p s').
    { rewrite app_nil_r. repeat split; assumption. }
    destruct (Executor.queue p) as [ | t waiting ] eqn:Hqueue.
    + cbn. intros Heq. inversion Heq; subst. exact Hsame.
    + destruct (Executor.can_start n p); cbn; intros Heq; inversion Heq; subst;
        [ | exact Hsame ].
      rewrite app_nil_r. unfold protocol_kept, pool_tasks in *.
      cbn [Executor.queue Executor.running]. rewrite Hqueue in *.
      inversion Hq as [ | ? ? Ht Hwaiting ]; subst.
      split; [ exact Hwaiting | ]. split.
      * apply Forall_app. split; [ exact Hr | ].
        constructor; [ exact Ht | constructor ].
      * eapply Forall_impl; [ | exact Hsub ].
        intros t0 [ Hin | Hend ]; [ left | right; exact Hend ].
        rewrite map_app. cbn [map fst].
        destruct Hin as [ <- | Hin ].
        { apply in_or_app. right. apply in_or_app. right. left. reflexivity. }
        apply in_app_or in Hin. apply in_or_app.
        destruct Hin as [ Hin | Hin ]; [ left; exact Hin | right ].
        apply in_or_app. left. exact Hin.
  - (* a thread at work is designated *)
    rewrite Hsplit in Hr. apply Forall_app in Hr. destruct Hr as [Hbefore Hr].
    inversion Hr as [ | ? ? Hthread Hlater ]; subst. cbn [fst snd] in Hthread.
    rewrite run_bind.
    pose proof (worker_step_progress t ph tr s1 Hthread) as Hstep.
    destruct (Executor.worker_step fs t ph s1) as [[[[ph' | result] | e] s2] tw];
      [ | | contradiction ].
    + unfold ret, outcome_of, state_after, trace_of. cbn [fst snd app].
      intros Heq. inversion Heq; subst. rewrite app_nil_r.
      unfold protocol_kept, pool_tasks in *.
      cbn [Executor.queue Executor.running].
      split; [ | split ].
      * eapply Forall_impl; [ | exact Hq ]. intros t0. apply in_order_more.
      * apply Forall_app. split.
        { eapply Forall_impl; [ | exact Hbefore ].
          intros th. apply thread_progress_more. }
        constructor; [ exact Hstep | ].
        eapply Forall_impl; [ | exact Hlater ].
        intros th. apply thread_progress_more.
      * eapply Forall_impl; [ | exact Hsub ].
        intros t0 [ Hin | Hend ]; [ left | right; apply upload_ended_more, Hend ].
        rewrite Hsplit in Hin. rewrite !map_app in *. exact Hin.
    + unfold outcome_of, state_after, trace_of. rewrite run_bind.
      unfold emit, ret, outcome_of, state_after, trace_of. cbn [fst snd app].
      intros Heq. inversion Heq; subst.
      unfold protocol_kept, pool_tasks in *.
      cbn [Executor.queue Executor.running].
      split; [ | split ].
      * eapply Forall_impl; [ | exact Hq ]. intros t0. apply in_order_more.
      * apply Forall_app. split.
        { eapply Forall_impl; [ | exact Hbefore ].
          intros th. apply thread_progress_more. }
        eapply Forall_impl; [ | exact Hlater ].
        intros th. apply thread_progress_more.
      * eapply Forall_impl; [ | exact Hsub ].
        intros t0 [ Hin | Hend ]; [ | right; apply upload_ended_more, Hend ].
        rewrite Hsplit in Hin. rewrite !map_app in *. cbn [map fst] in Hin.
        apply in_app_or in Hin. destruct Hin as [ Hin | Hin ].
        { left. apply in_or_app. left. exact Hin. }
        apply in_app_or in Hin. destruct Hin as [ Hin | [ <- | Hin ] ].
        { left. apply in_or_app. right. apply in_or_app. left. exact Hin. }
        { right. exact Hstep. }
        left. apply in_or_app. right. apply in_or_app. right. exact Hin.
Qed.

(** With a valid worker limit, every file of the listing that [doit]
    submits has its upload run to its end within the batch. *)
Lemma doit_uploads cfg file_list len_list directory folder_pid z (s : state R) :
  py_int (USR_LIMIT_CONCURRENT cfg) = Some z ->
  (0 < z)%Z ->
  Forall (fun t => upload_ended fs t
                     (trace_of (TeleboxImpl.doit fs cfg file_list len_list
                                  directory folder_pid) s))
         (listed_tasks fs 0 file_list len_list directory folder_pid).
Proof.
  intros Hcfg Hz.
  destruct (doit_acc fs (Z.to_nat z) (protocol_kept fs) protocol_sched
              protocol_submit (protocol_step (Z.to_nat z)) cfg z Hcfg Hz eq_refl
              file_list len_list directory folder_pid s)
    as (p' & s' & b & Hrun & _ & Hq & Hr & _ & _ & Hsub).
  { repeat split; constructor. }
  unfold trace_of. rewrite Hrun. cbn [snd].
  eapply Forall_impl; [ | exact Hsub ].
  intros t [ Hin | Hend ]; [ | exact Hend ].
  unfold pool_tasks in Hin. rewrite Hq, Hr in Hin. destruct Hin.
Qed.
End Protocol.

(* ================================================================== *)
(** ** The flush of the root directory *)

Section Opening.
Context {R : Remote}.


Lemma completed_done tr t :
  In t (completed tr) -> exists result, In (EvDone t result) tr.
Proof.
  induction tr as [ | e tr IH ]; simpl; [ intros [] | ].
  intros Hin. apply in_app_or in Hin. destruct Hin as [ Hin | Hin ].
  - destruct e; simpl in Hin; try contradiction.
    destruct Hin as [ -> | [] ]. eexists. left. reflexivity.
  - destruct (IH Hin) as (result & Hres). exists result. right. exact Hres.
Qed.
End Opening.

Section RootFlush.
Context {R : Remote}.
Variable fs : FileSystem.
Variable cfg : Config.

(** What lines 60-61 do, with a valid worker limit and a readable root. *)
Lemma root_flush_run arguments folder_pid n files (s : state R) :
  py_int (USR_LIMIT_CONCURRENT cfg) = Some n ->
  (0 < n)%Z ->
  listdir fs (dir (st_heap s arguments)) = Some files ->
  exists s' flush,
    TeleboxImpl.root_flush fs cfg arguments folder_pid s = (Ret tt, s', flush) /\
    st_heap s' = st_heap s /\
    if String.eqb (foldername (st_heap s arguments)) "upload"
    then flush = []
    else
      let tasks := listed_tasks fs 0 files (List.length files)
                                (dir (st_heap s arguments)) folder_pid in
      Forall (fun e => driver_event e = false) flush /\
      submitted flush = tasks /\
      Permutation (submitted flush) (completed flush) /\
      Forall (fun t => upload_ended fs t flush) tasks.
Proof.
  intros Hcfg Hn Hfiles. unfold TeleboxImpl.root_flush. rewrite run_load.
  destruct (String.eqb (foldername (st_heap s arguments)) "upload"); cbn [negb].
  - exists s, []. repeat split.
  - rewrite Hfiles, run_value.
    pose proof (doit_uploads fs cfg files (List.length files)
                  (dir (st_heap s arguments)) folder_pid n s Hcfg Hn) as Hup.
    destruct (doit_spec fs cfg files (List.length files)
                (dir (st_heap s arguments)) folder_pid n s Hcfg Hn)
      as (s' & b & Hrun & Hheap & Hev & Hsub & Hperm).
    unfold trace_of in Hup. rewrite Hrun in Hup. cbn [snd] in Hup.
    rewrite (bind_returns _ _ _ _ _ _ Hrun).
    exists s', b. split; [ cbn; rewrite app_nil_r; reflexivity | ].
    split; [ exact Hheap | ]. auto.
Qed.
End RootFlush.



(* ================================================================== *)
(** ** What the threads of a batch do *)

Section PoolEvents.
Context {R : Remote}.
Variable fs : FileSystem.

Lemma worker_step_events t ph (s : state R) :
  Forall (task_event fs t) (trace_of (Executor.worker_step fs t ph) s).
Proof.
  unfold trace_of.
  destruct ph; unfold Executor.worker_step; unfold_monad; simpl;
    repeat ask_env; repeat constructor; auto.
Qed.

(** The events of a scheduling decision belong to tasks of the pool, and
    the pool gets no new task. *)
Lemma pool_step_events n p (s : state R) :
  Forall (fun e => exists t,
              In t (pool_tasks p) /\
              task_event fs t e)
         (trace_of (Executor.pool_step fs n p) s) /\
  match outcome_of (Executor.pool_step fs n p) s with
  | Ret p' => incl (pool_tasks p')
                   (pool_tasks p)
  | Fail _ => True
  end.
Proof.
  unfold pool_tasks, trace_of, outcome_of, Executor.pool_step. rewrite run_bind.
  destruct (next_choice_run s) as (c & s1 & -> & _ & _).
  unfold outcome_of, state_after, trace_of.
  set (k := Nat.modulo c _).
  assert (Hsplit : Executor.running p
                   = firstn k (Executor.running p) ++ skipn k (Executor.running p))
    by (symmetry; apply firstn_skipn).
  destruct (skipn k (Executor.running p)) as [ | [t ph] later ] eqn:Hskip.
  - destruct (Executor.queue p) as [ | t waiting ] eqn:Hq.
    + simpl. split; [ constructor | rewrite Hq; apply incl_refl ].
    + destruct (Executor.can_start n p); simpl.
      * split; [ constructor | ].
        rewrite map_app. simpl. intros x Hx.
        apply in_app_or in Hx. destruct Hx as [ Hx | Hx ].
        { right. apply in_or_app. left. exact Hx. }
        apply in_app_or in Hx. destruct Hx as [ Hx | [ <- | [] ] ].
        { right. apply in_or_app. right. exact Hx. }
        left. reflexivity.
      * split; [ constructor | rewrite Hq; apply incl_refl ].
  - assert (Hin : In t (pool_tasks p)).
    { apply in_or_app. right. rewrite Hsplit, map_app. apply in_or_app.
      right. left. reflexivity. }
    assert (Hincl : incl (Executor.queue p
                          ++ map fst (firstn k (Executor.running p) ++ later))
                         (pool_tasks p)).
    { intros x Hx. apply in_app_or in Hx. apply in_or_app.
      destruct Hx as [ Hx | Hx ]; [ left; exact Hx | right ].
      rewrite Hsplit, map_app. rewrite map_app in Hx.
      apply in_app_or in Hx. apply in_or_app.
      destruct Hx as [ Hx | Hx ]; [ left; exact Hx | right; right; exact Hx ]. }
    rewrite run_bind.
    pose proof (worker_step_events t ph s1) as Hev. unfold trace_of in Hev.
    destruct (worker_step_spec fs t ph s1) as (r & s2 & tw & Hrun & _).
    rewrite Hrun in Hev |- *. cbn [snd] in Hev.
    unfold outcome_of, state_after, trace_of.
    assert (Hev' : Forall (fun e => exists t0,
                               In t0 (pool_tasks p) /\
                               task_event fs t0 e) tw).
    { eapply Forall_impl; [ | exact Hev ]. intros e He. exists t. auto. }
    destruct r as [ph' | result]; simpl.
    + split; [ rewrite app_nil_r; exact Hev' | ].
      rewrite Hsplit at 2. rewrite !map_app. simpl. apply incl_refl.
    + split; [ | exact Hincl ].
      apply Forall_app. split; [ exact Hev' | ].
      constructor; [ | constructor ]. exists t. split; [ exact Hin | reflexivity ].
Qed.

Lemma events_sched sub tr p (s s' : state R) :
  st_heap s' = st_heap s -> st_remote s' = st_remote s ->
  events_kept fs sub tr p s -> events_kept fs sub tr p s'.
Proof. intros _ _ H. exact H. Qed.

Lemma events_submit sub tr p (s : state R) t :
  events_kept fs sub tr p s ->
  events_kept fs (sub ++ [t]) (tr ++ [EvSubmit t])
              {| Executor.queue := Executor.queue p ++ [t];
                 Executor.running := Executor.running p |} s.
Proof.
  intros (Hev & Hincl). unfold events_kept, pool_tasks in *.
  cbn [Executor.queue Executor.running]. split.
  - apply Forall_app. split.
    + eapply Forall_impl; [ | exact Hev ].
      intros e He Hw. destruct (He Hw) as (t0 & Hin & Ht0).
      exists t0. split; [ apply in_or_app; left; exact Hin | exact Ht0 ].
    + constructor; [ discriminate | constructor ].
  - intros x Hx. apply in_or_app.
    apply in_app_or in Hx. destruct Hx as [ Hx | Hx ].
    + apply in_app_or in Hx. destruct Hx as [ Hx | Hx ]; [ left | right; exact Hx ].
      apply Hincl. apply in_or_app. left. exact Hx.
    + left. apply Hincl. apply in_or_app. right. exact Hx.
Qed.

Lemma events_step n sub tr p (s : state R) p' s' t1 :
  events_kept fs sub tr p s ->
  Executor.pool_step fs n p s = (Ret p', s', t1) ->
  events_kept fs sub (tr ++ t1) p' s'.
Proof.
  intros (Hev & Hincl) Hstep.
  destruct (pool_step_events n p s) as [Hnew Hpool].
  unfold trace_of, outcome_of in Hnew, Hpool. rewrite Hstep in Hnew, Hpool.
  cbn [fst snd] in Hnew, Hpool. split.
  - apply Forall_app. split; [ exact Hev | ].
    eapply Forall_impl; [ | exact Hnew ].
    intros e (t & Hin & Ht) _. exists t. split; [ apply Hincl, Hin | exact Ht ].
  - intros x Hx. apply Hincl, Hpool, Hx.
Qed.

(** What a thread of a batch does belongs to a task of the listing. *)
Lemma doit_events cfg file_list len_list directory folder_pid (s : state R) :
  Forall (fun e => worker_event e = true ->
                   exists t,
                     In t (listed_tasks fs 0 file_list len_list directory
                             folder_pid) /\
                     task_event fs t e)
         (trace_of (TeleboxImpl.doit fs cfg file_list len_list directory
                      folder_pid) s).
Proof.
  destruct (doit_cases fs cfg file_list len_list directory folder_pid s)
    as [ (z & Hcfg & Hz) | (name & _ & Hrun) ].
  - destruct (doit_acc fs (Z.to_nat z) (events_kept fs) events_sched
                events_submit (events_step (Z.to_nat z)) cfg z Hcfg Hz eq_refl
                file_list len_list directory folder_pid s)
      as (p' & s' & b & Hrun & _ & _ & _ & Hev & _).
    { split; [ constructor | intros x [] ]. }
    unfold trace_of. rewrite Hrun. exact Hev.
  - unfold trace_of. rewrite Hrun. constructor.
Qed.

(** A pool without a task does nothing. *)
Lemma pool_step_idle n p (s : state R) :
  pool_tasks p = [] ->
  exists s',
    Executor.pool_step fs n p s = (Ret p, s', []) /\
    st_heap s' = st_heap s /\ st_remote s' = st_remote s.
Proof.
  unfold pool_tasks. intros Hnone. apply app_eq_nil in Hnone.
  destruct Hnone as [Hq Hr]. apply map_eq_nil in Hr.
  unfold Executor.pool_step.
  destruct (next_choice_run s) as (c & s1 & Hc & Hheap & Hremote).
  rewrite (bind_returns _ _ _ _ _ _ Hc). rewrite Hr, Hq.
  rewrite skipn_nil. exists s1. auto.
Qed.




End PoolEvents.

(* ================================================================== *)
(** ** The tree [root/target/{a,b}] *)

Section SmallTree.
Context {R : Remote}.




Variable cfg : Config.
Variable n : Z.
Hypothesis Hcfg : py_int (USR_LIMIT_CONCURRENT cfg) = Some n.
Hypothesis Hn : (0 < n)%Z.


End SmallTree.




(* ================================================================== *)
(** ** Runs under a given behaviour of the searches and of [doit] *)

Section MainSatWith.
Context {R : Remote}.
Variable fs : FileSystem.
Variable cfg : Config.
Variable Q : option failure -> list event -> Prop.
Hypothesis HQ : chains Q.
Hypothesis Hsearch :
  forall name pid, sat Q (Search.search (R := R) name pid).
Hypothesis Hprint :
  forall m, (forall n total file, m <> MsgUploading n total file) ->
            Q None [EvPrint m].
Hypothesis Hdoit :
  forall file_list len_list directory folder_pid,
    sat Q (TeleboxImpl.doit (R := R) fs cfg file_list len_list directory folder_pid).
Hypothesis Hresolve :
  forall folder_data directory folder_pid,
    sat Q (TeleboxImpl.subfolder_id (R := R) folder_data directory folder_pid).

Lemma main_sat_with fuel : forall arguments,
  sat Q (TeleboxImpl.main (R := R) fs cfg fuel arguments).
Proof.
  assert (Hsilent : forall A (m : M R A), (forall s, trace_of m s = []) -> sat Q m)
    by (intros A m Hm; apply sat_silent; assumption).
  assert (Hint : forall v, sat Q (TeleboxImpl.int_ (R := R) v)).
  { intros v. apply Hsilent. intros s. unfold trace_of. rewrite int_run.
    destruct (py_int v); reflexivity. }
  induction fuel as [ | fuel IH ]; intros arguments; simpl.
  - apply Hsilent. reflexivity.
  - apply sat_bind; [ exact HQ | apply Hsilent; reflexivity | ]. intros a.
    apply sat_bind; [ exact HQ | apply Hint | ]. intros folder_pid.
    apply sat_bind; [ exact HQ | apply Hsearch | ]. intros lot.
    apply sat_bind; [ exact HQ | apply Hsilent; reflexivity | ]. intros a'.
    apply sat_bind; [ exact HQ | apply sat_emit, Hprint; discriminate | ].
    intros _.
    apply sat_bind; [ exact HQ | | intros _ ].
    { unfold TeleboxImpl.root_flush.
      apply sat_bind; [ exact HQ | apply Hsilent; reflexivity | ]. intros a0.
      destruct (negb _); [ | apply Hsilent; reflexivity ].
      apply sat_bind; [ exact HQ | apply sat_or_raise, HQ | ]. intros file_list.
      apply sat_bind; [ exact HQ | apply Hdoit | ]. intros _.
      apply Hsilent. reflexivity. }
    apply sat_bind; [ exact HQ | apply Hsilent; reflexivity | ]. intros a''.
    apply sat_bind; [ exact HQ | apply sat_or_raise, HQ | ]. intros entries.
    apply sat_for_each; [ exact HQ | ]. intros directory.
    unfold TeleboxImpl.main_directory.
    apply sat_bind; [ exact HQ | apply sat_emit, Hprint; discriminate | ].
    intros _.
    apply sat_bind; [ exact HQ | apply Hresolve | ]. intros subfolder_pid.
    apply sat_bind; [ exact HQ | apply sat_emit, Hprint; discriminate | ].
    intros _.
    apply sat_bind; [ exact HQ | apply sat_emit, Hprint; discriminate | ].
    intros _.
    apply sat_bind; [ exact HQ | apply sat_or_raise, HQ | ]. intros file_list.
    apply sat_bind; [ exact HQ | apply Hdoit | ]. intros ret_.
    apply sat_bind;
      [ exact HQ | | intros _; apply sat_emit, Hprint; discriminate ].
    destruct ret_; [ | apply Hsilent; reflexivity ].
    repeat (apply sat_bind; [ exact HQ | apply Hsilent; reflexivity | intros _ ]).
    apply IH.
Qed.
End MainSatWith.

(* ================================================================== *)
(** ** The upload protocol *)

(** Once the file has been read, [upload_file] looks at the status of
    the prepare answer: on 600 it returns 1 with nothing after the prepare
    request; on a status that is neither 1 nor 600 it calls [sys.exit]
    with nothing after the prepare request; on 1 it transfers and
    finalizes.  A transfer or a finish request in the trace implies that
    the prepare status was 1. *)
Lemma upload_file_prepare_status {R : Remote} fs file folder_id
        (s : state R) size md5 :
  getsize fs file = Some size ->
  md5_of_first_10mb fs file = Some md5 ->
  let lot := snd (http_get R (st_remote s) (UploadPrepare md5 size)) in
  let o := outcome_of (Upload.upload_file fs file folder_id) s in
  let tr := trace_of (Upload.upload_file fs file folder_id) s in
  (status lot = 600%Z ->
   o = Ret 1%Z /\ tr = [EvGet (UploadPrepare md5 size) lot]) /\
  (status lot <> 600%Z -> status lot <> 1%Z ->
   o = Fail (SystemExit "Prepare: Execution stopped. Cannot upload files") /\
   tr = [EvGet (UploadPrepare md5 size) lot]) /\
  (status lot = 1%Z ->
   exists lotf,
     tr = [EvGet (UploadPrepare md5 size) lot;
           EvPut (data_signUrl lot) file;
           EvGet (UploadFinish md5 size folder_id (basename file)) lotf] /\
     o = if Z.eqb (status lotf) 1 then Ret (data_itemId lotf)
         else Fail (SystemExit
                      "Finish Upload: Execution stopped. Cannot upload files")) /\
  (existsb transfer_or_finish tr = true -> status lot = 1%Z).
Proof.
  intros Hsize Hmd5 lot o tr. subst lot o tr.
  unfold Upload.upload_file. unfold_monad. rewrite Hsize, Hmd5. simpl.
  destruct (http_get R (st_remote s) (UploadPrepare md5 size)) as [r1 lot].
  simpl.
  destruct (Z.eqb_spec (status lot) 600) as [ H600 | H600 ].
  - simpl. repeat split; intros; try congruence; try discriminate; try lia.
  - destruct (Z.eqb_spec (status lot) 1) as [ H1 | H1 ]; simpl.
    + simpl.
      destruct (http_get R _ (UploadFinish md5 size folder_id (basename file)))
        as [r2 lotf]. simpl.
      repeat split; intros; try congruence.
      exists lotf.
      destruct (Z.eqb (status lotf) 1); simpl; split; reflexivity.
    + repeat split; intros; try congruence; try discriminate.
Qed.

(** What [call_run] describes is what the call does: for every service
    and every state, the events and the end of
    [upload_file_and_print_status] are those of [call_run] for the
    answers the service gives. *)
Lemma call_run_is_the_call {R : Remote} fs t (s : state R) :
  exists lot lotf,
    trace_of (TeleboxImpl.upload_file_and_print_status fs (t_i t) (t_total t)
                (t_directory t) (t_file t) (t_pid t)) s
    = fst (call_run fs t lot lotf) /\
    outcome_of (TeleboxImpl.upload_file_and_print_status fs (t_i t) (t_total t)
                  (t_directory t) (t_file t) (t_pid t)) s
    = snd (call_run fs t lot lotf).
Proof.
  unfold TeleboxImpl.upload_file_and_print_status, call_run, status_line,
    Executor.task_path.
  set (path := (t_directory t ++ "/" ++ t_file t)%string).
  unfold_monad. cbn.
  destruct (getsize fs path) as [ size | ]; cbn;
    [ | exists (answer 0 None 0 "" 0), (answer 0 None 0 "" 0); split; reflexivity ].
  destruct (md5_of_first_10mb fs path) as [ md5 | ]; cbn;
    [ | exists (answer 0 None 0 "" 0), (answer 0 None 0 "" 0); split; reflexivity ].
  destruct (http_get R (st_remote s) (UploadPrepare md5 size)) as [r1 lot]. cbn.
  destruct (Z.eqb (status lot) 600) eqn:H600; cbn.
  { exists lot, lot. rewrite H600. split; reflexivity. }
  destruct (Z.eqb (status lot) 1) eqn:H1; cbn.
  2:{ exists lot, lot. rewrite H600, H1. split; reflexivity. }
  destruct (http_get R _ (UploadFinish md5 size (t_pid t) _)) as [r2 lotf]. cbn.
  exists lot, lotf. rewrite H600, H1.
  destruct (Z.eqb (status lotf) 1); cbn; split; reflexivity.
Qed.

(** C4 does not hold of the program.  A service refuses every prepare
    request with status 0.  The call [upload_file] then ends in
    [sys.exit], as the claim says; but the driver makes that call in a
    thread of the pool only, where the exit ends in the future of the
    task: the run goes on with the prepare request of the next file,
    prints its closing line and returns. *)
Theorem refused_prepare_does_not_stop_the_run :
  let s := initial refusing_service
                   {| dir := "root"; foldername := "target";
                      basefolder := PyInt 7 |} ([], 1000%Z) [] in
  let run := TeleboxImpl.main (R := refusing_service) tree_fs two_workers 3 0%nat in
  let refused := SystemExit "Prepare: Execution stopped. Cannot upload files" in
  outcome_of (Upload.upload_file (R := refusing_service) tree_fs
                "root/target/a/f1" 1000) s = Fail refused /\
  outcome_of run s = Ret tt /\
  exists pre,
    trace_of run s
    = pre ++ [EvDone (file_task 0 "f1" 1000) (Fail refused);
              EvPrint (MsgUploading 2 2 "f2");
              EvGet (UploadPrepare "md5-root/target/a/f2" 16)
                    (answer 0 None 0 "" 0);
              EvDone (file_task 1 "f2" 1000) (Fail refused);
              EvPrint MsgEndUploading].
Proof.
  intros s run refused.
  split; [ vm_compute; reflexivity | ]. split; [ vm_compute; reflexivity | ].
  exists (firstn 11 (trace_of run s)). vm_compute. reflexivity.
Qed.

(* ================================================================== *)
(** ** Listings *)










(* ================================================================== *)
(** ** What a batch submits *)

(** X1.  With a valid worker limit, [doit] returns whatever the service
    answers and whatever the scheduler does.  It has submitted one upload
    for each entry of the listing that is a regular file, in the order of
    the listing, numbered by its position in the whole listing and aimed
    at the given folder; every one of them has ended; the value returned
    tells whether some entry of the listing is a directory. *)
Theorem doit_uploads_the_files_of_the_listing {R : Remote} fs cfg file_list
        len_list directory folder_pid n (s : state R) :
  py_int (USR_LIMIT_CONCURRENT cfg) = Some n ->
  (0 < n)%Z ->
  let run := TeleboxImpl.doit fs cfg file_list len_list directory folder_pid in
  outcome_of run s
  = Ret (existsb (fun file => isdir fs (directory ++ "/" ++ file)) file_list) /\
  map t_file (submitted (trace_of run s))
  = filter (fun file => isfile fs (directory ++ "/" ++ file)) file_list /\
  Forall (fun t => t = task_of len_list directory folder_pid (t_i t) (t_file t) /\
                   nth_error file_list (t_i t) = Some (t_file t))
         (submitted (trace_of run s)) /\
  Permutation (completed (trace_of run s)) (submitted (trace_of run s)).
Proof.
  intros Hcfg Hn run. subst run.
  destruct (doit_spec fs cfg file_list len_list directory folder_pid n s Hcfg Hn)
    as (s' & b & Hrun & _ & _ & Hsub & Hperm).
  destruct (listed_files fs len_list directory folder_pid file_list 0)
    as (Hfiles & Htasks).
  unfold outcome_of, trace_of. rewrite Hrun. cbn [fst snd]. rewrite Hsub.
  split; [ reflexivity | ]. split; [ exact Hfiles | ].
  split; [ | rewrite <- Hsub; apply Permutation_sym, Hperm ].
  eapply Forall_impl; [ | exact Htasks ].
  intros t (Ht & _ & Hnth). split; [ exact Ht | ].
  rewrite Nat.sub_0_r in Hnth. exact Hnth.
Qed.

Lemma doit_uploads_the_files_of_the_listing_witness :
  map t_file
      (submitted
         (trace_of (TeleboxImpl.doit (R := listing_service) tree_fs two_workers
                      ["a"; "b"] 2 "root/target" 7)
                   (initial listing_service
                            {| dir := "root"; foldername := "target";
                               basefolder := PyInt 7 |} ([], 1000%Z) [3; 1]%nat)))
  = ["b"].
Proof.
  exact (proj1 (proj2 (doit_uploads_the_files_of_the_listing
                         (R := listing_service) tree_fs two_workers
                         ["a"; "b"] 2 "root/target" 7 2
                         (initial listing_service
                                  {| dir := "root"; foldername := "target";
                                     basefolder := PyInt 7 |}
                                  ([], 1000%Z) [3; 1]%nat)
                         eq_refl eq_refl))).
Defined.

Section Alone.
Context {R : Remote}.
Variable fs : FileSystem.

(** What is left of a call depends on the state of the service only. *)
Lemma call_from_remote t ph (s s' : state R) :
  st_remote s = st_remote s' ->
  trace_of (call_from fs t ph) s = trace_of (call_from fs t ph) s' /\
  outcome_of (call_from fs t ph) s = outcome_of (call_from fs t ph) s' /\
  st_remote (state_after (call_from fs t ph) s)
  = st_remote (state_after (call_from fs t ph) s').
Proof.
  destruct s as [h r sched], s' as [h' r' sched']. cbn [st_remote].
  intros <-.
  destruct ph; unfold call_from, TeleboxImpl.upload_file_and_print_status;
    unfold_monad; simpl;
    repeat ask_env; repeat split; reflexivity.
Qed.

(** An action of a thread is the next part of the call. *)
Lemma worker_step_call t ph (s : state R) :
  exists r s' tw,
    Executor.worker_step fs t ph s = (Ret r, s', tw) /\
    match r with
    | inl ph' =>
        trace_of (call_from fs t ph) s = tw ++ trace_of (call_from fs t ph') s' /\
        outcome_of (call_from fs t ph) s = outcome_of (call_from fs t ph') s' /\
        st_remote (state_after (call_from fs t ph) s)
        = st_remote (state_after (call_from fs t ph') s')
    | inr result =>
        trace_of (call_from fs t ph) s = tw /\
        outcome_of (call_from fs t ph) s = result /\
        st_remote (state_after (call_from fs t ph) s) = st_remote s'
    end.
Proof.
  destruct ph; unfold Executor.worker_step, call_from,
                 TeleboxImpl.upload_file_and_print_status, Executor.task_path;
    unfold_monad; simpl; repeat ask_env;
    eexists _, _, _; (split; [ reflexivity | ]); simpl;
    repeat match goal with
           | H : ?x = _ |- context [?x] => rewrite H; simpl
           end;
    repeat split; reflexivity.
Qed.

Lemma alone_sched s0 sub tr p (s s' : state R) :
  st_heap s' = st_heap s -> st_remote s' = st_remote s ->
  alone fs s0 sub tr p s -> alone fs s0 sub tr p s'.
Proof.
  intros _ Hremote. unfold alone.
  destruct sub as [ | t [ | ] ]; [ | | auto ].
  - intros (Htr & Hp & Hr). repeat split; congruence.
  - intros [ (Hq & Hr & Htr & Hs) | [ (ph & pre & Hq & Hr & Htr & Hrest)
                                   | (Hq & Hr & Htr & Hs) ] ].
    + left. repeat split; congruence.
    + right. left. exists ph, pre.
      destruct (call_from_remote t ph s' s Hremote) as (-> & -> & ->).
      auto.
    + right. right. repeat split; congruence.
Qed.

Lemma alone_submit s0 sub tr p (s : state R) t :
  alone fs s0 sub tr p s ->
  alone fs s0 (sub ++ [t]) (tr ++ [EvSubmit t])
        {| Executor.queue := Executor.queue p ++ [t];
           Executor.running := Executor.running p |} s.
Proof.
  unfold alone. destruct sub as [ | t0 [ | ] ]; cbn [app]; auto.
  intros (-> & Hp & Hr). left. unfold pool_tasks in Hp.
  apply app_eq_nil in Hp. destruct Hp as [-> Hrun].
  apply map_eq_nil in Hrun. cbn [Executor.queue Executor.running app].
  auto.
Qed.

Lemma alone_step n s0 sub tr p (s : state R) p' s' t1 :
  (1 <= n)%nat ->
  alone fs s0 sub tr p s ->
  Executor.pool_step fs n p s = (Ret p', s', t1) ->
  alone fs s0 sub (tr ++ t1) p' s'.
Proof.
  intros Hn. unfold alone.
  destruct sub as [ | t [ | ] ]; [ | | auto ].
  - intros (-> & Hp & Hr) Hstep.
    destruct (pool_step_idle fs n p s Hp) as (s1 & Hidle & _ & Hremote).
    rewrite Hidle in Hstep. inversion Hstep; subst.
    repeat split; congruence.
  - assert (Hstart : Nat.ltb 0 n = true) by (apply Nat.ltb_lt; lia).
    intros Hacc. unfold Executor.pool_step, Executor.can_start.
    destruct (next_choice_run s) as (c & s1 & Hc & _ & Hremote).
    rewrite (bind_returns _ _ _ _ _ _ Hc).
    destruct Hacc as [ (Hq & Hr & Htr & Hs)
                     | [ (ph & pre & Hq & Hr & Htr & Hrest)
                       | (Hq & Hr & Htr & Hs) ] ];
      rewrite Hq, Hr; cbn [List.length Nat.add]; rewrite ?Hstart;
      rewrite ?Nat.mod_1_r; cbn [skipn firstn app]; rewrite ?skipn_nil.
    + unfold ret. cbn [app]. intros Hstep. inversion Hstep; subst p' s' t1.
      right. left. exists Executor.AtPrint, [].
      cbn [Executor.queue Executor.running app].
      destruct (call_from_remote t Executor.AtPrint s0 s1) as (-> & -> & ->);
        [ congruence | ].
      subst tr. repeat split; reflexivity.
    + destruct (call_from_remote t ph s s1) as (Ht & Ho & Hr');
        [ congruence | ].
      rewrite Ht, Ho, Hr' in Hrest. destruct Hrest as (Htrace & Hout & Hend).
      destruct (worker_step_call t ph s1) as (r & s2 & tw & Hw & Hcall).
      rewrite (bind_returns _ _ _ _ _ _ Hw).
      destruct r as [ ph' | result ].
      * unfold ret. cbn [app]. intros Hstep. inversion Hstep; subst p' s' t1.
        destruct Hcall as (Ht' & Ho' & Hr'').
        right. left. exists ph', (pre ++ tw).
        cbn [Executor.queue Executor.running app].
        rewrite <- app_assoc, <- Ht', <- Ho', <- Hr''. rewrite app_nil_r.
        subst tr. repeat split; try reflexivity; assumption.
      * unfold bind, emit, ret. cbn [app fst snd].
        intros Hstep. inversion Hstep; subst p' s' t1.
        destruct Hcall as (Ht' & Ho' & Hr'').
        right. right. cbn [Executor.queue Executor.running app].
        rewrite Htrace, Hout, Hend, Ht', Ho', Hr''.
        subst tr. cbn [app]. rewrite <- app_assoc.
        repeat split; reflexivity.
    + unfold ret. cbn [app]. intros Hstep. inversion Hstep; subst p' s' t1.
      right. right. rewrite app_nil_r.
      repeat split; try reflexivity; try assumption. congruence.
Qed.
End Alone.

(** X2.  A batch of one file does what a direct call of
    [upload_file_and_print_status] does, whatever the scheduler: the same
    line and the same requests in the same order, with the same effect on
    the service; what the call returns or raises - [sys.exit] included -
    ends in the future of the task, and [doit] returns. *)
Theorem doit_of_one_file_is_the_call {R : Remote} fs cfg file len_list directory
        folder_pid n (s : state R) :
  py_int (USR_LIMIT_CONCURRENT cfg) = Some n ->
  (0 < n)%Z ->
  isfile fs (directory ++ "/" ++ file) = true ->
  let run := TeleboxImpl.doit fs cfg [file] len_list directory folder_pid in
  let call := TeleboxImpl.upload_file_and_print_status fs 0 len_list directory
                file folder_pid in
  let t := task_of len_list directory folder_pid 0 file in
  outcome_of run s = Ret (isdir fs (directory ++ "/" ++ file)) /\
  trace_of run s
  = EvSubmit t :: trace_of call s ++ [EvDone t (outcome_of call s)] /\
  st_remote (state_after run s) = st_remote (state_after call s).
Proof.
  intros Hcfg Hn Hfile run call t.
  assert (Hworker : (1 <= Z.to_nat n)%nat) by lia.
  destruct (doit_acc fs (Z.to_nat n) (alone fs s) (alone_sched fs s)
              (alone_submit fs s) (fun sub tr p s1 p' s' t1 =>
                 alone_step fs (Z.to_nat n) s sub tr p s1 p' s' t1 Hworker)
              cfg n Hcfg Hn eq_refl [file] len_list directory folder_pid s)
    as (p' & s' & b & Hrun & _ & Hq & Hr & Hacc).
  { repeat split. }
  fold run in Hrun. cbn [listed_tasks app] in Hacc. rewrite Hfile in Hacc.
  cbn [app alone] in Hacc. fold t in Hacc.
  unfold outcome_of, trace_of, state_after. rewrite Hrun. cbn [fst snd existsb].
  rewrite orb_false_r. split; [ reflexivity | ].
  destruct Hacc as [ (Hq' & _) | [ (ph & pre & _ & Hr' & _) | (_ & _ & Htr & Hs) ] ];
    [ congruence | congruence | ].
  split; [ exact Htr | exact Hs ].
Qed.

Lemma doit_of_one_file_is_the_call_witness :
  trace_of (TeleboxImpl.doit (R := constant_service (answer 0 None 0 "" 0))
              tree_fs two_workers ["f1"] 1 "root/target/a" 9)
           (initial (constant_service (answer 0 None 0 "" 0))
                    {| dir := "root"; foldername := "target";
                       basefolder := PyInt 7 |} tt [4; 2]%nat)
  = [EvSubmit (task_of 1 "root/target/a" 9 0 "f1");
     EvPrint (MsgUploading 1 1 "f1");
     EvGet (UploadPrepare "md5-root/target/a/f1" 16) (answer 0 None 0 "" 0);
     EvDone (task_of 1 "root/target/a" 9 0 "f1")
            (Fail (SystemExit "Prepare: Execution stopped. Cannot upload files"))].
Proof.
  exact (proj1 (proj2 (doit_of_one_file_is_the_call
                         (R := constant_service (answer 0 None 0 "" 0))
                         tree_fs two_workers "f1" 1 "root/target/a" 9 2
                         (initial (constant_service (answer 0 None 0 "" 0))
                                  {| dir := "root"; foldername := "target";
                                     basefolder := PyInt 7 |} tt [4; 2]%nat)
                         eq_refl eq_refl eq_refl))).
Defined.

(* ================================================================== *)
(** ** Names and targets of the uploads *)

Lemma basename_from_no_slash name : forall acc,
  no_slash name = true -> basename_from acc name = acc.
Proof.
  induction name as [ | c rest IH ]; intros acc Hname; [ reflexivity | ].
  cbn [no_slash] in Hname. apply andb_true_iff in Hname.
  destruct Hname as [Hc Hrest]. cbn [basename_from].
  destruct (Ascii.eqb c "/"); [ discriminate | apply IH, Hrest ].
Qed.

Lemma basename_from_join directory name : forall acc,
  no_slash name = true ->
  basename_from acc (directory ++ "/" ++ name) = name.
Proof.
  induction directory as [ | c rest IH ]; intros acc Hname.
  - cbn. apply basename_from_no_slash, Hname.
  - cbn [String.append basename_from].
    destruct (Ascii.eqb c "/"); apply IH, Hname.
Qed.

(** X3.  Whatever the configuration, the service and the scheduler, a
    batch touches no folder: it sends no search and no folder creation.
    When the names of the listing hold no slash, every file it transfers
    is a regular file [directory/name] with [name] in the listing, and
    every finish request registers such a [name] in the folder given to
    [doit]. *)
Theorem doit_registers_only_its_files {R : Remote} fs cfg file_list len_list
        directory folder_pid (s : state R) :
  Forall (fun name => no_slash name = true) file_list ->
  Forall (batch_event fs file_list directory folder_pid)
         (trace_of (TeleboxImpl.doit fs cfg file_list len_list directory
                      folder_pid) s).
Proof.
  intros Hnames.
  destruct (listed_files fs len_list directory folder_pid file_list 0)
    as (Hfiles & Htasks).
  pose proof (doit_events fs cfg file_list len_list directory folder_pid s)
    as Hworkers.
  destruct (doit_any fs cfg file_list len_list directory folder_pid s)
    as (o & s' & tr & Hrun & _ & [Hbatch _] & _).
  unfold trace_of in *. rewrite Hrun in *. cbn [snd] in *.
  rewrite Forall_forall in Hworkers, Hbatch, Hnames, Htasks.
  apply Forall_forall. intros e He.
  specialize (Hworkers e He). specialize (Hbatch e He).
  assert (Hof : forall t,
             In t (listed_tasks fs 0 file_list len_list directory folder_pid) ->
             In (t_file t) file_list /\
             isfile fs (directory ++ "/" ++ t_file t) = true /\
             Executor.task_path t = (directory ++ "/" ++ t_file t)%string /\
             t_pid t = folder_pid).
  { intros t Hin. destruct (Htasks t Hin) as (Ht & _).
    apply (in_map t_file) in Hin. rewrite Hfiles in Hin.
    apply filter_In in Hin. destruct Hin as [Hlisted Hfile].
    repeat split; try assumption; rewrite Ht; reflexivity. }
  destruct e as [ [ | | | ] resp | url path | [ ] | | ];
    cbn [batch_event driver_event] in *; try exact I; try discriminate.
  - destruct (Hworkers eq_refl) as (t & Hin & Hpid & Hname).
    destruct (Hof t Hin) as (Hlisted & Hfile & Hpath & Ht).
    subst pid diyName. rewrite Hpath. unfold basename.
    rewrite (basename_from_join _ _ _ (Hnames _ Hlisted)). auto.
  - destruct (Hworkers eq_refl) as (t & Hin & Hpath').
    destruct (Hof t Hin) as (Hlisted & Hfile & Hpath & Ht).
    cbn [task_event] in Hpath'. subst path. exists (t_file t).
    rewrite Hpath. auto.
Qed.

Lemma doit_registers_only_its_files_witness :
  Forall (batch_event tree_fs ["f1"; "f2"] "root/target/a" 1000)
         (trace_of (TeleboxImpl.doit (R := listing_service) tree_fs two_workers
                      ["f1"; "f2"] 2 "root/target/a" 1000)
                   (initial listing_service
                            {| dir := "root"; foldername := "target";
                               basefolder := PyInt 7 |} ([], 2000%Z) [1; 1; 0]%nat)).
Proof.
  apply (doit_registers_only_its_files (R := listing_service)).
  repeat constructor.
Defined.

(* ================================================================== *)
(** ** Folders are created after a failed lookup only *)

Lemma creates_after_failed_lookup_nil : creates_after_failed_lookup [].
Proof. intros pre pid name a b c d desc cresp post H. destruct pre; discriminate. Qed.

Lemma creates_after_failed_lookup_app t1 t2 :
  creates_after_failed_lookup t1 ->
  creates_after_failed_lookup t2 ->
  creates_after_failed_lookup (t1 ++ t2).
Proof.
  intros H1 H2 pre pid name a b c d desc cresp post Heq.
  apply app_eq_app in Heq.
  destruct Heq as (l & [ [Ht1 Hrest] | [Hpre Ht2] ]).
  - destruct l as [ | x l ].
    + simpl in Hrest. symmetry in Hrest.
      destruct (H2 [] pid name a b c d desc cresp post Hrest)
        as (pre' & resp & Habs & _).
      destruct pre'; discriminate.
    + simpl in Hrest. inversion Hrest; subst x.
      eapply H1. exact Ht1.
  - destruct (H2 l pid name a b c d desc cresp post Ht2)
      as (pre' & resp & -> & Hnone).
    exists (t1 ++ pre'), resp. split; [ | exact Hnone ].
    rewrite Hpre. apply app_assoc.
Qed.

Lemma creates_after_failed_lookup_none tr :
  Forall (fun e => is_create e = false) tr -> creates_after_failed_lookup tr.
Proof.
  intros Hnone pre pid name a b c d desc cresp post ->.
  apply Forall_app in Hnone. destruct Hnone as [_ Hnone].
  inversion Hnone; subst. discriminate.
Qed.

Lemma resolve_creates_after_failed_lookup {R : Remote} directory folder_pid
      (s : state R) :
  creates_after_failed_lookup
    (trace_of (TeleboxImpl.create_folder_if_not_exists directory folder_pid) s).
Proof.
  unfold trace_of. rewrite resolve_run.
  destruct (first_entry_folder _ folder_pid) eqn:Hfirst; cbn [snd].
  - apply creates_after_failed_lookup_none. repeat constructor.
  - intros pre pid name a b c d desc cresp post Heq.
    destruct pre as [ | x [ | y pre ] ]; cbn in Heq.
    + discriminate.
    + inversion Heq; subst. eexists [], _. split; [ reflexivity | exact Hfirst ].
    + inversion Heq. destruct pre; discriminate.
Qed.

Lemma subfolder_id_trace {R : Remote} folder_data directory folder_pid
      (s : state R) :
  trace_of (TeleboxImpl.subfolder_id folder_data directory folder_pid) s = [] \/
  trace_of (TeleboxImpl.subfolder_id folder_data directory folder_pid) s
  = trace_of (TeleboxImpl.create_folder_if_not_exists directory folder_pid) s.
Proof.
  assert (Hresolve :
            trace_of (subfolder_pid <- TeleboxImpl.create_folder_if_not_exists
                                         directory folder_pid ;;
                      if Z.eqb subfolder_pid (-1)
                      then sys_exit "Execution stopped. Folder not created"
                      else ret subfolder_pid) s
            = trace_of (TeleboxImpl.create_folder_if_not_exists directory folder_pid) s).
  { unfold trace_of. rewrite run_bind.
    destruct (TeleboxImpl.create_folder_if_not_exists directory folder_pid s)
      as [[[id | e] s1] t1]; [ | reflexivity ].
    unfold trace_of. cbn [snd]. destruct (Z.eqb id (-1)); apply app_nil_r. }
  unfold TeleboxImpl.subfolder_id.
  destruct folder_data as [ [ | first rest ] | [ | ] ];
    [ | | left; reflexivity | ];
    unfold trace_of at 1 2; rewrite run_ret; try (right; exact Hresolve).
  destruct (filter _ (first :: rest)); [ right; exact Hresolve | left; reflexivity ].
Qed.

(** X4.  In every run of the driver, a request to create a folder comes
    immediately after a search for the same name under the same parent
    (first page, 50 entries) whose answer did not start with a directory
    of that parent with a non-zero id: no folder is created without that
    failed lookup right before. *)
Theorem folders_created_after_failed_lookup_only {R : Remote} fs cfg fuel
        arguments (s : state R) :
  creates_after_failed_lookup
    (trace_of (TeleboxImpl.main fs cfg fuel arguments) s).
Proof.
  apply (main_sat fs cfg (fun _ tr => creates_after_failed_lookup tr)).
  - split; [ intros f; apply creates_after_failed_lookup_nil | ].
    intros t1 t2 f. apply creates_after_failed_lookup_app.
  - intros pid name resp. apply creates_after_failed_lookup_none.
    repeat constructor.
  - intros m _. apply creates_after_failed_lookup_none. repeat constructor.
  - intros b Hb. apply creates_after_failed_lookup_none.
    eapply Forall_impl; [ | apply batch_no_driver, Hb ].
    intros [ [ | | | ] resp | | | | ]; simpl; congruence.
  - intros folder_data directory folder_pid s'.
    destruct (subfolder_id_trace folder_data directory folder_pid s')
      as [ -> | -> ];
      [ apply creates_after_failed_lookup_nil
      | apply resolve_creates_after_failed_lookup ].
Qed.

(* ================================================================== *)
(** ** A worker limit that is no positive integer *)

(** [doit] with a worker limit with which no pool can be made. *)
Lemma doit_invalid_limit {R : Remote} fs cfg file_list len_list directory
      folder_pid (s : state R) :
  invalid_limit (USR_LIMIT_CONCURRENT cfg) ->
  exists name,
    TeleboxImpl.doit fs cfg file_list len_list directory folder_pid s
    = (Fail (Exception name), s, []).
Proof.
  intros Hcfg.
  destruct (doit_cases fs cfg file_list len_list directory folder_pid s)
    as [ (z & Hz & Hpos) | (name & _ & Hrun) ].
  - unfold invalid_limit in Hcfg. rewrite Hz in Hcfg. lia.
  - exists name. exact Hrun.
Qed.

(** X5.  When [USR_LIMIT_CONCURRENT] is [None], a number that is not
    positive, or a string of at most 4300 ASCII characters that [int]
    refuses or reads as a number that is not positive, no run of the
    driver submits an upload or performs any upload action - while
    folders may still be looked up and created before the first batch
    fails. *)
Theorem no_upload_without_a_valid_worker_limit {R : Remote} fs cfg fuel
        arguments (s : state R) :
  invalid_limit (USR_LIMIT_CONCURRENT cfg) ->
  Forall (fun e => driver_event e = true)
         (trace_of (TeleboxImpl.main fs cfg fuel arguments) s).
Proof.
  intros Hcfg.
  apply (main_sat_with fs cfg
           (fun _ tr => Forall (fun e => driver_event e = true) tr)).
  - split; [ intros f; constructor | ].
    intros t1 t2 f H1 H2. apply Forall_app. split; assumption.
  - intros name pid s'. unfold trace_of, Search.search, get_data.
    destruct (http_get R (st_remote s') _) as [r' resp]. repeat constructor.
  - intros m Hm. constructor; [ | constructor ].
    destruct m; try reflexivity. exfalso. eapply Hm. reflexivity.
  - intros file_list len_list directory folder_pid s'.
    destruct (doit_invalid_limit fs cfg file_list len_list directory folder_pid
                s' Hcfg) as (name & Hrun).
    unfold trace_of. rewrite Hrun. constructor.
  - intros folder_data directory folder_pid s'.
    destruct (subfolder_id_trace folder_data directory folder_pid s')
      as [ -> | -> ]; [ constructor | ].
    unfold trace_of. rewrite resolve_run.
    destruct (first_entry_folder _ folder_pid); repeat constructor.
Qed.

Lemma no_upload_without_a_valid_worker_limit_witness :
  Forall (fun e => driver_event e = true)
         (trace_of (TeleboxImpl.main (R := listing_service) tree_fs
                      {| TELEBOX_BASEFOLDER := PyStr "100";
                         USR_LIMIT_CONCURRENT := PyStr "two" |} 3 0%nat)
                   (initial listing_service
                            {| dir := "root"; foldername := "target";
                               basefolder := PyInt 7 |} ([], 1000%Z) [])).
Proof.
  apply (no_upload_without_a_valid_worker_limit (R := listing_service)).
  vm_compute. reflexivity.
Defined.

(* ================================================================== *)
(** ** A target directory that cannot be listed *)



(* ================================================================== *)
(** ** The depth of the recursion *)

Section Completes.
Context {R : Remote}.

Lemma outcome_bind {A B} (m : M R A) (f : A -> M R B) s :
  outcome_of (bind m f) s =
  match outcome_of m s with
  | Ret a => outcome_of (f a) (state_after m s)
  | Fail e => Fail e
  end.
Proof.
  unfold outcome_of, state_after. rewrite run_bind.
  destruct (m s) as [[[a | e] s1] t1]; reflexivity.
Qed.

(** [bind], where the value returned is known to satisfy [P]. *)
Lemma completes_bind_post {A B} (P : A -> Prop) (m : M R A) (f : A -> M R B) :
  completes m ->
  (forall s a, outcome_of m s = Ret a -> P a) ->
  (forall a, P a -> completes (f a)) ->
  completes (bind m f).
Proof.
  intros Hm Hpost Hf s. rewrite outcome_bind.
  specialize (Hm s). specialize (Hpost s).
  destruct (outcome_of m s) as [ a | e ]; [ | congruence ].
  apply Hf, (Hpost a eq_refl).
Qed.

Lemma completes_bind {A B} (m : M R A) (f : A -> M R B) :
  completes m -> (forall a, completes (f a)) -> completes (bind m f).
Proof.
  intros Hm Hf. apply (completes_bind_post (fun _ => True)); auto.
Qed.

Lemma completes_for_each {A} (l : list A) (body : A -> M R unit) :
  (forall x, completes (body x)) -> completes (for_each l body).
Proof.
  intros Hbody. induction l as [ | x rest IH ]; simpl.
  - intros s. discriminate.
  - apply completes_bind; [ apply Hbody | intros _; exact IH ].
Qed.

Lemma completes_ret {A} (a : A) : completes (ret (R := R) a).
Proof. intros s. discriminate. Qed.

Lemma completes_print m : completes (print (R := R) m).
Proof. intros s. discriminate. Qed.

Lemma completes_load l : completes (load (R := R) l).
Proof. intros s. discriminate. Qed.

Lemma completes_setattr l g : completes (setattr (R := R) l g).
Proof. intros s. discriminate. Qed.

Lemma completes_or_raise {A} (o : option A) name :
  completes (or_raise (R := R) o name).
Proof. intros s. destruct o; discriminate. Qed.

Lemma completes_get_data req : completes (get_data (R := R) req).
Proof.
  intros s. unfold outcome_of, get_data.
  destruct (http_get R (st_remote s) req). discriminate.
Qed.

Lemma completes_int_ v : completes (TeleboxImpl.int_ (R := R) v).
Proof.
  intros s. unfold outcome_of. rewrite int_run.
  destruct (py_int v); discriminate.
Qed.

Lemma completes_subfolder_id folder_data directory folder_pid :
  completes (TeleboxImpl.subfolder_id (R := R) folder_data directory folder_pid).
Proof.
  intros s. unfold outcome_of, TeleboxImpl.subfolder_id,
    TeleboxImpl.create_folder_if_not_exists, Search.folder_exists,
    Search.search, Folder.create.
  unfold_monad. simpl. crack; discriminate.
Qed.

Variable fs : FileSystem.
Variable cfg : Config.

Lemma doit_outcome file_list len_list directory folder_pid (s : state R) :
  outcome_of (TeleboxImpl.doit fs cfg file_list len_list directory folder_pid) s
  = Ret (existsb (fun file => isdir fs (directory ++ "/" ++ file)) file_list)
  \/ exists name,
      outcome_of (TeleboxImpl.doit fs cfg file_list len_list directory folder_pid) s
      = Fail (Exception name).
Proof.
  destruct (doit_any fs cfg file_list len_list directory folder_pid s)
    as (o & s' & tr & Hrun & _ & _ & [ -> | [[name ->] _] ]);
    unfold outcome_of; rewrite Hrun; cbn [fst].
  - left. reflexivity.
  - right. exists name. reflexivity.
Qed.

Lemma completes_doit file_list len_list directory folder_pid :
  completes (TeleboxImpl.doit (R := R) fs cfg file_list len_list directory folder_pid).
Proof.
  intros s.
  destruct (doit_outcome file_list len_list directory folder_pid s)
    as [ -> | [name ->] ]; discriminate.
Qed.

Lemma completes_root_flush arguments folder_pid :
  completes (TeleboxImpl.root_flush (R := R) fs cfg arguments folder_pid).
Proof.
  unfold TeleboxImpl.root_flush.
  apply completes_bind; [ apply completes_load | ]. intros a.
  destruct (negb _); [ | apply completes_ret ].
  apply completes_bind; [ apply completes_or_raise | ]. intros file_list.
  apply completes_bind; [ apply completes_doit | ]. intros _.
  apply completes_ret.
Qed.

(** An iteration completes when the recursive call does, each time it is
    made: on the arguments object holding the child's values, and only
    after the batch has seen a directory in the subdirectory. *)
Lemma completes_main_directory self_main arguments currentDir currentName
      folder_pid folder_data directory :
  (forall file subfolder_pid (s_in : state R),
      isdir fs ((currentDir ++ "/" ++ currentName ++ "/" ++ directory)
                ++ "/" ++ file) = true ->
      st_heap s_in arguments
      = child_arguments currentDir currentName directory subfolder_pid ->
      outcome_of (self_main arguments) s_in <> Fail OutOfFuel) ->
  completes (TeleboxImpl.main_directory fs cfg self_main arguments currentDir
               currentName folder_pid folder_data directory).
Proof.
  intros Hself. unfold TeleboxImpl.main_directory.
  apply completes_bind; [ apply completes_print | ]. intros _.
  apply completes_bind; [ apply completes_subfolder_id | ]. intros subfolder_pid.
  apply completes_bind; [ apply completes_print | ]. intros _.
  apply completes_bind; [ apply completes_print | ]. intros _.
  apply completes_bind; [ apply completes_or_raise | ]. intros file_list.
  apply (completes_bind_post
           (fun ret_ => ret_ = existsb
                         (fun file => isdir fs ((currentDir ++ "/" ++ currentName
                                                 ++ "/" ++ directory)
                                                ++ "/" ++ file)) file_list));
    [ apply completes_doit | | ].
  - intros s ret_ Hret.
    destruct (doit_outcome file_list (List.length file_list)
                (currentDir ++ "/" ++ currentName ++ "/" ++ directory)
                subfolder_pid s) as [ H | [name H] ]; congruence.
  - intros ret_ Hret.
    apply completes_bind; [ | intros _; apply completes_print ].
    destruct ret_; [ | apply completes_ret ].
    symmetry in Hret. apply existsb_exists in Hret.
    destruct Hret as (file & _ & Hdir).
    intros s. unfold outcome_of. rewrite !run_setattr.
    apply (Hself file subfolder_pid); [ exact Hdir | ].
    cbn [st_heap]. unfold store, child_arguments.
    rewrite !Nat.eqb_refl. reflexivity.
Qed.
End Completes.

(** X7.  On a file system whose directory paths have at most [L]
    characters, a call of [main] with [fuel] levels of recursion allowed
    does not run out of them as soon as [fuel] is positive and exceeds [L]
    less the length of [arguments.dir]: each recursive call runs on a
    longer [dir], and recursion happens only below an existing
    directory.  In particular [L + 1] levels are enough for any call. *)
Theorem main_completes_on_bounded_paths {R : Remote} fs cfg L fuel arguments
        (s : state R) :
  directories_within fs L ->
  (1 <= fuel)%nat ->
  (L < String.length (dir (st_heap s arguments)) + fuel)%nat ->
  outcome_of (TeleboxImpl.main fs cfg fuel arguments) s <> Fail OutOfFuel.
Proof.
  intros Hfs. revert arguments s.
  induction fuel as [ | fuel IH ]; intros arguments s Hpos Hfuel; [ lia | ].
  unfold outcome_of. cbn [TeleboxImpl.main]. rewrite run_load.
  remember (st_heap s arguments) as a eqn:Ha. clear Ha.
  match goal with
  | |- fst (fst (?k s)) <> _ => change (outcome_of k s <> Fail OutOfFuel)
  end.
  revert s.
  match goal with
  | |- forall s, outcome_of ?k s <> _ => change (completes k)
  end.
  apply completes_bind; [ apply completes_int_ | ]. intros folder_pid.
  apply completes_bind; [ apply completes_get_data | ]. intros lot.
  apply completes_bind; [ apply completes_load | ]. intros a0.
  apply completes_bind; [ apply completes_print | ]. intros _.
  apply completes_bind; [ apply completes_root_flush | ]. intros _.
  apply completes_bind; [ apply completes_load | ]. intros a1.
  apply completes_bind; [ apply completes_or_raise | ]. intros entries.
  apply completes_for_each. intros directory.
  apply completes_main_directory.
  intros file subfolder_pid s_in Hdir Hin.
  apply Hfs in Hdir. rewrite !length_append in Hdir.
  cbn [String.length] in Hdir.
  apply IH; rewrite ?Hin; cbn [dir child_arguments];
    rewrite ?length_append; cbn [String.length]; lia.
Qed.

Lemma main_completes_on_bounded_paths_witness :
  outcome_of (TeleboxImpl.main (R := listing_service) deep_fs two_workers 18 0%nat)
             (initial listing_service
                      {| dir := "root"; foldername := "target";
                         basefolder := PyInt 7 |} ([], 1000%Z) [])
  <> Fail OutOfFuel.
Proof.
  apply (main_completes_on_bounded_paths (R := listing_service)
           deep_fs two_workers 17 18 0%nat).
  - intros p. unfold deep_fs, fs_of, isdir. cbn [lookup_dir].
    repeat match goal with
           | |- context [String.eqb ?d p] =>
               destruct (String.eqb_spec d p) as [ <- | _ ];
               [ intros _; vm_compute; lia | ]
           end.
    discriminate.
  - lia.
  - cbn. lia.
Defined.

(* ================================================================== *)
(** ** Where the transferred files lie *)

Lemma chains_only_transfers_under fs root : chains (only_transfers_under fs root).
Proof.
  split; [ intros f; constructor | ].
  intros t1 t2 f H1 H2. apply Forall_app. split; assumption.
Qed.

Lemma transfers_under_deeper fs root name e :
  transfers_under fs (root ++ "/" ++ name) e -> transfers_under fs root e.
Proof.
  destruct e as [ | url path | | | ]; cbn [transfers_under]; auto.
  intros [Hext Hfile]. split; [ | exact Hfile ].
  eapply extends_trans; [ | exact Hext ].
  exists (name ++ "/")%string. rewrite !append_assoc. reflexivity.
Qed.

Section Transfers.
Context {R : Remote}.
Variable fs : FileSystem.
Variable cfg : Config.

(** A batch transfers regular files of its directory. *)
Lemma doit_transfers file_list len_list directory folder_pid :
  sat (only_transfers_under fs directory)
      (TeleboxImpl.doit (R := R) fs cfg file_list len_list directory folder_pid).
Proof.
  intros s. unfold only_transfers_under.
  destruct (listed_files fs len_list directory folder_pid file_list 0)
    as (Hfiles & Htasks).
  eapply Forall_impl;
    [ | apply (doit_events fs cfg file_list len_list directory folder_pid s) ].
  intros e He.
  destruct e as [ | url path | | | ]; cbn [transfers_under]; auto.
  destruct (He eq_refl) as (t & Hin & Hpath'). cbn [task_event] in Hpath'.
  assert (Hfile : isfile fs (directory ++ "/" ++ t_file t) = true).
  { apply (in_map t_file) in Hin. rewrite Hfiles in Hin.
    apply filter_In in Hin. apply Hin. }
  rewrite Forall_forall in Htasks. destruct (Htasks t Hin) as (Ht & _).
  assert (Hpath : Executor.task_path t = (directory ++ "/" ++ t_file t)%string).
  { rewrite Ht. reflexivity. }
  subst path. rewrite Hpath.
  split; [ | exact Hfile ].
  exists (t_file t). rewrite append_assoc. reflexivity.
Qed.

Lemma subfolder_id_transfers root folder_data directory folder_pid :
  sat (only_transfers_under fs root)
      (TeleboxImpl.subfolder_id (R := R) folder_data directory folder_pid).
Proof.
  intros s. unfold only_transfers_under, outcome_of, trace_of,
    TeleboxImpl.subfolder_id, TeleboxImpl.create_folder_if_not_exists,
    Search.folder_exists, Search.search, Folder.create.
  unfold_monad. simpl. crack; repeat constructor.
Qed.

(** The loop body, run for a call that mirrors [currentDir]: its batch
    lies under [currentDir/currentName/directory], and the recursive call
    starts from [currentDir/currentName]. *)
Lemma main_directory_transfers self_main arguments currentDir currentName
      folder_pid folder_data directory :
  (forall s : state R,
      Forall (transfers_under fs (dir (st_heap s arguments)))
             (trace_of (self_main arguments) s)) ->
  sat (only_transfers_under fs currentDir)
      (TeleboxImpl.main_directory (R := R) fs cfg self_main arguments currentDir
         currentName folder_pid folder_data directory).
Proof.
  intros Hself.
  pose proof (chains_only_transfers_under fs currentDir) as HQ.
  assert (Hprint : forall m, sat (only_transfers_under fs currentDir)
                                 (print (R := R) m)).
  { intros m. apply sat_emit. repeat constructor. }
  unfold TeleboxImpl.main_directory.
  apply sat_bind; [ exact HQ | apply Hprint | ]. intros _.
  apply sat_bind; [ exact HQ | apply subfolder_id_transfers | ].
  intros subfolder_pid.
  apply sat_bind; [ exact HQ | apply Hprint | ]. intros _.
  apply sat_bind; [ exact HQ | apply Hprint | ]. intros _.
  apply sat_bind; [ exact HQ | apply sat_or_raise, HQ | ]. intros file_list.
  apply sat_bind; [ exact HQ | | ].
  { intros s. unfold only_transfers_under.
    eapply Forall_impl;
      [ | apply (doit_transfers file_list (List.length file_list)
                   (currentDir ++ "/" ++ currentName ++ "/" ++ directory)
                   subfolder_pid s) ].
    intros e He. apply (transfers_under_deeper fs currentDir
                          (currentName ++ "/" ++ directory)). exact He. }
  intros ret_.
  apply sat_bind; [ exact HQ | | intros _; apply Hprint ].
  destruct ret_; [ | apply sat_silent; [ exact HQ | reflexivity ] ].
  intros s. unfold only_transfers_under, trace_of. rewrite !run_setattr.
  match goal with
  | |- Forall _ (snd (self_main arguments ?s_in)) =>
      pose proof (Hself s_in) as Hin;
      assert (Hdir : dir (st_heap s_in arguments)
                     = (currentDir ++ "/" ++ currentName)%string)
        by (cbn [st_heap]; unfold store; rewrite !Nat.eqb_refl; reflexivity)
  end.
  rewrite Hdir in Hin.
  eapply Forall_impl; [ | exact Hin ].
  intros e He. apply (transfers_under_deeper fs currentDir currentName). exact He.
Qed.

Lemma root_flush_transfers arguments folder_pid (s : state R) :
  Forall (transfers_under fs (dir (st_heap s arguments)))
         (trace_of (TeleboxImpl.root_flush fs cfg arguments folder_pid) s).
Proof.
  unfold trace_of, TeleboxImpl.root_flush. rewrite run_load.
  destruct (negb _); [ | constructor ].
  destruct (listdir fs (dir (st_heap s arguments))) as [ file_list | ];
    [ rewrite run_value | constructor ].
  rewrite run_bind.
  pose proof (doit_transfers file_list (List.length file_list)
                (dir (st_heap s arguments)) folder_pid s) as Hdoit.
  unfold only_transfers_under, trace_of in Hdoit.
  destruct (TeleboxImpl.doit _ _ _ _ _ _ s) as [[[ret_ | e] s1] t1];
    cbn [snd] in *; [ | exact Hdoit ].
  cbn. rewrite app_nil_r. exact Hdoit.
Qed.

Lemma main_transfers fuel : forall arguments (s : state R),
  Forall (transfers_under fs (dir (st_heap s arguments)))
         (trace_of (TeleboxImpl.main fs cfg fuel arguments) s).
Proof.
  induction fuel as [ | fuel IH ]; intros arguments s; [ constructor | ].
  set (root := dir (st_heap s arguments)).
  pose proof (chains_only_transfers_under fs root) as HQ.
  unfold trace_of. cbn [TeleboxImpl.main]. rewrite run_load.
  rewrite run_bind, int_run.
  destruct (py_int _) as [ folder_pid | ]; [ | constructor ].
  unfold outcome_of, state_after, trace_of. cbn [app fst snd].
  unfold Search.search. rewrite run_get. cbn [snd].
  constructor; [ exact I | ].
  set (s1 := Build_state (st_heap s) _ (st_sched s)).
  unfold trace_of. rewrite run_load, run_print. cbn [snd].
  constructor; [ exact I | ].
  unfold trace_of. rewrite run_bind.
  pose proof (root_flush_transfers arguments folder_pid s1) as Hflush.
  pose proof (keeps_heap_root_flush fs cfg arguments folder_pid s1) as Hheap.
  unfold trace_of in Hflush. unfold state_after in Hheap.
  destruct (TeleboxImpl.root_flush fs cfg arguments folder_pid s1)
    as [[[u | e] s2] flush]; cbn [fst snd] in *; [ | exact Hflush ].
  apply Forall_app. split; [ exact Hflush | ].
  unfold trace_of. rewrite run_load. rewrite Hheap. cbn [st_heap s1].
  destruct (listdir fs _) as [ entries | ]; [ rewrite run_value | constructor ].
  apply (sat_for_each (only_transfers_under fs root)); [ exact HQ | ].
  intros directory. apply main_directory_transfers. apply IH.
Qed.
End Transfers.

(** X8.  Whatever the service answers and however the threads are
    scheduled, every file a run of [main] transfers is a regular file whose
    path continues [arguments.dir/], the directory the run was started
    with. *)
Theorem main_transfers_files_of_its_tree {R : Remote} fs cfg fuel arguments
        (s : state R) url path :
  In (EvPut url path) (trace_of (TeleboxImpl.main fs cfg fuel arguments) s) ->
  extends (dir (st_heap s arguments) ++ "/") path /\ isfile fs path = true.
Proof.
  intros Hin.
  pose proof (main_transfers fs cfg fuel arguments s) as Hall.
  rewrite Forall_forall in Hall. exact (Hall _ Hin).
Qed.

Lemma main_transfers_files_of_its_tree_witness :
  extends "root/" "root/target/a/f1" /\ isfile tree_fs "root/target/a/f1" = true.
Proof.
  apply (main_transfers_files_of_its_tree (R := listing_service) tree_fs
           two_workers 3 0%nat
           demo_state "https://upload" "root/target/a/f1").
  vm_compute. repeat (first [ left; reflexivity | right ]).
Defined.

(* ================================================================== *)
(** ** The worker limit *)

Lemma sat_search {R : Remote} Q filename folder_id :
  (forall resp, Q None [EvGet (SearchFile folder_id filename 1 50) resp]) ->
  sat Q (Search.search (R := R) filename folder_id).
Proof.
  intros Hsearch s. unfold outcome_of, trace_of, Search.search, get_data.
  destruct (http_get R (st_remote s) _) as [r' resp]. apply Hsearch.
Qed.

Lemma begun_app t1 t2 : begun (t1 ++ t2) = begun t1 ++ begun t2.
Proof. apply flat_map_app. Qed.

Lemma within_grow n a tr :
  (a + List.length (begun tr) <= n)%nat -> within_limit n a tr.
Proof.
  intros Hle pre post ->. rewrite begun_app, length_app in Hle. lia.
Qed.

Lemma within_app n a a' t1 t2 :
  within_limit n a t1 ->
  (a + List.length (begun t1) = a' + List.length (completed t1))%nat ->
  within_limit n a' t2 ->
  within_limit n a (t1 ++ t2).
Proof.
  intros H1 Heq H2 pre post Hsplit.
  apply app_eq_app in Hsplit.
  destruct Hsplit as (l & [ [-> ->] | [-> ->] ]).
  - apply (H1 pre l). reflexivity.
  - specialize (H2 l post eq_refl).
    rewrite begun_app, completed_app, !length_app. lia.
Qed.

Lemma active_app l1 l2 : active (l1 ++ l2) = (active l1 + active l2)%nat.
Proof.
  induction l1 as [ | th l1 IH ]; simpl; [ reflexivity | ].
  rewrite IH. lia.
Qed.

Lemma active_le l : (active l <= List.length l)%nat.
Proof.
  induction l as [ | [t ph] l IH ]; simpl; [ lia | ].
  destruct ph; simpl; lia.
Qed.

Lemma chains_limit_kept n : chains (limit_kept n).
Proof.
  split.
  - intros f. split; [ apply within_grow; simpl; lia | reflexivity ].
  - intros t1 t2 f [H1 Hend1] [H2 Hend2]. specialize (Hend1 eq_refl). split.
    + apply (within_app n 0 0 t1 t2 H1); [ lia | exact H2 ].
    + intros Hf. rewrite begun_app, completed_app, !length_app.
      rewrite (Hend2 Hf). lia.
Qed.

Section Limit.
Context {R : Remote}.
Variable fs : FileSystem.

Lemma worker_step_flight t ph (s : state R) :
  exists r s' tw,
    Executor.worker_step fs t ph s = (Ret r, s', tw) /\
    completed tw = [] /\
    (List.length (begun tw) + printed ph = 1)%nat /\
    match r with
    | inl ph' => printed ph' = 1%nat
    | inr _ => True
    end.
Proof.
  destruct ph; unfold Executor.worker_step; unfold_monad; simpl;
    repeat ask_env;
    eexists _, _, _; (split; [ reflexivity | ]); simpl; auto.
Qed.

(** A scheduling decision keeps the threads within the limit, and the
    uploads under way are those that were, those begun added, those ended
    taken off. *)
Lemma pool_step_flight n p (s : state R) :
  (List.length (Executor.running p) <= n)%nat ->
  exists p' s' t1,
    Executor.pool_step fs n p s = (Ret p', s', t1) /\
    within_limit n (active (Executor.running p)) t1 /\
    (active (Executor.running p) + List.length (begun t1)
     = active (Executor.running p') + List.length (completed t1))%nat /\
    (List.length (Executor.running p') <= n)%nat.
Proof.
  intros Hbound. unfold Executor.pool_step. rewrite run_bind.
  destruct (next_choice_run s) as (c & s1 & -> & _ & _).
  unfold outcome_of, state_after, trace_of.
  pose proof (active_le (Executor.running p)) as Hactive.
  set (k := Nat.modulo c _).
  assert (Hsplit : Executor.running p
                   = firstn k (Executor.running p) ++ skipn k (Executor.running p))
    by (symmetry; apply firstn_skipn).
  destruct (skipn k (Executor.running p)) as [ | [t ph] later ] eqn:Hskip.
  - destruct (Executor.queue p) as [ | t waiting ] eqn:Hq.
    + eexists _, _, _. split; [ reflexivity | ]. simpl.
      split; [ apply within_grow; simpl; lia | ]. split; [ lia | exact Hbound ].
    + destruct (Executor.can_start n p) eqn:Hstart.
      * eexists _, _, _. split; [ reflexivity | ]. simpl.
        split; [ apply within_grow; simpl; lia | ].
        rewrite active_app, length_app. simpl.
        unfold Executor.can_start in Hstart. rewrite Hq in Hstart.
        apply Nat.ltb_lt in Hstart. lia.
      * eexists _, _, _. split; [ reflexivity | ]. simpl.
        split; [ apply within_grow; simpl; lia | ]. split; [ lia | exact Hbound ].
  - rewrite run_bind.
    destruct (worker_step_flight t ph s1)
      as (r & s2 & tw & -> & Hdone & Hbegun & Hnext).
    unfold outcome_of, state_after, trace_of.
    set (before := firstn k (Executor.running p)) in *.
    clearbody before. clear Hskip. clearbody k.
    pose proof (active_le before) as Hfirst.
    pose proof (active_le later) as Hlater.
    rewrite Hsplit in Hbound, Hactive.
    rewrite active_app in Hactive. rewrite length_app in Hbound, Hactive.
    cbn [active fold_right snd List.length] in Hbound, Hactive.
    fold (active later) in Hactive.
    destruct r as [ph' | result].
    + eexists _, _, _. split; [ reflexivity | ].
      unfold ret. cbn [fst snd app Executor.running]. rewrite app_nil_r, Hdone, Hsplit.
      rewrite !active_app, length_app.
      cbn [active fold_right snd List.length]. fold (active later).
      split; [ apply within_grow; lia | ]. split; lia.
    + rewrite run_bind. unfold emit, ret, outcome_of, state_after, trace_of.
      cbn [fst snd].
      eexists _, _, _. split; [ reflexivity | ].
      cbn [fst snd app Executor.running]. rewrite Hsplit.
      rewrite begun_app, completed_app, Hdone, !length_app.
      rewrite !active_app.
      cbn [begun completed flat_map app List.length active fold_right snd].
      fold (active later).
      split; [ | split; lia ].
      apply (within_app n _ (active before + (1 + active later))).
      * apply within_grow. lia.
      * rewrite Hdone. simpl. lia.
      * apply within_grow. simpl. lia.
Qed.

Lemma in_flight_sched n sub tr p (s s' : state R) :
  st_heap s' = st_heap s -> st_remote s' = st_remote s ->
  in_flight n sub tr p s -> in_flight n sub tr p s'.
Proof. intros _ _ H. exact H. Qed.

Lemma in_flight_submit n sub tr p (s : state R) t :
  in_flight n sub tr p s ->
  in_flight n (sub ++ [t]) (tr ++ [EvSubmit t])
            {| Executor.queue := Executor.queue p ++ [t];
               Executor.running := Executor.running p |} s.
Proof.
  intros (Hin & Hcount & Hbound). unfold in_flight.
  cbn [Executor.running].
  pose proof (active_le (Executor.running p)) as Hactive.
  rewrite begun_app, completed_app, !length_app. cbn.
  split; [ | split; [ lia | exact Hbound ] ].
  apply (within_app n 0 (active (Executor.running p))); [ exact Hin | lia | ].
  apply within_grow. cbn. lia.
Qed.

Lemma in_flight_step n sub tr p (s : state R) p' s' t1 :
  in_flight n sub tr p s ->
  Executor.pool_step fs n p s = (Ret p', s', t1) ->
  in_flight n sub (tr ++ t1) p' s'.
Proof.
  intros (Hin & Hcount & Hbound) Hstep.
  destruct (pool_step_flight n p s Hbound)
    as (p1 & s1 & t & Hrun & Hin1 & Hcount1 & Hbound1).
  rewrite Hstep in Hrun. inversion Hrun; subst p1 s1 t. clear Hrun.
  unfold in_flight. rewrite begun_app, completed_app, !length_app.
  split; [ | split; [ lia | exact Hbound1 ] ].
  apply (within_app n 0 (active (Executor.running p))); [ exact Hin | lia | ].
  exact Hin1.
Qed.

Lemma doit_limit_kept cfg file_list len_list directory folder_pid n :
  py_int (USR_LIMIT_CONCURRENT cfg) = Some n ->
  sat (limit_kept (Z.to_nat n))
      (TeleboxImpl.doit (R := R) fs cfg file_list len_list directory folder_pid).
Proof.
  intros Hcfg s.
  destruct (doit_cases fs cfg file_list len_list directory folder_pid s)
    as [ (z & Hz & Hpos) | (name & _ & Hrun) ].
  - assert (z = n) by congruence. subst z.
    destruct (doit_acc fs (Z.to_nat n) (in_flight (Z.to_nat n))
                (in_flight_sched (Z.to_nat n)) (in_flight_submit (Z.to_nat n))
                (in_flight_step (Z.to_nat n)) cfg n Hcfg Hpos eq_refl
                file_list len_list directory folder_pid s)
      as (p' & s' & b & Hrun & _ & _ & Hr & Hin & Hcount & _).
    { split; [ apply within_grow; cbn; lia | ]. split; [ reflexivity | cbn; lia ]. }
    unfold outcome_of, trace_of. rewrite Hrun. cbn [fst snd].
    split; [ exact Hin | ]. intros _. rewrite Hcount, Hr. cbn. lia.
  - unfold outcome_of, trace_of. rewrite Hrun. cbn [fst snd].
    apply (chains_limit_kept (Z.to_nat n)).
Qed.
End Limit.

(** X9.  With a worker limit [n] in the configuration, at no point of a
    run of [main], whatever the service and the scheduler, are more than
    [n] uploads begun (their line printed) and not ended. *)
Theorem uploads_under_way_within_the_limit {R : Remote} fs cfg fuel arguments
        (s : state R) n pre post :
  py_int (USR_LIMIT_CONCURRENT cfg) = Some n ->
  trace_of (TeleboxImpl.main fs cfg fuel arguments) s = pre ++ post ->
  (List.length (begun pre) <= List.length (completed pre) + Z.to_nat n)%nat.
Proof.
  intros Hcfg Hsplit.
  assert (Hquiet : forall e, begun [e] = [] -> completed [e] = [] ->
                             limit_kept (Z.to_nat n) None [e]).
  { intros e Hb Hc. split; [ apply within_grow; rewrite Hb; simpl; lia | ].
    intros _. rewrite Hb, Hc. reflexivity. }
  assert (Hmain : sat (limit_kept (Z.to_nat n))
                      (TeleboxImpl.main (R := R) fs cfg fuel arguments)).
  { apply main_sat_with.
    - apply chains_limit_kept.
    - intros name pid. apply sat_search. intros resp.
      apply Hquiet; reflexivity.
    - intros m Hm. apply Hquiet; [ | reflexivity ].
      destruct m; try reflexivity. exfalso. eapply Hm. reflexivity.
    - intros file_list len_list directory folder_pid.
      apply doit_limit_kept, Hcfg.
    - intros folder_data directory folder_pid s0.
      unfold outcome_of, trace_of, TeleboxImpl.subfolder_id,
        TeleboxImpl.create_folder_if_not_exists, Search.folder_exists,
        Search.search, Folder.create.
      unfold_monad. simpl.
      crack; (split; [ apply within_grow; simpl; lia | intros _; reflexivity ]). }
  destruct (Hmain s) as [Hin _].
  apply (Hin pre post Hsplit).
Qed.

Lemma uploads_under_way_within_the_limit_witness :
  (List.length (begun (firstn 14 (snd demo_run)))
   <= List.length (completed (firstn 14 (snd demo_run))) + Z.to_nat 2)%nat.
Proof.
  apply (uploads_under_way_within_the_limit (R := listing_service) tree_fs
           two_workers 3 0%nat demo_state
           2 (firstn 14 (snd demo_run)) (skipn 14 (snd demo_run))).
  - reflexivity.
  - vm_compute. reflexivity.
Defined.

(* ================================================================== *)
(** ** How a run can end *)

Section Ends.
Context {R : Remote}.
Variable P : failure -> Prop.

Lemma ends_bind {A B} (m : M R A) (f : A -> M R B) :
  ends_within P m -> (forall a, ends_within P (f a)) -> ends_within P (bind m f).
Proof.
  intros Hm Hf s e. rewrite outcome_bind.
  specialize (Hm s).
  destruct (outcome_of m s) as [ a | e' ].
  - apply Hf.
  - intros He. apply Hm. inversion He. reflexivity.
Qed.

Lemma ends_for_each {A} (l : list A) (body : A -> M R unit) :
  (forall x, ends_within P (body x)) -> ends_within P (for_each l body).
Proof.
  intros Hbody. induction l as [ | x rest IH ]; simpl.
  - intros s e. discriminate.
  - apply ends_bind; [ apply Hbody | intros _; exact IH ].
Qed.

Lemma ends_returning {A} (m : M R A) :
  (forall s, exists a, outcome_of m s = Ret a) -> ends_within P m.
Proof. intros Hm s e He. destruct (Hm s) as [a Ha]. congruence. Qed.

Lemma ends_print m : ends_within P (print (R := R) m).
Proof. apply ends_returning. intros s. eexists. reflexivity. Qed.

Lemma ends_load l : ends_within P (load (R := R) l).
Proof. apply ends_returning. intros s. eexists. reflexivity. Qed.

Lemma ends_setattr l g : ends_within P (setattr (R := R) l g).
Proof. apply ends_returning. intros s. eexists. reflexivity. Qed.

Lemma ends_ret {A} (a : A) : ends_within P (ret (R := R) a).
Proof. apply ends_returning. intros s. eexists. reflexivity. Qed.

Lemma ends_get_data req : ends_within P (get_data (R := R) req).
Proof.
  apply ends_returning. intros s. unfold outcome_of, get_data.
  destruct (http_get R (st_remote s) req). eexists. reflexivity.
Qed.
End Ends.

Section DriverEnds.
Context {R : Remote}.
Variable fs : FileSystem.
Variable cfg : Config.

Lemma ends_or_raise {A} (o : option A) :
  ends_within driver_failure (or_raise (R := R) o "OSError").
Proof.
  intros s e. destruct o; cbn; [ discriminate | ].
  intros He. inversion He. cbn. auto.
Qed.

Lemma ends_int_ v : ends_within driver_failure (TeleboxImpl.int_ (R := R) v).
Proof.
  intros s e. unfold outcome_of. rewrite int_run.
  destruct (py_int v); cbn; [ discriminate | ].
  intros He. inversion He. destruct v; cbn; auto.
Qed.

(** Whatever its uploads do, a batch fails only where the pool is made. *)
Lemma ends_doit file_list len_list directory folder_pid :
  ends_within driver_failure
    (TeleboxImpl.doit (R := R) fs cfg file_list len_list directory folder_pid).
Proof.
  intros s e.
  destruct (doit_cases fs cfg file_list len_list directory folder_pid s)
    as [ (z & Hcfg & Hz) | (name & Hname & Hrun) ].
  - destruct (doit_spec fs cfg file_list len_list directory folder_pid z s Hcfg Hz)
      as (s' & b & Hrun & _).
    unfold outcome_of. rewrite Hrun. discriminate.
  - unfold outcome_of. rewrite Hrun. cbn. intros He. inversion He. cbn.
    destruct Hname; auto.
Qed.

Lemma ends_subfolder_id folder_data directory folder_pid :
  ends_within driver_failure
    (TeleboxImpl.subfolder_id (R := R) folder_data directory folder_pid).
Proof.
  intros s e. unfold outcome_of, TeleboxImpl.subfolder_id,
    TeleboxImpl.create_folder_if_not_exists, Search.folder_exists,
    Search.search, Folder.create.
  unfold_monad. simpl.
  crack; intros He; inversion He; cbn; auto.
Qed.

Lemma ends_main fuel : forall arguments,
  ends_within driver_failure (TeleboxImpl.main (R := R) fs cfg fuel arguments).
Proof.
  induction fuel as [ | fuel IH ]; intros arguments; cbn [TeleboxImpl.main].
  - intros s e He. inversion He. exact I.
  - apply ends_bind; [ apply ends_load | ]. intros a.
    apply ends_bind; [ apply ends_int_ | ]. intros folder_pid.
    apply ends_bind; [ apply ends_get_data | ]. intros lot.
    apply ends_bind; [ apply ends_load | ]. intros a0.
    apply ends_bind; [ apply ends_print | ]. intros _.
    apply ends_bind; [ | intros _ ].
    { unfold TeleboxImpl.root_flush.
      apply ends_bind; [ apply ends_load | ]. intros a1.
      destruct (negb _); [ | apply ends_ret ].
      apply ends_bind; [ apply ends_or_raise | ]. intros file_list.
      apply ends_bind; [ apply ends_doit | ]. intros _. apply ends_ret. }
    apply ends_bind; [ apply ends_load | ]. intros a1.
    apply ends_bind; [ apply ends_or_raise | ]. intros entries.
    apply ends_for_each. intros directory.
    unfold TeleboxImpl.main_directory.
    apply ends_bind; [ apply ends_print | ]. intros _.
    apply ends_bind; [ apply ends_subfolder_id | ]. intros subfolder_pid.
    apply ends_bind; [ apply ends_print | ]. intros _.
    apply ends_bind; [ apply ends_print | ]. intros _.
    apply ends_bind; [ apply ends_or_raise | ]. intros file_list.
    apply ends_bind; [ apply ends_doit | ]. intros ret_.
    apply ends_bind; [ | intros _; apply ends_print ].
    destruct ret_; [ | apply ends_ret ].
    repeat (apply ends_bind; [ apply ends_setattr | intros _ ]).
    apply IH.
Qed.
End DriverEnds.

(** X10.  A run of [main] that does not return ends with an exception of
    [int], of the pool's constructor or of the file system, or with one of
    the two exits of the folder resolution (the recursion bound of the
    model apart).  It never ends with an exit of [upload_file]: whatever
    happens to an upload stays in its future, and the run goes on. *)
Theorem failed_uploads_never_end_the_run {R : Remote} fs cfg fuel arguments
        (s : state R) e :
  outcome_of (TeleboxImpl.main fs cfg fuel arguments) s = Fail e ->
  driver_failure e /\
  e <> SystemExit "Prepare: Execution stopped. Cannot upload files" /\
  e <> SystemExit "Finish Upload: Execution stopped. Cannot upload files".
Proof.
  intros He. pose proof (ends_main fs cfg fuel arguments s e He) as Hend.
  split; [ exact Hend | ].
  split; intros ->; cbn in Hend; destruct Hend; discriminate.
Qed.

Lemma failed_uploads_never_end_the_run_witness :
  driver_failure (SystemExit "Execution stopped. Cannot create folders").
Proof.
  apply (failed_uploads_never_end_the_run
           (R := constant_service (answer 0 None 0 "" 0))
           tree_fs two_workers 3 0%nat
           (initial (constant_service (answer 0 None 0 "" 0))
                    {| dir := "root"; foldername := "target";
                       basefolder := PyInt 7 |} tt [])).
  vm_compute. reflexivity.
Defined.

(* ================================================================== *)
(** ** What the recursive call flushes *)

Section Reflush.
Context {R : Remote}.
Variable fs : FileSystem.
Variable cfg : Config.
Variable n : Z.
Hypothesis Hcfg : py_int (USR_LIMIT_CONCURRENT cfg) = Some n.
Hypothesis Hn : (0 < n)%Z.

Lemma in_after_trace {A} (e : event) t1 (r : outcome A * state R * list event) :
  In e (snd r) -> In e (snd (after_trace t1 r)).
Proof.
  destruct r as [[o s] t]. cbn. intros Hin. apply in_or_app. right. exact Hin.
Qed.

Lemma in_bind_first {A B} (e : event) (m : M R A) (f : A -> M R B) s :
  In e (snd (m s)) -> In e (snd (bind m f s)).
Proof.
  rewrite run_bind. destruct (m s) as [[[a | x] s1] t1]; cbn; [ | auto ].
  intros Hin. apply in_or_app. left. exact Hin.
Qed.

(** A call of [main] submits the files of [arguments.dir] for the folder
    it was given, and they end, unless the folder name is ["upload"]. *)
Lemma main_flush_submits fuel arguments (s : state R) folder_pid files i file :
  py_int (py_or (basefolder (st_heap s arguments)) (TELEBOX_BASEFOLDER cfg))
  = Some folder_pid ->
  listdir fs (dir (st_heap s arguments)) = Some files ->
  foldername (st_heap s arguments) <> "upload" ->
  nth_error files i = Some file ->
  isfile fs (dir (st_heap s arguments) ++ "/" ++ file) = true ->
  let t := {| t_i := i; t_total := List.length files;
              t_directory := dir (st_heap s arguments); t_file := file;
              t_pid := folder_pid |} in
  In (EvSubmit t) (trace_of (TeleboxImpl.main fs cfg (S fuel) arguments) s) /\
  exists result,
    In (EvDone t result) (trace_of (TeleboxImpl.main fs cfg (S fuel) arguments) s).
Proof.
  intros Hbase Hfiles Hname Hnth Hfile t.
  unfold trace_of. cbn [TeleboxImpl.main].
  rewrite run_load. rewrite (run_int _ _ _ _ Hbase).
  unfold Search.search. rewrite get_then.
  set (s1 := Build_state (st_heap s) _ (st_sched s)).
  rewrite run_load. cbn [st_heap s1]. rewrite print_then.
  destruct (root_flush_run fs cfg arguments folder_pid n files s1 Hcfg Hn Hfiles)
    as (s2 & flush & Hrun & Hheap & Hflush).
  rewrite (bind_returns _ _ _ _ _ _ Hrun).
  cbn [st_heap s1] in Hflush.
  apply String.eqb_neq in Hname. rewrite Hname in Hflush.
  destruct Hflush as (_ & _ & _ & Hup).
  rewrite Forall_forall in Hup.
  pose proof (Hup _ (listed_in fs (List.length files)
                       (dir (st_heap s arguments)) folder_pid files 0 i file
                       Hnth Hfile)) as (lot & lotf & Horder).
  cbn [Nat.add] in Horder. unfold task_of in Horder. fold t in Horder.
  assert (Hhere : forall e A (r : outcome A * state R * list event),
             In e flush ->
             In e (snd (after_trace
                          [EvGet (SearchFile folder_pid "" 1 50)
                                 (snd (http_get R (st_remote s)
                                         (SearchFile folder_pid "" 1 50)))]
                          (after_trace
                             [EvPrint (MsgMainFolder
                                         (foldername (st_heap s arguments))
                                         folder_pid)]
                             (after_trace flush r))))).
  { intros e A r He. do 2 apply in_after_trace.
    destruct r as [[o s'] t']. cbn [after_trace snd].
    apply in_or_app. left. exact He. }
  split.
  - apply Hhere. apply (in_order_in _ _ _ Horder). left. reflexivity.
  - eexists. apply Hhere. apply (in_order_in _ _ _ Horder).
    right. apply in_or_app. right. left. reflexivity.
Qed.
End Reflush.

(** X11.  When the subdirectory [directory] of [currentDir/currentName]
    holds a directory, the iteration for it recurses, and the recursive
    call starts from [dir = currentDir/currentName]: the regular files
    lying directly in [currentDir/currentName], beside [directory], are
    submitted for the remote folder of [directory] and their uploads end
    (unless [directory] is named ["upload"]). *)
Theorem recursion_sends_the_parent_files_to_the_child {R : Remote} fs cfg fuel
        arguments currentDir currentName folder_pid folder_data directory
        (s s1 : state R) n subfolder_pid resolution file_list files i file :
  py_int (USR_LIMIT_CONCURRENT cfg) = Some n ->
  (0 < n)%Z ->
  TeleboxImpl.subfolder_id folder_data directory folder_pid s
  = (Ret subfolder_pid, s1, resolution) ->
  subfolder_pid <> 0%Z ->
  listdir fs (currentDir ++ "/" ++ currentName ++ "/" ++ directory)
  = Some file_list ->
  existsb (fun entry => isdir fs ((currentDir ++ "/" ++ currentName ++ "/"
                                   ++ directory) ++ "/" ++ entry)) file_list
  = true ->
  directory <> "upload" ->
  listdir fs (currentDir ++ "/" ++ currentName) = Some files ->
  nth_error files i = Some file ->
  isfile fs ((currentDir ++ "/" ++ currentName) ++ "/" ++ file) = true ->
  let step := TeleboxImpl.main_directory fs cfg
                (TeleboxImpl.main fs cfg (S fuel)) arguments currentDir
                currentName folder_pid folder_data directory in
  let t := {| t_i := i; t_total := List.length files;
              t_directory := currentDir ++ "/" ++ currentName; t_file := file;
              t_pid := subfolder_pid |} in
  In (EvSubmit t) (trace_of step s) /\
  exists result, In (EvDone t result) (trace_of step s).
Proof.
  intros Hcfg Hn Hres Hpid Hlist Hdir Hname Hfiles Hnth Hfile step t.
  subst step. unfold trace_of, TeleboxImpl.main_directory.
  rewrite print_then, (bind_returns _ _ _ _ _ _ Hres). cbv beta.
  rewrite !print_then, Hlist, run_value.
  destruct (doit_spec fs cfg file_list (List.length file_list)
              (currentDir ++ "/" ++ currentName ++ "/" ++ directory)
              subfolder_pid n s1 Hcfg Hn) as (s2 & b & Hbatch & _).
  rewrite (bind_returns _ _ _ _ _ _ Hbatch). cbv beta.
  rewrite Hdir. cbv iota.
  match goal with
  | |- In _ ?tr /\ _ =>
      assert (Hrec : exists s_in : state R,
                 st_heap s_in arguments
                 = child_arguments currentDir currentName directory subfolder_pid /\
                 forall e,
                   In e (trace_of (TeleboxImpl.main fs cfg (S fuel) arguments) s_in) ->
                   In e tr)
  end.
  { eexists. split; cycle 1.
    - intros e He. do 5 apply in_after_trace. apply in_bind_first.
      rewrite !run_setattr. exact He.
    - cbn [st_heap]. unfold store. rewrite !Nat.eqb_refl. reflexivity. }
  destruct Hrec as (s_in & Hin & Hrec).
  destruct (main_flush_submits fs cfg n Hcfg Hn fuel arguments s_in subfolder_pid
              files i file) as [Hsub (result & Hend)];
    rewrite ?Hin; cbn [child_arguments dir foldername basefolder];
    try assumption.
  { unfold py_or. cbn [truthy].
    apply Z.eqb_neq in Hpid. rewrite Hpid. reflexivity. }
  rewrite Hin in Hsub, Hend. cbn [child_arguments dir] in Hsub, Hend.
  split; [ apply Hrec, Hsub | exists result; apply Hrec, Hend ].
Qed.

Lemma recursion_sends_the_parent_files_to_the_child_witness :
  let step := TeleboxImpl.main_directory (R := listing_service) nested_fs
                two_workers (TeleboxImpl.main nested_fs two_workers 2) 0%nat
                "root" "target" 7 (Entries []) "a" in
  let s := initial listing_service
                   {| dir := "root"; foldername := "target";
                      basefolder := PyInt 7 |} ([], 1000%Z) [] in
  let t := {| t_i := 1; t_total := 2; t_directory := "root/target";
              t_file := "b"; t_pid := 1000 |} in
  In (EvSubmit t) (trace_of step s) /\
  exists result, In (EvDone t result) (trace_of step s).
Proof.
  refine (recursion_sends_the_parent_files_to_the_child (R := listing_service)
            nested_fs two_workers 1 0%nat "root" "target" 7 (Entries []) "a"
            (initial listing_service
                     {| dir := "root"; foldername := "target";
                        basefolder := PyInt 7 |} ([], 1000%Z) [])
            _ 2 1000 _ ["sub"] ["a"; "b"] 1%nat "b"
            eq_refl eq_refl _ _ eq_refl eq_refl _ eq_refl eq_refl eq_refl).
  - vm_compute. reflexivity.
  - discriminate.
  - discriminate.
Defined.
